(** * Porsche EV controller: the serial protocol engine and the safety monitor

    A shallow embedding of [First_version/porsche_main_application.py]
    (classes [EVProtocol], [ConfigManager], [EVController]) and of the two
    other frame decoders of the repository, [first_tests/standalone_test.py]
    and [first_tests/stm32_simulator.py], with the properties of the
    protocol specification proved about them.

    Conventions of the embedding.
    - A Python [str] is a [string]; a character stands for the code point
      of the same number (0..255).  Code points above 255 are outside the
      model: a read whose bytes decode to one has no text in it
      ([decode_read]).
    - A Python [dict] is an association list in insertion order with
      distinct keys ([dict_set] overwrites in place, as Python does).
    - A Python [int] is a [Z]; a finite Python [float] is the rational
      number that it is, and [float] reads a literal as the binary64 number
      nearest to it, or as an infinity ([PyNum.binary64]).  The sign of a
      zero is not kept.
    - The serial port, the clock and the inbox are the environment: a write
      either succeeds or raises, and a wait sees a schedule of clock
      readings and polled messages. *)

From Stdlib Require Import Bool Arith ZArith QArith Qreduction List Ascii String.
From Stdlib Require Import Decimal DecimalPos DecimalString Lia.
Import ListNotations.

Local Open Scope string_scope.
Local Open Scope Z_scope.

(* ================================================================== *)
(** * Python strings *)
(* ================================================================== *)

Module PyStr.

(** [c in s] for a one-character [c]. *)
Fixpoint contains (c : ascii) (s : string) : bool :=
  match s with
  | EmptyString => false
  | String a s' => if Ascii.eqb a c then true else contains c s'
  end.

(** Index of the first [c] in [s], if any. *)
Fixpoint index_of (c : ascii) (s : string) : option nat :=
  match s with
  | EmptyString => None
  | String a s' =>
      if Ascii.eqb a c then Some O
      else match index_of c s' with
           | Some i => Some (S i)
           | None => None
           end
  end.

(** [s[:n]] and [s[n:]] for a natural [n]. *)
Fixpoint take (n : nat) (s : string) : string :=
  match n, s with
  | S n', String a s' => String a (take n' s')
  | _, _ => EmptyString
  end.

Fixpoint drop (n : nat) (s : string) : string :=
  match n, s with
  | S n', String _ s' => drop n' s'
  | _, _ => s
  end.

(** [s.find(c, start)] for [0 <= start]: the index of the first [c] at or
    after [start], or [-1]. *)
Definition find (c : ascii) (s : string) (start : Z) : Z :=
  match index_of c (drop (Z.to_nat start) s) with
  | Some i => start + Z.of_nat i
  | None => -1
  end.

(** [s[a:b]] for [0 <= a]. *)
Definition slice (a b : Z) (s : string) : string :=
  take (Z.to_nat (b - a)) (drop (Z.to_nat a) s).

(** [s[a:]] for [0 <= a]. *)
Definition slice_from (a : Z) (s : string) : string := drop (Z.to_nat a) s.

(** [sep.join(l)]. *)
Fixpoint join (sep : string) (l : list string) : string :=
  match l with
  | [] => ""
  | [x] => x
  | x :: rest => x ++ sep ++ join sep rest
  end.

(** [s.split(c)] for a one-character separator: never empty. *)
Fixpoint split (c : ascii) (s : string) : list string :=
  match s with
  | EmptyString => [""]
  | String a s' =>
      if Ascii.eqb a c then "" :: split c s'
      else match split c s' with
           | x :: rest => String a x :: rest
           | [] => [String a ""]
           end
  end.

(** [s.split(c, 1)] when [c in s]: the text before the first [c] and the
    text after it. *)
Fixpoint split_first (c : ascii) (s : string) : option (string * string) :=
  match s with
  | EmptyString => None
  | String a s' =>
      if Ascii.eqb a c then Some ("", s')
      else match split_first c s' with
           | Some (x, y) => Some (String a x, y)
           | None => None
           end
  end.

(** [str.isspace] on the code points of the model. *)
Definition is_space (c : ascii) : bool :=
  let n := nat_of_ascii c in
  ((9 <=? n) && (n <=? 13) || (28 <=? n) && (n <=? 32)
   || (n =? 133) || (n =? 160))%nat.

(** [s.lstrip(chars)], [s.rstrip(chars)] with the set of characters to
    remove given as a predicate. *)
Fixpoint lstrip_by (p : ascii -> bool) (s : string) : string :=
  match s with
  | EmptyString => EmptyString
  | String a s' => if p a then lstrip_by p s' else s
  end.

Fixpoint rstrip_by (p : ascii -> bool) (s : string) : string :=
  match s with
  | EmptyString => EmptyString
  | String a s' =>
      match rstrip_by p s' with
      | EmptyString => if p a then EmptyString else String a EmptyString
      | r => String a r
      end
  end.

(** [s.strip()]. *)
Definition strip (s : string) : string := rstrip_by is_space (lstrip_by is_space s).

(** [s.lstrip(c)], [s.rstrip(c)] for a one-character argument. *)
Definition lstrip (c : ascii) (s : string) : string := lstrip_by (Ascii.eqb c) s.
Definition rstrip (c : ascii) (s : string) : string := rstrip_by (Ascii.eqb c) s.

(** Truth value of a string: [if s:]. *)
Definition nonempty (s : string) : bool :=
  match s with EmptyString => false | _ => true end.

(** The first and the last character of a text. *)
Definition first_char (s : string) : option ascii :=
  match s with
  | EmptyString => None
  | String a _ => Some a
  end.

Fixpoint last_char (s : string) : option ascii :=
  match s with
  | EmptyString => None
  | String a EmptyString => Some a
  | String _ s' => last_char s'
  end.

(** [s.startswith(c)], [s.endswith(c)]. *)
Definition startswith (c : ascii) (s : string) : bool :=
  match first_char s with Some a => Ascii.eqb a c | None => false end.

Definition endswith (c : ascii) (s : string) : bool :=
  match last_char s with Some a => Ascii.eqb a c | None => false end.

(** Every character of [s] satisfies [p]. *)
Fixpoint all_chars (p : ascii -> bool) (s : string) : bool :=
  match s with
  | EmptyString => true
  | String a s' => p a && all_chars p s'
  end.

End PyStr.

(* ================================================================== *)
(** * The wire format and the delimiter scan of [_receive_loop] *)
(* ================================================================== *)

Definition START_CHAR : ascii := "<"%char.
Definition END_CHAR : ascii := ">"%char.
Definition SEPARATOR : ascii := ":"%char.
Definition PARAM_SEP : ascii := ";"%char.
Definition VALUE_SEP : ascii := "="%char.

(** One turn of the inner [while] of [_receive_loop]: [Some (message,
    buffer')] when a frame is cut out, [None] when the loop is left (its
    condition is false, or the [break] is taken). *)
Definition scan_once (buffer : string) : option (string * string) :=
  if PyStr.contains START_CHAR buffer && PyStr.contains END_CHAR buffer then
    let start := PyStr.find START_CHAR buffer 0 in
    let end_ := PyStr.find END_CHAR buffer start in
    if end_ >? start then
      Some (PyStr.slice start (end_ + 1) buffer, PyStr.slice_from (end_ + 1) buffer)
    else None
  else None.

(** The inner [while], run for at most [fuel] turns. *)
Fixpoint scan_loop (fuel : nat) (buffer : string) : list string * string :=
  match fuel with
  | O => ([], buffer)
  | S fuel' =>
      match scan_once buffer with
      | Some (message, buffer') =>
          let (ms, rest) := scan_loop fuel' buffer' in (message :: ms, rest)
      | None => ([], buffer)
      end
  end.

(** The inner [while] to its end: every turn removes at least two
    characters, so the length of the buffer bounds the number of turns
    ([scan_loop_fuel], [extract_frames_eq]). *)
Definition extract_frames (buffer : string) : list string * string :=
  scan_loop (String.length buffer) buffer.

(** The receive buffer and the raw frames cut out of it so far. *)
Record RxState : Type := mkRx { rx_buffer : string; rx_frames : list string }.

(** One turn of the outer loop with [in_waiting > 0], after the bytes
    read are decoded to the text [data]: [buffer += data], then the inner
    [while].  What the loop does with each frame it cuts out is
    [_parse_message] and [_trigger_callback] below. *)
Definition rx_chunk (st : RxState) (data : string) : RxState :=
  let (ms, rest) := extract_frames (rx_buffer st ++ data) in
  mkRx rest (rx_frames st ++ ms).

(* ================================================================== *)
(** * The bytes read from the port *)
(* ================================================================== *)

Module Utf8.




End Utf8.








(* ================================================================== *)
(** * Python values *)
(* ================================================================== *)

(** The values that a payload, the telemetry and the configuration hold. *)
Inductive value : Type :=
| VNone
| VBool (b : bool)
| VInt (z : Z)
| VFloat (q : Q)
| VStr (s : string)
| VInf (negative : bool).

Module PyNum.

Definition is_digit (c : ascii) : bool :=
  let n := nat_of_ascii c in ((48 <=? n) && (n <=? 57))%nat.

Definition digit_val (c : ascii) : Z := Z.of_nat (nat_of_ascii c - 48).

(** A run of decimal digits to the end of the text, where a single
    underscore may stand between two digits; [prev] tells that the
    previous character was a digit. *)
Fixpoint digit_run (acc : Z) (prev : bool) (s : string) : option Z :=
  match s with
  | EmptyString => if prev then Some acc else None
  | String c s' =>
      if is_digit c then digit_run (10 * acc + digit_val c) true s'
      else if Ascii.eqb c "_" then
        (if prev then digit_run acc false s' else None)
      else None
  end.

(** The blanks that [int] and [float] skip at both ends of a text: those
    of C's [isspace], and the blanks above 127, which both readers turn
    into spaces first.  The separators 28..31, which [str.strip] removes,
    are not among them. *)
Definition is_blank (c : ascii) : bool :=
  let n := nat_of_ascii c in
  ((9 <=? n) && (n <=? 13) || (n =? 32) || (n =? 133) || (n =? 160))%nat.

Definition strip_blanks (s : string) : string :=
  PyStr.rstrip_by is_blank (PyStr.lstrip_by is_blank s).

(** [int(s)]: blanks around, a sign, digits.  [None] is [ValueError].
    The bound of the interpreter on the number of digits of a literal is
    not modelled. *)
(** The sign at the head of a literal, if there is one, and the text
    after it: [true] for a minus. *)
Definition split_sign (s : string) : bool * string :=
  match s with
  | String c r =>
      if Ascii.eqb c "-" then (true, r)
      else if Ascii.eqb c "+" then (false, r)
      else (false, s)
  | EmptyString => (false, s)
  end.

Definition py_int (s : string) : option Z :=
  let (negative, t) := split_sign (strip_blanks s) in
  option_map (fun z => if negative then - z else z) (digit_run 0 false t).

(** The previous character, if any, satisfies [p]. *)
Definition prev_is (p : ascii -> bool) (prev : option ascii) : bool :=
  match prev with Some c => p c | None => false end.

(** The underscores of a float literal: each one after a digit and
    before a digit; they are removed.  [prev] is the previous character. *)
Fixpoint drop_underscores (prev : option ascii) (s : string) : option string :=
  match s with
  | EmptyString =>
      if prev_is (Ascii.eqb "_") prev then None else Some EmptyString
  | String c s' =>
      if Ascii.eqb c "_" then
        (if prev_is is_digit prev then drop_underscores (Some c) s' else None)
      else if prev_is (Ascii.eqb "_") prev && negb (is_digit c) then None
      else option_map (String c) (drop_underscores (Some c) s')
  end.

(** The leading digits of [s]: their value on top of [acc], how many
    they are, and the rest of the text. *)
Fixpoint span_digits (acc : Z) (n : nat) (s : string) : Z * nat * string :=
  match s with
  | String c s' =>
      if is_digit c then span_digits (10 * acc + digit_val c) (S n) s'
      else (acc, n, s)
  | EmptyString => (acc, n, s)
  end.

(** The number [mant * 10 ^ e]. *)
Definition decimal_value (mant e : Z) : Q :=
  Qred (if 0 <=? e then (mant * 10 ^ e) # 1
        else mant # Z.to_pos (10 ^ (- e))).

(** The exponent part of a float literal, from the character after the
    mantissa: nothing, or [e] or [E], a sign, digits to the end. *)
Definition exponent (s : string) : option Z :=
  match s with
  | EmptyString => Some 0
  | String c r =>
      if Ascii.eqb c "e" || Ascii.eqb c "E" then
        let (negative, t) := split_sign r in
        option_map (fun z => if negative then - z else z) (digit_run 0 false t)
      else None
  end.

(** Mantissa and exponent of an unsigned literal without underscores. *)
Definition unsigned_float (s : string) : option Q :=
  let '(ip, ni, r1) := span_digits 0 0 s in
  let '(mant, nf, r2) :=
    match r1 with
    | String c r => if Ascii.eqb c "." then span_digits ip 0 r else (ip, O, r1)
    | EmptyString => (ip, O, r1)
    end in
  if (ni + nf =? 0)%nat then None
  else
    match exponent r2 with
    | Some e => Some (decimal_value mant (e - Z.of_nat nf))
    | None => None
    end.

(** [num / den] rounded to the nearest integer, a tie to the even one;
    [0 < den]. *)
Definition round_half_even (num den : Z) : Z :=
  let f := num / den in
  match 2 * (num mod den) ?= den with
  | Lt => f
  | Gt => f + 1
  | Eq => if Z.even f then f else f + 1
  end.

(** The binary64 number nearest to [p / d] for [0 < p], a tie to the even
    significand; [None] when it is beyond the largest one.  [e] is the
    binary exponent of [p / d] and [2 ^ k] the distance of the binary64
    numbers around it: 53 bits of significand, and no exponent below that
    of the subnormal numbers. *)
Definition nearest (p : Z) (d : positive) : option Q :=
  let e0 := Z.log2 p - Z.log2 (Z.pos d) in
  let e :=
    if (if 0 <=? e0 then Z.pos d * 2 ^ e0 <=? p else Z.pos d <=? p * 2 ^ (- e0))
    then e0 else e0 - 1 in
  let k := Z.max (e - 52) (-1074) in
  if 0 <=? k then
    let n := round_half_even p (Z.pos d * 2 ^ k) in
    if 2 ^ 1024 <=? n * 2 ^ k then None else Some (Qred ((n * 2 ^ k) # 1))
  else
    let n := round_half_even (p * 2 ^ (- k)) (Z.pos d) in
    Some (Qred (n # Z.to_pos (2 ^ (- k)))).

(** What [float] makes of a literal: a finite number or an infinity. *)
Inductive reading : Type :=
| Finite (q : Q)
| Infinite (negative : bool).

(** The binary64 number that the decimal number [q] is read as. *)
Definition binary64 (q : Q) : reading :=
  match Qnum q with
  | 0 => Finite 0
  | Z.pos p =>
      match nearest (Z.pos p) (Qden q) with
      | Some r => Finite r
      | None => Infinite false
      end
  | Z.neg p =>
      match nearest (Z.pos p) (Qden q) with
      | Some r => Finite (- r)
      | None => Infinite true
      end
  end.

(** [float(s)] for the literals of numbers: blanks around, a sign, digits
    with an optional point, an optional exponent.  [None] is
    [ValueError].  The literals [inf], [infinity] and [nan] have no point;
    the decoders call [float] only on a text with a point, so they are
    left out. *)
Definition py_float (s : string) : option reading :=
  match drop_underscores None (strip_blanks s) with
  | Some t =>
      let (negative, u) := split_sign t in
      option_map (fun q => binary64 (if negative then - q else q)) (unsigned_float u)
  | None => None
  end.

(** The number that a text of decimal digits spells, on top of [acc]. *)
Fixpoint digits_value (acc : Z) (s : string) : Z :=
  match s with
  | EmptyString => acc
  | String c s' => digits_value (10 * acc + digit_val c) s'
  end.

(** The characters that a text which [int] reads can hold, and those
    that a text with a point which [float] reads can hold. *)
Definition int_char (c : ascii) : bool :=
  is_digit c || is_blank c || Ascii.eqb c "+" || Ascii.eqb c "-" || Ascii.eqb c "_".

Definition float_char (c : ascii) : bool :=
  int_char c || Ascii.eqb c "." || Ascii.eqb c "e" || Ascii.eqb c "E".

(** A number with the sign that the text [sign] gives it. *)
Definition signed (sign : string) (z : Z) : Z :=
  if String.eqb sign "-" then - z else z.

(** [str(z)] for an [int]. *)
Definition str_int (z : Z) : string :=
  DecimalString.NilZero.string_of_int (Z.to_int z).

(** The number that a value is in a comparison or an arithmetic
    equality: [bool] and [int] are numbers, as a finite [float] is. *)
Definition num_of (v : value) : option Q :=
  match v with
  | VBool b => Some (if b then 1 else 0)%Q
  | VInt z => Some (z # 1)
  | VFloat q => Some q
  | _ => None
  end.

(** [a == b]. *)
Definition py_eq (a b : value) : bool :=
  match num_of a, num_of b with
  | Some x, Some y => Qeq_bool x y
  | _, _ =>
      match a, b with
      | VStr s, VStr t => String.eqb s t
      | VNone, VNone => true
      | VInf n, VInf m => Bool.eqb n m
      | _, _ => false
      end
  end.

(** [a < b]; [None] is [TypeError].  An infinity stands below or above
    every number. *)
Definition py_lt (a b : value) : option bool :=
  match num_of a, num_of b with
  | Some x, Some y => Some (negb (Qle_bool y x))
  | _, _ =>
      match a, b with
      | VStr s, VStr t => Some (String.ltb s t)
      | VInf n, VInf m => Some (n && negb m)
      | VInf n, _ => match num_of b with Some _ => Some n | None => None end
      | _, VInf m => match num_of a with Some _ => Some (negb m) | None => None end
      | _, _ => None
      end
  end.

(** [a > b]. *)
Definition py_gt (a b : value) : option bool := py_lt b a.

(** [v in l] for a list [l]. *)
Definition py_in (v : value) (l : list value) : bool := existsb (py_eq v) l.

(** Truth value of [v]. *)
Definition truthy (v : value) : bool :=
  match v with
  | VNone => false
  | VBool b => b
  | VInt z => negb (z =? 0)
  | VFloat q => negb (Qeq_bool q 0)
  | VStr s => PyStr.nonempty s
  | VInf _ => true
  end.

End PyNum.

(* ================================================================== *)
(** * Python dictionaries with string keys *)
(* ================================================================== *)

Definition dict : Type := list (string * value).

(** [d.get(k)]; [None] when the key is absent. *)
Fixpoint dict_get (k : string) (d : dict) : option value :=
  match d with
  | [] => None
  | (k', v) :: r => if String.eqb k' k then Some v else dict_get k r
  end.

(** [d.get(k, default)]. *)
Definition dict_get_default (k : string) (default : value) (d : dict) : value :=
  match dict_get k d with Some v => v | None => default end.

(** [k in d]. *)
Definition dict_mem (k : string) (d : dict) : bool :=
  match dict_get k d with Some _ => true | None => false end.

(** [d[k] = v]: a present key keeps its place. *)
Fixpoint dict_set (k : string) (v : value) (d : dict) : dict :=
  match d with
  | [] => [(k, v)]
  | (k', v') :: r =>
      if String.eqb k' k then (k', v) :: r else (k', v') :: dict_set k v r
  end.

(** [d.update(e)]. *)
Definition dict_update (d e : dict) : dict :=
  fold_left (fun acc kv => dict_set (fst kv) (snd kv) acc) e d.

(* ================================================================== *)
(** * [EVProtocol]: the frame codec *)
(* ================================================================== *)

(** [repr] of a [float], which [str] and the f-strings use: the shortest
    decimal text that reads back as the same binary64 number.  It is a
    parameter of the model. *)
Class FloatRepr : Type := float_repr : Q -> string.

(** [str(v)], as [f"{v}"] formats a value. *)
Definition py_str `{FloatRepr} (v : value) : string :=
  match v with
  | VNone => "None"
  | VBool true => "True"
  | VBool false => "False"
  | VInt z => PyNum.str_int z
  | VFloat q => float_repr q
  | VStr s => s
  | VInf false => "inf"
  | VInf true => "-inf"
  end.

Inductive MessageType : Type :=
| SET_MAX_CURRENT | SET_CURRENT_LIMIT | EMERGENCY_STOP | RESET_FAULT
| GET_TELEMETRY | GET_TEMP | GET_STATUS | GET_FAULTS
| DATA | ACK | NACK | FAULT.

(** [msg_type.value]. *)
Definition MessageType_value (t : MessageType) : string :=
  match t with
  | SET_MAX_CURRENT => "SET_MAX_CURRENT"
  | SET_CURRENT_LIMIT => "SET_CURRENT_LIMIT"
  | EMERGENCY_STOP => "ESTOP"
  | RESET_FAULT => "RESET_FAULT"
  | GET_TELEMETRY => "GET_TELEM"
  | GET_TEMP => "GET_TEMP"
  | GET_STATUS => "GET_STATUS"
  | GET_FAULTS => "GET_FAULTS"
  | DATA => "DATA"
  | ACK => "ACK"
  | NACK => "NACK"
  | FAULT => "FAULT"
  end.

(** The [float] value that a reading is. *)
Definition float_value (r : PyNum.reading) : value :=
  match r with
  | PyNum.Finite q => VFloat q
  | PyNum.Infinite n => VInf n
  end.

(** The typing of the text after the first [=]: the [try] with its
    [except ValueError]. *)
Definition parse_value (text : string) : value :=
  if PyStr.contains "." text then
    match PyNum.py_float text with
    | Some r => float_value r
    | None => VStr text
    end
  else
    match PyNum.py_int text with
    | Some z => VInt z
    | None => VStr text
    end.

(** The head of a decoded frame: the stripped text cut at the first
    [SEPARATOR]. *)
Definition split_head (message : string) : string * string :=
  if PyStr.contains SEPARATOR message then
    match PyStr.split_first SEPARATOR message with
    | Some (msg_type, data_str) => (msg_type, data_str)
    | None => (message, "")
    end
  else (message, "").

(** [message.strip().lstrip(START_CHAR).rstrip(END_CHAR)]. *)
Definition strip_frame (message : string) : string :=
  PyStr.rstrip END_CHAR (PyStr.lstrip START_CHAR (PyStr.strip message)).

(** A decoded message of the main application: the dictionary with the
    keys [type], [data] and [timestamp]. *)
Record Message : Type := mkMessage {
  msg_type : string;
  msg_data : dict;
  msg_timestamp : Q
}.

Module EVProtocol.

(** The body of [for param in params] in [_parse_message]. *)
Definition parse_param (data : dict) (param : string) : dict :=
  if PyStr.contains VALUE_SEP param then
    match PyStr.split_first VALUE_SEP param with
    | Some (key, value) => dict_set key (parse_value value) data
    | None => data
    end
  else dict_set param (VBool true) data.

(** [EVProtocol._parse_message]; [now] is the reading of [time.time()].
    No statement of the [try] raises on a [str], so the result is never
    [None]. *)
Definition _parse_message (now : Q) (message : string) : option Message :=
  let message := strip_frame message in
  let (msg_type, data_str) := split_head message in
  let data :=
    if PyStr.nonempty data_str then
      fold_left parse_param (PyStr.split PARAM_SEP data_str) []
    else [] in
  Some (mkMessage msg_type data now).

(** [EVProtocol._build_message]. *)
Definition _build_message `{FloatRepr} (msg_type : string) (params : option dict) : string :=
  let message := String START_CHAR msg_type in
  let message :=
    match params with
    | Some ((_ :: _) as params) =>
        let param_strs :=
          map (fun kv => fst kv ++ String VALUE_SEP (py_str (snd kv))) params in
        message ++ String SEPARATOR (PyStr.join (String PARAM_SEP "") param_strs)
    | _ => message
    end in
  message ++ String END_CHAR "".

(** [command in msg['data'] or msg['data'].get('ACK') == command]. *)
Definition ack_references (command : string) (data : dict) : bool :=
  dict_mem command data
  || match dict_get "ACK" data with
     | Some v => PyNum.py_eq v (VStr command)
     | None => false
     end.

(** One turn of the [while] of [wait_for_ack] as the caller's activity
    sees it: the clock read by the loop condition, and what
    [get_message(timeout=0.1)] then returns. *)
Record Turn : Type := mkTurn { now : Q; got : option Message }.

(** A wait: the clock read into [start_time], and the turns to come. *)
Record Wait : Type := mkWait { started : Q; turns : nat -> Turn }.

Definition Qltb (x y : Q) : bool := negb (Qle_bool y x).

(** The [while] of [wait_for_ack] from turn [i], for at most [fuel]
    turns; [None] when the fuel runs out before the loop is left. *)
Fixpoint wait_turns (fuel : nat) (w : Wait) (i : nat) (command : string)
    (timeout : Q) : option bool :=
  match fuel with
  | O => None
  | S fuel' =>
      if Qltb (now (turns w i) - started w) timeout then
        match got (turns w i) with
        | Some msg =>
            if String.eqb (msg_type msg) "ACK"
               && ack_references command (msg_data msg)
            then Some true
            else wait_turns fuel' w (S i) command timeout
        | None => wait_turns fuel' w (S i) command timeout
        end
      else Some false
  end.

(** [EVProtocol.wait_for_ack]. *)
Definition wait_for_ack (fuel : nat) (w : Wait) (command : string)
    (timeout : Q) : option bool :=
  wait_turns fuel w O command timeout.

(** The loop condition of [wait_for_ack] holds at turn [i]: the clock
    read there is less than [timeout] after [start_time]. *)
Definition in_time (w : Wait) (timeout : Q) (i : nat) : bool :=
  Qltb (now (turns w i) - started w) timeout.

(** [msg] is an acknowledgement of [command] for [wait_for_ack]: both
    [if]s of the loop body. *)
Definition acknowledges (command : string) (msg : Message) : bool :=
  String.eqb (msg_type msg) "ACK" && ack_references command (msg_data msg).

(** Some message polled at one of the turns [i, ..., i + k - 1]
    acknowledges [command]. *)
Definition acked (w : Wait) (command : string) (i k : nat) : bool :=
  existsb
    (fun j => match got (turns w j) with
              | Some msg => acknowledges command msg
              | None => false
              end)
    (seq i k).

End EVProtocol.

(* ================================================================== *)
(** * The decoders of the two test scripts *)
(* ================================================================== *)

Module StandaloneTest.

(** The result of [standalone_test.py]'s decoder: [type], [data], [raw]. *)
Record Message : Type := mkMessage {
  msg_type : string;
  msg_data : dict;
  msg_raw : string
}.

Definition parse_param (data : dict) (param : string) : dict :=
  if PyStr.contains VALUE_SEP param then
    match PyStr.split_first VALUE_SEP param with
    | Some (key, value) => dict_set key (parse_value value) data
    | None => data
    end
  else dict_set param (VBool true) data.

(** [EVProtocol._parse_message] of [standalone_test.py]. *)
Definition _parse_message (message : string) : option Message :=
  let message := strip_frame message in
  let (msg_type, data_str) := split_head message in
  let data :=
    if PyStr.nonempty data_str then
      fold_left parse_param (PyStr.split PARAM_SEP data_str) []
    else [] in
  Some (mkMessage msg_type data message).

End StandaloneTest.

Module STM32Simulator.

(** The result of the simulator's decoder: [type] and [data]. *)
Record Message : Type := mkMessage {
  msg_type : string;
  msg_data : dict
}.

(** The body of [for param in params]: there is no [else] here, a
    parameter without [VALUE_SEP] is passed over. *)
Definition parse_param (data : dict) (param : string) : dict :=
  if PyStr.contains VALUE_SEP param then
    match PyStr.split_first VALUE_SEP param with
    | Some (key, value) => dict_set key (parse_value value) data
    | None => data
    end
  else data.

(** [STM32Simulator._parse_message]. *)
Definition _parse_message (message : string) : option Message :=
  let message := strip_frame message in
  let (msg_type, data_str) := split_head message in
  let data :=
    if PyStr.nonempty data_str then
      fold_left parse_param (PyStr.split PARAM_SEP data_str) []
    else [] in
  Some (mkMessage msg_type data).

End STM32Simulator.

(* ================================================================== *)
(** * [ConfigManager] and [EVController] *)
(* ================================================================== *)

(** [default_config] of [ConfigManager.load_config]. *)
Definition default_config : dict :=
  [ ("max_current", VFloat 50);
    ("current_limit", VFloat 50);
    ("max_throttle", VInt 100);
    ("telemetry_interval", VFloat (1 # 2));
    ("overheat_threshold", VFloat 80);
    ("low_battery_threshold", VFloat 15);
    ("emergency_stop_on_fault", VBool true) ].

(** The state of an [EVController] with its collaborators: the
    configuration of its [ConfigManager], the switch of its [DataLogger]
    with the rows handed to [log_data], and the frames written to the
    serial port of its [EVProtocol]. *)
Record EVController : Type := mkController {
  telemetry : dict;
  faults : list value;
  connected : bool;
  config : dict;
  logging_enabled : bool;
  logged : list (list value);
  sent : list string
}.

(** How a call ends: it returns, or an exception leaves it. *)
Inductive outcome : Type := Returned | Raised.

Definition set_telemetry (t : dict) (c : EVController) : EVController :=
  mkController t (faults c) (connected c) (config c) (logging_enabled c)
    (logged c) (sent c).

Definition set_faults (f : list value) (c : EVController) : EVController :=
  mkController (telemetry c) f (connected c) (config c) (logging_enabled c)
    (logged c) (sent c).

Definition set_connected (b : bool) (c : EVController) : EVController :=
  mkController (telemetry c) (faults c) b (config c) (logging_enabled c)
    (logged c) (sent c).

Definition set_logged (l : list (list value)) (c : EVController) : EVController :=
  mkController (telemetry c) (faults c) (connected c) (config c)
    (logging_enabled c) l (sent c).

Definition set_sent (l : list string) (c : EVController) : EVController :=
  mkController (telemetry c) (faults c) (connected c) (config c)
    (logging_enabled c) (logged c) l.

(** [ConfigManager.get(key, default)]. *)
Definition config_get (key : string) (default : value) (c : EVController) : value :=
  dict_get_default key default (config c).

(** [ConfigManager.set(key, value)]. *)
Definition config_set (key : string) (v : value) (c : EVController) : EVController :=
  mkController (telemetry c) (faults c) (connected c) (dict_set key v (config c))
    (logging_enabled c) (logged c) (sent c).

(** [EVController.__init__], the state part: nothing received, no fault. *)
Definition init (cfg : dict) : EVController :=
  mkController [] [] false cfg false [] [].

(** [EVProtocol.send_message]; [wr] tells whether [serial.write] and
    [serial.flush] go through ([false]: one of them raises, which
    [send_message] catches). *)
Definition send_message `{FloatRepr} (wr : bool) (c : EVController)
    (msg_type : MessageType) (params : option dict) : EVController * bool :=
  let message := EVProtocol._build_message (MessageType_value msg_type) params in
  if wr then (set_sent (sent c ++ [message]) c, true) else (c, false).

(** [DataLogger.log_data], the values of the row it writes. *)
Definition log_data (telemetry : dict) (throttle : value) : list value :=
  [ dict_get_default "RPM" (VInt 0) telemetry;
    dict_get_default "TEMP" (VInt 0) telemetry;
    dict_get_default "CURRENT" (VInt 0) telemetry;
    dict_get_default "VOLTAGE" (VInt 0) telemetry;
    dict_get_default "SOC" (VInt 0) telemetry;
    throttle ].

(** [if name not in self.faults: self.faults.append(name)]. *)
Definition add_fault (name : value) (c : EVController) : EVController :=
  if negb (PyNum.py_in name (faults c)) then set_faults (faults c ++ [name]) c
  else c.

(** [EVController._check_safety_conditions]; a comparison of values that
    Python does not order raises [TypeError]. *)
Definition _check_safety_conditions (c : EVController) : EVController * outcome :=
  let temp := dict_get_default "TEMP" (VInt 0) (telemetry c) in
  let soc := dict_get_default "SOC" (VInt 100) (telemetry c) in
  match PyNum.py_gt temp (config_get "overheat_threshold" (VInt 80) c) with
  | None => (c, Raised)
  | Some hot =>
      let c := if hot then add_fault (VStr "OVERHEAT") c else c in
      match PyNum.py_lt soc (config_get "low_battery_threshold" (VInt 15) c) with
      | None => (c, Raised)
      | Some low =>
          ((if low then add_fault (VStr "LOW_BATTERY") c else c), Returned)
      end
  end.

(** [EVController._handle_telemetry]. *)
Definition _handle_telemetry (c : EVController) (msg : Message) : EVController * outcome :=
  let c := set_telemetry (dict_update (telemetry c) (msg_data msg)) c in
  let c := set_connected true c in
  let c :=
    if logging_enabled c then
      let throttle := dict_get_default "THROTTLE" (VInt 0) (telemetry c) in
      set_logged (logged c ++ [log_data (telemetry c) throttle]) c
    else c in
  _check_safety_conditions c.

(** [EVController.emergency_stop]. *)
Definition emergency_stop `{FloatRepr} (wr : bool) (c : EVController) : EVController * bool :=
  send_message wr c EMERGENCY_STOP None.

(** [EVController._handle_fault]. *)
Definition _handle_fault `{FloatRepr} (wr : bool) (c : EVController) (msg : Message) : EVController :=
  let fault := dict_get_default "FAULT" (VStr "UNKNOWN") (msg_data msg) in
  if negb (PyNum.py_in fault (faults c)) then
    let c := set_faults (faults c ++ [fault]) c in
    if PyNum.truthy (config_get "emergency_stop_on_fault" VNone c) then
      fst (emergency_stop wr c)
    else c
  else c.

(** [EVProtocol._trigger_callback] with the callbacks that
    [EVController.__init__] registers; an exception of a callback is
    caught here. *)
Definition _trigger_callback `{FloatRepr} (wr : bool) (c : EVController) (msg : Message) : EVController :=
  if String.eqb (msg_type msg) "DATA" then fst (_handle_telemetry c msg)
  else if String.eqb (msg_type msg) "FAULT" then _handle_fault wr c msg
  else c.

(** [EVController.set_max_throttle]; [None] when the fuel of the wait
    runs out. *)
Definition set_max_throttle `{FloatRepr} (wr : bool) (fuel : nat) (w : EVProtocol.Wait)
    (c : EVController) (max_throttle : Z) : option (EVController * bool) :=
  let max_throttle := Z.max 0 (Z.min 100 max_throttle) in
  let (c, success) :=
    send_message wr c SET_MAX_CURRENT (Some [("MAX_THROTTLE", VInt max_throttle)]) in
  if success then
    match EVProtocol.wait_for_ack fuel w "SET_MAX_CURRENT" (1 # 2) with
    | Some true => Some (config_set "max_throttle" (VInt max_throttle) c, true)
    | Some false => Some (c, false)
    | None => None
    end
  else Some (c, false).

(** [EVController.set_current_limit]. *)
Definition set_current_limit `{FloatRepr} (wr : bool) (fuel : nat) (w : EVProtocol.Wait)
    (c : EVController) (current : value) : option (EVController * bool) :=
  let (c, success) :=
    send_message wr c SET_CURRENT_LIMIT (Some [("LIMIT", current)]) in
  if success then
    match EVProtocol.wait_for_ack fuel w "SET_CURRENT_LIMIT" (1 # 2) with
    | Some true => Some (config_set "current_limit" current c, true)
    | Some false => Some (c, false)
    | None => None
    end
  else Some (c, false).

(** [EVController.reset_faults]. *)
Definition reset_faults `{FloatRepr} (wr : bool) (fuel : nat) (w : EVProtocol.Wait)
    (c : EVController) : option (EVController * bool) :=
  let (c, success) := send_message wr c RESET_FAULT None in
  if success then
    match EVProtocol.wait_for_ack fuel w "RESET_FAULT" (1 # 2) with
    | Some true => Some (set_faults [] c, true)
    | Some false => Some (c, false)
    | None => None
    end
  else Some (c, false).

(** One operation of the controller that touches the fault list. *)
Inductive fault_step `{FloatRepr} : EVController -> EVController -> Prop :=
| step_handle_fault (wr : bool) (c : EVController) (msg : Message) :
    fault_step c (_handle_fault wr c msg)
| step_check_safety (c : EVController) :
    fault_step c (fst (_check_safety_conditions c))
| step_handle_telemetry (c : EVController) (msg : Message) :
    fault_step c (fst (_handle_telemetry c msg))
| step_reset_faults (wr : bool) (fuel : nat) (w : EVProtocol.Wait)
    (c c' : EVController) (ok : bool) :
    reset_faults wr fuel w c = Some (c', ok) -> fault_step c c'
| step_set_max_throttle (wr : bool) (fuel : nat) (w : EVProtocol.Wait)
    (c c' : EVController) (n : Z) (ok : bool) :
    set_max_throttle wr fuel w c n = Some (c', ok) -> fault_step c c'
| step_set_current_limit (wr : bool) (fuel : nat) (w : EVProtocol.Wait)
    (c c' : EVController) (v : value) (ok : bool) :
    set_current_limit wr fuel w c v = Some (c', ok) -> fault_step c c'.

(** The states that the controller reaches from its initial state. *)
Inductive reachable `{FloatRepr} (cfg : dict) : EVController -> Prop :=
| reach_init : reachable cfg (init cfg)
| reach_step (c c' : EVController) :
    reachable cfg c -> fault_step c c' -> reachable cfg c'.

(** No two entries of a fault list are equal for Python's [==]. *)
Fixpoint distinct (l : list value) : bool :=
  match l with
  | [] => true
  | x :: r => negb (PyNum.py_in x r) && distinct r
  end.

(** The fault list after the two checks of [_check_safety_conditions]
    on a temperature [t] against [h] and a state of charge [s] against
    [l]. *)
Definition checked (t h s l : Q) (f : list value) : list value :=
  let f1 :=
    if negb (Qle_bool t h)
    then (if PyNum.py_in (VStr "OVERHEAT") f then f else f ++ [VStr "OVERHEAT"])%list
    else f in
  if negb (Qle_bool l s)
  then (if PyNum.py_in (VStr "LOW_BATTERY") f1 then f1 else f1 ++ [VStr "LOW_BATTERY"])%list
  else f1.

(* ================================================================== *)
(** * Texts on the wire *)
(* ================================================================== *)

(** One parameter as [_build_message] writes it: [f"{k}={v}"]. *)
Definition param_str `{FloatRepr} (kv : string * value) : string :=
  fst kv ++ String VALUE_SEP (py_str (snd kv)).

(** The raw frame with the kind [kind] and the payload tokens [tokens]:
    [<kind>] without tokens, [<kind:t1;...;tn>] with them. *)
Definition frame_of (kind : string) (tokens : list string) : string :=
  match tokens with
  | [] => String START_CHAR (kind ++ String END_CHAR "")
  | _ => String START_CHAR
           ((kind ++ String SEPARATOR (PyStr.join (String PARAM_SEP "") tokens))
              ++ String END_CHAR "")
  end.

(** The text that ends the body of a frame: the last token, or the kind
    when there is no token. *)
Definition closing_text (kind : string) (tokens : list string) : string :=
  last tokens kind.

(** A kind and tokens that the decoder reads back as they are: no
    [SEPARATOR] in the kind and no [START_CHAR] at its start, no
    [PARAM_SEP] in a token, no [END_CHAR] at the end of the body, and a
    single token is not the empty text. *)
Definition frame_safe (kind : string) (tokens : list string) : bool :=
  negb (PyStr.contains SEPARATOR kind)
  && negb (PyStr.startswith START_CHAR kind)
  && negb (PyStr.endswith END_CHAR (closing_text kind tokens))
  && forallb (fun t => negb (PyStr.contains PARAM_SEP t)) tokens
  && match tokens with [t] => PyStr.nonempty t | _ => true end.

(** The payload that the decoder is to give back for [params]: each
    value read again from its text. *)
Definition coerced `{FloatRepr} (params : dict) : dict :=
  map (fun kv => (fst kv, parse_value (py_str (snd kv)))) params.

(** Keys that can stand in a token: no [VALUE_SEP] in them. *)
Definition keys_safe (params : dict) : bool :=
  forallb (fun kv => negb (PyStr.contains VALUE_SEP (fst kv))) params.

(** A [FloatRepr] for the closed examples, whose payloads hold no
    float. *)
Definition no_float_repr : FloatRepr := fun _ => "".

(** A wait for the closed examples: the clock starts at 0 and reads
    0.2 s more at each turn, and [reply] is polled at turn 1. *)
Definition example_wait (reply : option Message) : EVProtocol.Wait :=
  EVProtocol.mkWait 0
    (fun i => EVProtocol.mkTurn (Z.of_nat i # 5)
                (if (i =? 1)%nat then reply else None)).

(** The acknowledgement of an earlier SET_CURRENT_LIMIT, decoded at the
    time 3 and left in the inbox, and a wait that starts at the time 10:
    its first poll returns this message, and nothing comes in later. *)
Definition stale_ack : Message :=
  mkMessage "ACK" [("ACK", VStr "SET_CURRENT_LIMIT")] 3.

Definition stale_wait : EVProtocol.Wait :=
  EVProtocol.mkWait 10
    (fun i => EVProtocol.mkTurn (10 + (Z.of_nat i # 5))
                (if (i =? 0)%nat then Some stale_ack else None)).

(* ================================================================== *)
(** * [_receive_loop] with the decoding and the dispatch of its frames *)
(* ================================================================== *)

(** What the receiving activity owns and changes: the inbox [rx_queue],
    the controller that the callbacks work on, and the number of frames
    decoded so far, by which the clock and the serial port are asked. *)
Record Dispatch : Type := mkDispatch {
  rx_queue : list Message;
  controller : EVController;
  decoded : nat
}.

(** The body of [if end > start:] for one frame: decode it,
    [rx_queue.put], [_trigger_callback].  [clk k] is the reading of
    [time.time()] at the [k]-th frame and [port k] tells whether a write
    that its callback makes goes through. *)
Definition deliver `{FloatRepr} (clk : nat -> Q) (port : nat -> bool)
    (d : Dispatch) (frame : string) : Dispatch :=
  match EVProtocol._parse_message (clk (decoded d)) frame with
  | Some parsed =>
      mkDispatch (rx_queue d ++ [parsed])
        (_trigger_callback (port (decoded d)) (controller d) parsed)
        (S (decoded d))
  | None => d
  end.

(** One turn of the outer loop of [_receive_loop] with bytes waiting:
    the text [data] that they decode to ([decode_read]) is appended, and
    every frame cut out is delivered. *)
Definition receive_chunk `{FloatRepr} (clk : nat -> Q) (port : nat -> bool)
    (st : string * Dispatch) (data : string) : string * Dispatch :=
  let (ms, rest) := extract_frames (fst st ++ data) in
  (rest, fold_left (deliver clk port) ms (snd st)).

(** [_receive_loop] of the main application over the chunks read. *)
Definition receive `{FloatRepr} (clk : nat -> Q) (port : nat -> bool)
    (c : EVController) (chunks : list string) : string * Dispatch :=
  fold_left (receive_chunk clk port) chunks ("", mkDispatch [] c O).

(** [ConfigManager.load_config], the configuration it returns: [loaded]
    is the dictionary read from the file, [None] when there is no file or
    reading it raises. *)
Definition load_config (loaded : option dict) : dict :=
  match loaded with
  | Some l => dict_update default_config l
  | None => default_config
  end.

(* ================================================================== *)
(** * [STM32Simulator]: commands and replies *)
(* ================================================================== *)

(** [round(x, ndigits)] of a [float]; a parameter of the model, as its
    [repr] is. *)
Class FloatRound : Type := float_round : Q -> Z -> Q.

Module STM32.

(** [round(v, ndigits)] for [0 <= ndigits]: an [int] is left as it is,
    a [bool] becomes an [int], an infinity stays; [None] is [TypeError]. *)
Definition py_round `{FloatRound} (v : value) (ndigits : Z) : option value :=
  match v with
  | VInt z => Some (VInt z)
  | VBool b => Some (VInt (if b then 1 else 0))
  | VFloat q => Some (VFloat (float_round q ndigits))
  | VInf n => Some (VInf n)
  | VNone | VStr _ => None
  end.

(** [self.state] of the simulator. *)
Record State : Type := mkState {
  speed : value;
  torque : value;
  rpm : value;
  temperature : value;
  current : value;
  voltage : value;
  battery_soc : value;
  max_current : value;
  regen_brake : value;
  faults : list string
}.

(** The simulator: its state and the frames it has written to its
    serial port. *)
Record Simulator : Type := mkSimulator {
  state : State;
  written : list string
}.

(** [self.state] as [__init__] sets it. *)
Definition initial_state : State :=
  mkState (VInt 0) (VInt 0) (VInt 0) (VFloat 25) (VFloat 0) (VFloat 48)
    (VFloat 100) (VFloat 50) (VInt 0) [].

(** [STM32Simulator._build_message]. *)
Definition _build_message `{FloatRepr} (msg_type : string) (params : option dict) : string :=
  let message := String START_CHAR msg_type in
  let message :=
    match params with
    | Some ((_ :: _) as params) =>
        let param_strs :=
          map (fun kv => fst kv ++ String VALUE_SEP (py_str (snd kv))) params in
        message ++ String SEPARATOR (PyStr.join (String PARAM_SEP "") param_strs)
    | _ => message
    end in
  message ++ String END_CHAR "".

(** [STM32Simulator._send_message]; a write that fails raises, and
    nothing here catches it. *)
Definition _send_message `{FloatRepr} (wr : bool) (sim : Simulator)
    (msg_type : string) (params : option dict) : Simulator * outcome :=
  let message := _build_message msg_type params in
  if wr then (mkSimulator (state sim) (written sim ++ [message]), Returned)
  else (sim, Raised).

(** [STM32Simulator._send_ack], [_send_nack]. *)
Definition _send_ack `{FloatRepr} (wr : bool) (sim : Simulator) (command : string)
    : Simulator * outcome :=
  _send_message wr sim "ACK" (Some [("ACK", VStr command)]).

Definition _send_nack `{FloatRepr} (wr : bool) (sim : Simulator)
    (command reason : string) : Simulator * outcome :=
  _send_message wr sim "NACK" (Some [("CMD", VStr command); ("REASON", VStr reason)]).

(** [STM32Simulator._send_telemetry]: the five roundings in the order of
    the dictionary display, then the frame. *)
Definition _send_telemetry `{FloatRepr} `{FloatRound} (wr : bool) (sim : Simulator)
    : Simulator * outcome :=
  match py_round (rpm (state sim)) 1,
        py_round (temperature (state sim)) 1,
        py_round (current (state sim)) 1,
        py_round (voltage (state sim)) 2,
        py_round (battery_soc (state sim)) 1 with
  | Some r, Some t, Some c, Some v, Some b =>
      _send_message wr sim "DATA"
        (Some [("RPM", r); ("TEMP", t); ("CURRENT", c); ("VOLTAGE", v); ("SOC", b)])
  | _, _, _, _, _ => (sim, Raised)
  end.

Definition set_speed (v : value) (st : State) : State :=
  mkState v (torque st) (rpm st) (temperature st) (current st) (voltage st)
    (battery_soc st) (max_current st) (regen_brake st) (faults st).

Definition set_torque (v : value) (st : State) : State :=
  mkState (speed st) v (rpm st) (temperature st) (current st) (voltage st)
    (battery_soc st) (max_current st) (regen_brake st) (faults st).

Definition set_max_current (v : value) (st : State) : State :=
  mkState (speed st) (torque st) (rpm st) (temperature st) (current st)
    (voltage st) (battery_soc st) v (regen_brake st) (faults st).

Definition set_regen_brake (v : value) (st : State) : State :=
  mkState (speed st) (torque st) (rpm st) (temperature st) (current st)
    (voltage st) (battery_soc st) (max_current st) v (faults st).

(** The four assignments of the [ESTOP] branch. *)
Definition stopped (st : State) : State :=
  mkState (VInt 0) (VInt 0) (VInt 0) (temperature st) (VInt 0) (voltage st)
    (battery_soc st) (max_current st) (regen_brake st) (faults st).

Definition clear_faults (st : State) : State :=
  mkState (speed st) (torque st) (rpm st) (temperature st) (current st)
    (voltage st) (battery_soc st) (max_current st) (regen_brake st) [].

Definition with_state (st : State) (sim : Simulator) : Simulator :=
  mkSimulator st (written sim).

(** A [SET_...] branch of [_handle_command]: the parameter [key] is
    stored by [store] and the command acknowledged, or the command is
    refused when the key is missing. *)
Definition set_branch `{FloatRepr} (wr : bool) (sim : Simulator) (command key : string)
    (store : value -> State -> State) (data : dict) : Simulator * outcome :=
  match dict_get key data with
  | Some v => _send_ack wr (with_state (store v (state sim)) sim) command
  | None => _send_nack wr sim command "MISSING_PARAM"
  end.

(** [STM32Simulator._handle_command]. *)
Definition _handle_command `{FloatRepr} `{FloatRound} (wr : bool) (sim : Simulator)
    (msg : option STM32Simulator.Message) : Simulator * outcome :=
  match msg with
  | None => (sim, Returned)
  | Some msg =>
      let msg_type := STM32Simulator.msg_type msg in
      let data := STM32Simulator.msg_data msg in
      if String.eqb msg_type "SET_SPEED" then
        set_branch wr sim "SET_SPEED" "SPEED" set_speed data
      else if String.eqb msg_type "SET_TORQUE" then
        set_branch wr sim "SET_TORQUE" "TORQUE" set_torque data
      else if String.eqb msg_type "SET_MAX_CURRENT" then
        set_branch wr sim "SET_MAX_CURRENT" "CURRENT" set_max_current data
      else if String.eqb msg_type "SET_REGEN_BRAKE" then
        set_branch wr sim "SET_REGEN_BRAKE" "REGEN" set_regen_brake data
      else if String.eqb msg_type "ESTOP" then
        _send_ack wr (with_state (stopped (state sim)) sim) "ESTOP"
      else if String.eqb msg_type "RESET_FAULT" then
        _send_ack wr (with_state (clear_faults (state sim)) sim) "RESET_FAULT"
      else if String.eqb msg_type "GET_TELEM" then
        _send_telemetry wr sim
      else if String.eqb msg_type "GET_TEMP" then
        match py_round (temperature (state sim)) 1 with
        | Some t => _send_message wr sim "DATA" (Some [("TEMP", t)])
        | None => (sim, Raised)
        end
      else if String.eqb msg_type "GET_STATUS" then
        _send_message wr sim "DATA"
          (Some [("SPEED", speed (state sim)); ("TORQUE", torque (state sim));
                 ("FAULTS", VInt (Z.of_nat (List.length (faults (state sim)))))])
      else if String.eqb msg_type "GET_FAULTS" then
        let fault_str :=
          match faults (state sim) with
          | [] => "NONE"
          | fs => PyStr.join "," fs
          end in
        _send_message wr sim "DATA" (Some [("FAULTS", VStr fault_str)])
      else
        _send_nack wr sim "UNKNOWN" "INVALID_COMMAND"
  end.

(** The body of [if end > start:] in the simulator's [_receive_loop]
    for one frame: decode it and handle it. *)
Definition serve `{FloatRepr} `{FloatRound} (wr : bool) (sim : Simulator)
    (frame : string) : Simulator * outcome :=
  _handle_command wr sim (STM32Simulator._parse_message frame).

End STM32.

(** The text between the delimiters of [frame_of kind tokens]. *)
Definition frame_body (kind : string) (tokens : list string) : string :=
  match tokens with
  | [] => kind
  | _ => kind ++ String SEPARATOR (PyStr.join (String PARAM_SEP "") tokens)
  end.

(** A kind with a payload that goes over the wire and comes back: its
    frame is of safe parts, its keys are safe, and no [END_CHAR] stands
    in the body of its frame. *)
Definition sendable `{FloatRepr} (kp : string * dict) : bool :=
  frame_safe (fst kp) (map param_str (snd kp))
  && keys_safe (snd kp)
  && negb (PyStr.contains END_CHAR (frame_body (fst kp) (map param_str (snd kp)))).

(** The first character of [s], if any, is no digit. *)
Definition stops_digits (s : string) : Prop :=
  match s with
  | String c _ => PyNum.is_digit c = false
  | EmptyString => True
  end.

(** The text of an exponent: nothing, or the letter, an optional sign
    and digits; [e] is the exponent that it spells. *)
Inductive exponent_text : string -> Z -> Prop :=
| no_exponent : exponent_text "" 0
| with_exponent (c : ascii) (sign ds : string) :
    c = "e"%char \/ c = "E"%char ->
    In sign [""; "+"; "-"] -> ds <> "" ->
    PyStr.all_chars PyNum.is_digit ds = true ->
    exponent_text (String c (sign ++ ds)) (PyNum.signed sign (PyNum.digits_value 0 ds)).

(* ================================================================== *)
(** * Lemmas on strings *)
(* ================================================================== *)

Section StringFacts.

Lemma append_nil_r (s : string) : s ++ "" = s.
Proof. induction s as [|a s IH]; simpl; [reflexivity | now rewrite IH]. Qed.

Lemma append_assoc (s t u : string) : (s ++ t) ++ u = s ++ (t ++ u).
Proof. induction s as [|a s IH]; simpl; [reflexivity | now rewrite IH]. Qed.

Lemma length_append (s t : string) :
  String.length (s ++ t) = (String.length s + String.length t)%nat.
Proof. induction s as [|a s IH]; simpl; [reflexivity | now rewrite IH]. Qed.

Lemma contains_append (c : ascii) (s t : string) :
  PyStr.contains c (s ++ t) = PyStr.contains c s || PyStr.contains c t.
Proof.
  induction s as [|a s IH]; simpl; [reflexivity|].
  destruct (Ascii.eqb a c); [reflexivity | exact IH].
Qed.

Lemma index_of_contains (c : ascii) (s : string) :
  PyStr.contains c s = match PyStr.index_of c s with Some _ => true | None => false end.
Proof.
  induction s as [|a s IH]; simpl; [reflexivity|].
  destruct (Ascii.eqb a c); [reflexivity|].
  rewrite IH. now destruct (PyStr.index_of c s).
Qed.

Lemma index_of_lt (c : ascii) (s : string) (i : nat) :
  PyStr.index_of c s = Some i -> (i < String.length s)%nat.
Proof.
  revert i; induction s as [|a s IH]; simpl; intros i H; [discriminate|].
  destruct (Ascii.eqb a c).
  - injection H as <-. lia.
  - destruct (PyStr.index_of c s) as [j|]; [|discriminate].
    injection H as <-. specialize (IH j eq_refl). lia.
Qed.

Lemma index_of_append_l (c : ascii) (s t : string) (i : nat) :
  PyStr.index_of c s = Some i -> PyStr.index_of c (s ++ t) = Some i.
Proof.
  revert i; induction s as [|a s IH]; simpl; intros i H; [discriminate|].
  destruct (Ascii.eqb a c); [exact H|].
  destruct (PyStr.index_of c s) as [j|]; [|discriminate].
  now rewrite (IH j eq_refl).
Qed.

Lemma drop_length (n : nat) (s : string) :
  String.length (PyStr.drop n s) = (String.length s - n)%nat.
Proof.
  revert s; induction n as [|n IH]; intros [|a s]; simpl; auto.
Qed.

Lemma drop_append_l (n : nat) (s t : string) :
  (n <= String.length s)%nat -> PyStr.drop n (s ++ t) = PyStr.drop n s ++ t.
Proof.
  revert s; induction n as [|n IH]; intros [|a s] H; simpl in *; auto; try lia.
  apply IH; lia.
Qed.

Lemma take_append_l (n : nat) (s t : string) :
  (n <= String.length s)%nat -> PyStr.take n (s ++ t) = PyStr.take n s.
Proof.
  revert s; induction n as [|n IH]; intros s H.
  - now destruct s, t.
  - destruct s as [|a s]; simpl in *; [lia|].
    f_equal. apply IH; lia.
Qed.

Lemma take_length (n : nat) (s : string) :
  String.length (PyStr.take n s) = Nat.min n (String.length s).
Proof.
  revert s; induction n as [|n IH]; intros [|a s]; simpl; auto.
Qed.

End StringFacts.

(* ================================================================== *)
(** * The delimiter scan *)
(* ================================================================== *)

Section Scan.

Lemma index_of_drop_head (c : ascii) (s : string) (i : nat) :
  PyStr.index_of c s = Some i -> exists r, PyStr.drop i s = String c r.
Proof.
  revert i; induction s as [|a s IH]; simpl; intros i H; [discriminate|].
  destruct (Ascii.eqb a c) eqn:E.
  - injection H as <-. apply Ascii.eqb_eq in E. subst a. now exists s.
  - destruct (PyStr.index_of c s) as [j|]; [|discriminate].
    injection H as <-. simpl. now apply IH.
Qed.

Lemma index_of_drop_none (c : ascii) (s : string) (n : nat) :
  PyStr.index_of c s = None -> PyStr.index_of c (PyStr.drop n s) = None.
Proof.
  revert s; induction n as [|n IH]; intros [|a s] H; simpl in *; auto.
  destruct (Ascii.eqb a c); [discriminate|].
  destruct (PyStr.index_of c s) eqn:E; [discriminate|]. now apply IH.
Qed.

Lemma find_zero (c : ascii) (s : string) :
  PyStr.find c s 0 =
  match PyStr.index_of c s with Some i => Z.of_nat i | None => -1 end.
Proof. unfold PyStr.find. simpl. now destruct (PyStr.index_of c s). Qed.

Lemma find_nat (c : ascii) (s : string) (i : nat) :
  PyStr.find c s (Z.of_nat i) =
  match PyStr.index_of c (PyStr.drop i s) with
  | Some j => Z.of_nat i + Z.of_nat j
  | None => -1
  end.
Proof. unfold PyStr.find. now rewrite Nat2Z.id. Qed.

(** The turn of the scan on naturals: the first [<] at [i], the first
    [>] of the text from there at [j]. *)
Lemma scan_once_spec (b : string) :
  scan_once b =
  match PyStr.index_of START_CHAR b with
  | None => None
  | Some i =>
      match PyStr.index_of END_CHAR (PyStr.drop i b) with
      | None => None
      | Some j => Some (PyStr.take (S j) (PyStr.drop i b), PyStr.drop (i + S j) b)
      end
  end.
Proof.
  unfold scan_once. rewrite !index_of_contains, find_zero.
  destruct (PyStr.index_of START_CHAR b) as [i|] eqn:Hi; [|reflexivity].
  cbv zeta. rewrite find_nat.
  destruct (PyStr.index_of END_CHAR b) as [k|] eqn:Hk; simpl andb; cbv iota.
  - destruct (index_of_drop_head _ _ _ Hi) as [r Hr].
    destruct (PyStr.index_of END_CHAR (PyStr.drop i b)) as [j|] eqn:Hj.
    + assert (0 < j)%nat as Hpos.
      { rewrite Hr in Hj. simpl in Hj.
        destruct (PyStr.index_of END_CHAR r); [|discriminate].
        injection Hj as <-. lia. }
      replace (Z.of_nat i + Z.of_nat j >? Z.of_nat i) with true
        by (symmetry; apply Z.gtb_lt; lia).
      unfold PyStr.slice, PyStr.slice_from.
      replace (Z.to_nat (Z.of_nat i + Z.of_nat j + 1 - Z.of_nat i)) with (S j) by lia.
      replace (Z.to_nat (Z.of_nat i + Z.of_nat j + 1)) with (i + S j)%nat by lia.
      now rewrite Nat2Z.id.
    + replace (-1 >? Z.of_nat i) with false; [reflexivity|].
      symmetry. rewrite Z.gtb_ltb. apply Z.ltb_ge. lia.
  - now rewrite (index_of_drop_none _ _ i Hk).
Qed.

Lemma scan_once_shrinks (b m b' : string) :
  scan_once b = Some (m, b') -> (String.length b' < String.length b)%nat.
Proof.
  rewrite scan_once_spec.
  destruct (PyStr.index_of START_CHAR b) as [i|] eqn:Hi; [|discriminate].
  destruct (PyStr.index_of END_CHAR (PyStr.drop i b)) as [j|] eqn:Hj; [|discriminate].
  intros H; injection H as _ <-.
  apply index_of_lt in Hi. rewrite drop_length. lia.
Qed.

(** A frame that the scan cuts out of [b] is cut out of [b ++ c] too,
    and [c] stays behind it. *)
Lemma scan_once_append (b c m b' : string) :
  scan_once b = Some (m, b') -> scan_once (b ++ c) = Some (m, b' ++ c).
Proof.
  rewrite !scan_once_spec.
  destruct (PyStr.index_of START_CHAR b) as [i|] eqn:Hi; [|discriminate].
  destruct (PyStr.index_of END_CHAR (PyStr.drop i b)) as [j|] eqn:Hj; [|discriminate].
  intros H; injection H as <- <-.
  pose proof (index_of_lt _ _ _ Hi) as Li.
  pose proof (index_of_lt _ _ _ Hj) as Lj. rewrite drop_length in Lj.
  rewrite (index_of_append_l _ _ c _ Hi).
  rewrite (drop_append_l i) by lia.
  rewrite (index_of_append_l _ _ c _ Hj).
  rewrite take_append_l by (rewrite drop_length; lia).
  now rewrite (drop_append_l (i + S j)) by lia.
Qed.

(** The length of the buffer is fuel enough. *)
Lemma scan_loop_fuel (n m : nat) (b : string) :
  (String.length b <= n)%nat -> (String.length b <= m)%nat ->
  scan_loop n b = scan_loop m b.
Proof.
  revert m b; induction n as [|n IH]; intros m b Hn Hm.
  - destruct b; [|simpl in Hn; lia]. now destruct m.
  - destruct m as [|m].
    + destruct b; [reflexivity | simpl in Hm; lia].
    + simpl. destruct (scan_once b) as [[msg b']|] eqn:E; [|reflexivity].
      apply scan_once_shrinks in E.
      now rewrite (IH m b') by lia.
Qed.

(** The inner [while] unfolded once. *)
Lemma extract_frames_eq (b : string) :
  extract_frames b =
  match scan_once b with
  | Some (message, b') =>
      let (ms, rest) := extract_frames b' in (message :: ms, rest)
  | None => ([], b)
  end.
Proof.
  unfold extract_frames.
  destruct (scan_once b) as [[msg b']|] eqn:E.
  - pose proof (scan_once_shrinks _ _ _ E) as L.
    destruct (String.length b) as [|n] eqn:Ln; [lia|].
    simpl. rewrite E.
    now rewrite (scan_loop_fuel n (String.length b') b') by lia.
  - destruct (String.length b); simpl; [reflexivity | now rewrite E].
Qed.

(** What is left of the buffer holds no further frame. *)
Lemma extract_frames_rest (b : string) (ms : list string) (r : string) :
  extract_frames b = (ms, r) -> scan_once r = None.
Proof.
  remember (String.length b) as n eqn:Hn.
  revert b ms r Hn.
  induction n as [n IH] using lt_wf_ind; intros b ms r Hn.
  rewrite extract_frames_eq.
  destruct (scan_once b) as [[msg b']|] eqn:E.
  - destruct (extract_frames b') as [ms' r'] eqn:E'.
    intros H; injection H as _ <-.
    apply scan_once_shrinks in E.
    eapply (IH (String.length b')); [lia | reflexivity | exact E'].
  - intros H; injection H as _ <-. exact E.
Qed.

(** Frames of [b ++ c]: the frames of [b], then the frames of what [b]
    left behind followed by [c]. *)
Lemma extract_frames_append (b c : string) :
  extract_frames (b ++ c) =
  let (ms, r) := extract_frames b in
  let (ms', r') := extract_frames (r ++ c) in
  ((ms ++ ms')%list, r').
Proof.
  remember (String.length b) as n eqn:Hn.
  revert b Hn.
  induction n as [n IH] using lt_wf_ind; intros b Hn.
  rewrite (extract_frames_eq b).
  destruct (scan_once b) as [[msg b']|] eqn:E.
  - rewrite (extract_frames_eq (b ++ c)), (scan_once_append _ c _ _ E).
    pose proof (scan_once_shrinks _ _ _ E) as L.
    rewrite (IH (String.length b')) by (lia || reflexivity).
    destruct (extract_frames b') as [ms r].
    now destruct (extract_frames (r ++ c)) as [ms' r'].
  - now destruct (extract_frames (b ++ c)).
Qed.

Lemma rx_chunk_chunk (st : RxState) (a b : string) :
  rx_chunk (rx_chunk st a) b = rx_chunk st (a ++ b).
Proof.
  unfold rx_chunk.
  rewrite <- append_assoc, (extract_frames_append (rx_buffer st ++ a) b).
  destruct (extract_frames (rx_buffer st ++ a)) as [ms r]. simpl.
  destruct (extract_frames (r ++ b)) as [ms' r'].
  now rewrite app_assoc.
Qed.

Lemma rx_chunk_nil (st : RxState) :
  scan_once (rx_buffer st) = None -> rx_chunk st "" = st.
Proof.
  intros H. unfold rx_chunk. rewrite append_nil_r, extract_frames_eq, H.
  destruct st. simpl. now rewrite app_nil_r.
Qed.

Lemma receive_loop_from (chunks : list string) (st : RxState) :
  scan_once (rx_buffer st) = None ->
  fold_left rx_chunk chunks st = rx_chunk st (fold_right append "" chunks).
Proof.
  revert st; induction chunks as [|c cs IH]; intros st H; simpl.
  - now rewrite rx_chunk_nil.
  - rewrite IH, rx_chunk_chunk; [reflexivity|].
    unfold rx_chunk.
    destruct (extract_frames (rx_buffer st ++ c)) as [ms r] eqn:E. simpl.
    exact (extract_frames_rest _ _ _ E).
Qed.

End Scan.

(* ================================================================== *)
(** * Waiting for an acknowledgement *)
(* ================================================================== *)

Section Acknowledgement.

Import EVProtocol.

Variable w : Wait.
Variable command : string.
Variable timeout : Q.

(** The clock passes the deadline at turn [n], and not before. *)
Variable n : nat.
Hypothesis late : in_time w timeout n = false.
Hypothesis early : forall j : nat, (j < n)%nat -> in_time w timeout j = true.

Lemma wait_turns_acked (k i fuel : nat) :
  (i + k = n)%nat -> (k < fuel)%nat ->
  wait_turns fuel w i command timeout = Some (acked w command i k).
Proof.
  revert i fuel; induction k as [|k IH]; intros i fuel Hi Hf;
    (destruct fuel as [|fuel]; [lia|]); simpl.
  - replace i with n by lia.
    change (Qltb (now (turns w n) - started w) timeout) with (in_time w timeout n).
    now rewrite late.
  - change (Qltb (now (turns w i) - started w) timeout) with (in_time w timeout i).
    rewrite early by lia.
    unfold acked. simpl.
    destruct (got (turns w i)) as [msg|].
    + change (String.eqb (msg_type msg) "ACK" && ack_references command (msg_data msg))
        with (acknowledges command msg).
      destruct (acknowledges command msg); [reflexivity|].
      apply IH; lia.
    + apply IH; lia.
Qed.

Lemma wait_for_ack_returns (fuel : nat) :
  (n < fuel)%nat -> wait_for_ack fuel w command timeout = Some (acked w command 0 n).
Proof. intros Hf. apply wait_turns_acked; lia. Qed.

Lemma acked_iff :
  acked w command 0 n = true <->
  exists (i : nat) (msg : Message),
    (i < n)%nat /\ got (turns w i) = Some msg /\ acknowledges command msg = true.
Proof.
  unfold acked. rewrite existsb_exists. split.
  - intros [i [Hin H]]. apply in_seq in Hin.
    destruct (got (turns w i)) as [msg|] eqn:E; [|discriminate].
    exists i, msg. repeat split; [lia | exact E | exact H].
  - intros [i [msg [Hi [E H]]]]. exists i. split; [apply in_seq; lia|].
    now rewrite E.
Qed.

End Acknowledgement.

Lemma py_eq_str (v : value) (s : string) :
  PyNum.py_eq v (VStr s) = true <-> v = VStr s.
Proof.
  destruct v as [|b|z|q|t|n]; simpl; try (split; discriminate).
  unfold PyNum.py_eq; simpl.
  rewrite String.eqb_eq. split; [now intros -> | now intros [= ->]].
Qed.

Lemma acknowledges_iff (command : string) (msg : Message) :
  EVProtocol.acknowledges command msg = true <->
  msg_type msg = "ACK"
  /\ (dict_mem command (msg_data msg) = true
      \/ dict_get "ACK" (msg_data msg) = Some (VStr command)).
Proof.
  unfold EVProtocol.acknowledges, EVProtocol.ack_references.
  rewrite andb_true_iff, orb_true_iff, String.eqb_eq.
  destruct (dict_get "ACK" (msg_data msg)) as [v|].
  - rewrite py_eq_str. split; intros [H [H'|H']]; split; auto.
    + right. now subst.
    + right. now injection H'.
  - split; intros [H [H'|H']]; split; auto; discriminate.
Qed.

Lemma nack_never_acknowledges (command : string) (msg : Message) :
  msg_type msg = "NACK" -> EVProtocol.acknowledges command msg = false.
Proof. intros H. unfold EVProtocol.acknowledges. now rewrite H. Qed.

(** C2.  When the clock of the waiting activity passes the deadline at
    turn [n] of the loop and not before, [wait_for_ack] returns, and it
    returns true exactly when one of the messages polled at the turns
    before [n] is of kind ACK and has the command among its keys or as the
    value of its key ACK.  A NACK is not such a message, so a wait that
    polls only NACKs or nothing returns false.  The frame
    [<ACK:ACK=SET_MAX_CURRENT>] decodes to a message that acknowledges
    SET_MAX_CURRENT. *)
Theorem wait_for_ack_spec :
  forall (w : EVProtocol.Wait) (command : string) (timeout : Q) (n : nat),
    EVProtocol.in_time w timeout n = false ->
    (forall j : nat, (j < n)%nat -> EVProtocol.in_time w timeout j = true) ->
    exists b : bool,
      (forall fuel : nat, (n < fuel)%nat ->
         EVProtocol.wait_for_ack fuel w command timeout = Some b)
      /\ (b = true <->
          exists (i : nat) (msg : Message),
            (i < n)%nat /\ EVProtocol.got (EVProtocol.turns w i) = Some msg
            /\ msg_type msg = "ACK"
            /\ (dict_mem command (msg_data msg) = true
                \/ dict_get "ACK" (msg_data msg) = Some (VStr command)))
      /\ ((forall (i : nat) (msg : Message),
             (i < n)%nat -> EVProtocol.got (EVProtocol.turns w i) = Some msg ->
             msg_type msg = "NACK") -> b = false)
      /\ (forall now0 : Q,
            exists msg : Message,
              EVProtocol._parse_message now0 "<ACK:ACK=SET_MAX_CURRENT>" = Some msg
              /\ EVProtocol.acknowledges "SET_MAX_CURRENT" msg = true).
Proof.
  intros w command timeout n late early.
  exists (EVProtocol.acked w command 0 n). repeat split.
  - intros fuel Hf. now apply wait_for_ack_returns.
  - intros H. apply (acked_iff w command n) in H.
    destruct H as [i [msg [Hi [E H]]]].
    exists i, msg. apply acknowledges_iff in H. tauto.
  - intros [i [msg [Hi [E H]]]].
    apply (acked_iff w command n). exists i, msg.
    rewrite acknowledges_iff. tauto.
  - intros H. destruct (EVProtocol.acked w command 0 n) eqn:A; [|reflexivity].
    apply (acked_iff w command n) in A.
    destruct A as [i [msg [Hi [E A]]]].
    now rewrite (nack_never_acknowledges command msg (H i msg Hi E)) in A.
  - intros now0.
    exists (mkMessage "ACK" [("ACK", VStr "SET_MAX_CURRENT")] now0).
    split; reflexivity.
Qed.

(* ================================================================== *)
(** * Commands that wait for their acknowledgement *)
(* ================================================================== *)

Section Commands.

Context `{FloatRepr}.

Lemma acked_none (w : EVProtocol.Wait) (command : string) (n : nat) :
  (forall (i : nat) (msg : Message),
     (i < n)%nat -> EVProtocol.got (EVProtocol.turns w i) = Some msg ->
     EVProtocol.acknowledges command msg = false) ->
  EVProtocol.acked w command 0 n = false.
Proof.
  intros H0. destruct (EVProtocol.acked w command 0 n) eqn:A; [|reflexivity].
  apply acked_iff in A. destruct A as [i [msg [Hi [E A]]]].
  now rewrite (H0 i msg Hi E) in A.
Qed.

Lemma set_current_limit_config (wr : bool) (fuel : nat) (w : EVProtocol.Wait)
    (c c' : EVController) (current : value) (ok : bool) :
  set_current_limit wr fuel w c current = Some (c', ok) ->
  config c' = (if ok then dict_set "current_limit" current (config c) else config c)
  /\ faults c' = faults c.
Proof.
  unfold set_current_limit, send_message.
  destruct wr.
  - destruct (EVProtocol.wait_for_ack fuel w "SET_CURRENT_LIMIT" (1 # 2)) as [[|]|];
      intros [= <- <-]; split; reflexivity.
  - intros [= <- <-]; split; reflexivity.
Qed.

Lemma set_max_throttle_config (wr : bool) (fuel : nat) (w : EVProtocol.Wait)
    (c c' : EVController) (max_throttle : Z) (ok : bool) :
  set_max_throttle wr fuel w c max_throttle = Some (c', ok) ->
  config c' =
    (if ok then dict_set "max_throttle" (VInt (Z.max 0 (Z.min 100 max_throttle))) (config c)
     else config c)
  /\ faults c' = faults c.
Proof.
  unfold set_max_throttle, send_message.
  destruct wr.
  - destruct (EVProtocol.wait_for_ack fuel w "SET_MAX_CURRENT" (1 # 2)) as [[|]|];
      intros [= <- <-]; split; reflexivity.
  - intros [= <- <-]; split; reflexivity.
Qed.


(** C8, as the code has it.  When the clock passes the 0.5 s deadline at
    turn [n] of the wait: if no message polled before is an
    acknowledgement of SET_CURRENT_LIMIT, whenever it came into the
    inbox, [set_current_limit] returns false and leaves the configuration
    as it was, having written its frame to the port if the port took it.
    Whatever is polled, the call returns, and it returns true exactly
    when the port took the frame and one of the messages polled before
    the deadline is such an acknowledgement.  In every run the
    configuration changes only with the result true, and then only in its
    entry [current_limit].  With the limit 40 the frame is
    [<SET_CURRENT_LIMIT:LIMIT=40>]. *)
Theorem set_current_limit_unconfirmed :
  forall (wr : bool) (w : EVProtocol.Wait) (c : EVController) (current : value)
         (n : nat),
    EVProtocol.in_time w (1 # 2) n = false ->
    (forall j : nat, (j < n)%nat -> EVProtocol.in_time w (1 # 2) j = true) ->
    ((forall (i : nat) (msg : Message),
         (i < n)%nat -> EVProtocol.got (EVProtocol.turns w i) = Some msg ->
         EVProtocol.acknowledges "SET_CURRENT_LIMIT" msg = false) ->
     forall fuel : nat, (n < fuel)%nat ->
       exists c' : EVController,
         set_current_limit wr fuel w c current = Some (c', false)
         /\ config c' = config c
         /\ sent c' =
            (if wr
             then (sent c ++
                   [EVProtocol._build_message "SET_CURRENT_LIMIT"
                      (Some [("LIMIT", current)])])%list
             else sent c))
    /\ (forall fuel : nat, (n < fuel)%nat ->
          exists (c' : EVController) (ok : bool),
            set_current_limit wr fuel w c current = Some (c', ok)
            /\ (ok = true <->
                wr = true
                /\ exists (i : nat) (msg : Message),
                     (i < n)%nat
                     /\ EVProtocol.got (EVProtocol.turns w i) = Some msg
                     /\ EVProtocol.acknowledges "SET_CURRENT_LIMIT" msg = true))
    /\ (forall (fuel : nat) (c' : EVController) (ok : bool),
          set_current_limit wr fuel w c current = Some (c', ok) ->
          config c' =
            (if ok then dict_set "current_limit" current (config c) else config c))
    /\ EVProtocol._build_message "SET_CURRENT_LIMIT" (Some [("LIMIT", VInt 40)])
       = "<SET_CURRENT_LIMIT:LIMIT=40>".
Proof.
  intros wr w c current n late early. split; [|split; [|split]].
  - intros quiet fuel Hf.
    unfold set_current_limit, send_message.
    destruct wr.
    + rewrite (wait_for_ack_returns w _ _ n late early fuel Hf).
      rewrite (acked_none w _ n quiet).
      eexists. repeat split.
    + eexists. repeat split.
  - intros fuel Hf.
    unfold set_current_limit, send_message.
    destruct wr.
    + rewrite (wait_for_ack_returns w _ _ n late early fuel Hf).
      destruct (EVProtocol.acked w "SET_CURRENT_LIMIT" 0 n) eqn:A;
        eexists; eexists; (split; [reflexivity|]).
      * split; [|reflexivity]. intros _. split; [reflexivity|].
        now apply acked_iff in A.
      * split; [discriminate|]. intros [_ E].
        apply (acked_iff w "SET_CURRENT_LIMIT" n) in E. congruence.
    + eexists; eexists; split; [reflexivity|].
      split; [discriminate|]. intros [E _]. discriminate E.
  - intros fuel c' ok E. now apply set_current_limit_config in E.
  - reflexivity.
Qed.


End Commands.

(* ================================================================== *)
(** * Dictionaries and Python's equality *)
(* ================================================================== *)

Section Values.

Lemma dict_get_set_same (k : string) (v : value) (d : dict) :
  dict_get k (dict_set k v d) = Some v.
Proof.
  induction d as [|[k' v'] d IH]; simpl.
  - now rewrite String.eqb_refl.
  - destruct (String.eqb k' k) eqn:E; simpl; rewrite E; [reflexivity | exact IH].
Qed.

Lemma dict_get_set_other (k k' : string) (v : value) (d : dict) :
  k <> k' -> dict_get k' (dict_set k v d) = dict_get k' d.
Proof.
  intros Hk. induction d as [|[k0 v0] d IH]; simpl.
  - destruct (String.eqb k k') eqn:E; [|reflexivity].
    apply String.eqb_eq in E. contradiction.
  - destruct (String.eqb k0 k) eqn:E; simpl.
    + apply String.eqb_eq in E. subst k0.
      destruct (String.eqb k k') eqn:E'; [|reflexivity].
      apply String.eqb_eq in E'. contradiction.
    + now rewrite IH.
Qed.

Lemma Qeq_bool_sym (x y : Q) : Qeq_bool x y = Qeq_bool y x.
Proof.
  destruct (Qeq_bool x y) eqn:E, (Qeq_bool y x) eqn:E'; try reflexivity.
  - apply Qeq_bool_iff in E. symmetry in E. apply Qeq_bool_iff in E. congruence.
  - apply Qeq_bool_iff in E'. symmetry in E'. apply Qeq_bool_iff in E'. congruence.
Qed.

Lemma Qeq_bool_trans (x y z : Q) :
  Qeq_bool x y = true -> Qeq_bool y z = true -> Qeq_bool x z = true.
Proof.
  rewrite !Qeq_bool_iff. intros -> ->. reflexivity.
Qed.

(** A value is a number, a string, [None] or an infinity. *)
Lemma py_eq_cases (a b : value) :
  PyNum.py_eq a b = true ->
  (exists x y, PyNum.num_of a = Some x /\ PyNum.num_of b = Some y
               /\ Qeq_bool x y = true)
  \/ (exists s, a = VStr s /\ b = VStr s)
  \/ (a = VNone /\ b = VNone)
  \/ (exists n, a = VInf n /\ b = VInf n).
Proof.
  destruct a as [|b1|z1|q1|s1|n1], b as [|b2|z2|q2|s2|n2];
    unfold PyNum.py_eq; simpl; intros E; try discriminate;
    try (left; eexists; eexists; repeat split; exact E).
  - right; right; left. now split.
  - right; left. apply String.eqb_eq in E. subst. now exists s2.
  - right; right; right. apply Bool.eqb_prop in E. subst. now exists n2.
Qed.

Lemma py_eq_num (a b : value) (x y : Q) :
  PyNum.num_of a = Some x -> PyNum.num_of b = Some y ->
  PyNum.py_eq a b = Qeq_bool x y.
Proof. unfold PyNum.py_eq. now intros -> ->. Qed.

Lemma py_eq_refl (a : value) : PyNum.py_eq a a = true.
Proof.
  destruct a as [|b|z|q|s|n]; unfold PyNum.py_eq; simpl;
    try (apply Qeq_bool_iff; reflexivity); try reflexivity.
  - apply String.eqb_refl.
  - apply Bool.eqb_reflx.
Qed.

Lemma py_eq_sym (a b : value) : PyNum.py_eq a b = PyNum.py_eq b a.
Proof.
  destruct a as [|b1|z1|q1|s1|n1], b as [|b2|z2|q2|s2|n2];
    unfold PyNum.py_eq; simpl; try reflexivity; try apply Qeq_bool_sym.
  - apply String.eqb_sym.
  - now destruct n1, n2.
Qed.

Lemma py_eq_trans (a b c : value) :
  PyNum.py_eq a b = true -> PyNum.py_eq b c = true -> PyNum.py_eq a c = true.
Proof.
  intros Hab Hbc.
  destruct (py_eq_cases _ _ Hab)
    as [[x [y [Hx [Hy E]]]]|[[s [-> ->]]|[[-> ->]|[n [-> ->]]]]];
    [|exact Hbc|exact Hbc|exact Hbc].
  destruct (py_eq_cases _ _ Hbc)
    as [[y' [z [Hy' [Hz E']]]]|[[s [-> ->]]|[[-> ->]|[n [-> ->]]]]];
    try discriminate.
  rewrite Hy in Hy'. injection Hy' as <-.
  rewrite (py_eq_num _ _ _ _ Hx Hz). now apply Qeq_bool_trans with y.
Qed.

Lemma py_in_snoc (x y : value) (l : list value) :
  PyNum.py_in x (l ++ [y]) = PyNum.py_in x l || PyNum.py_eq x y.
Proof.
  unfold PyNum.py_in. rewrite existsb_app. simpl. now rewrite orb_false_r.
Qed.

Lemma distinct_snoc (x : value) (l : list value) :
  distinct l = true -> PyNum.py_in x l = false -> distinct (l ++ [x]) = true.
Proof.
  induction l as [|a r IH]; simpl; [reflexivity|].
  rewrite andb_true_iff, negb_true_iff, orb_false_iff.
  intros [Ha Hr] [Hxa Hxr].
  rewrite py_in_snoc, Ha, (py_eq_sym a x), Hxa. simpl. now apply IH.
Qed.

Lemma distinct_NoDup (l : list value) : distinct l = true -> NoDup l.
Proof.
  induction l as [|a r IH]; simpl; [constructor|].
  rewrite andb_true_iff, negb_true_iff. intros [Ha Hr].
  constructor; [|now apply IH].
  intros Hin.
  assert (PyNum.py_in a r = true) as Hp
    by (apply existsb_exists; exists a; split; [exact Hin | apply py_eq_refl]).
  congruence.
Qed.

Lemma filter_py_eq_none (x a : value) (r : list value) :
  PyNum.py_eq x a = true -> PyNum.py_in a r = false ->
  filter (PyNum.py_eq x) r = [].
Proof.
  intros Hxa. induction r as [|b r IH]; simpl; [reflexivity|].
  rewrite orb_false_iff. intros [Hab Har].
  destruct (PyNum.py_eq x b) eqn:Hxb; [|now apply IH].
  rewrite py_eq_sym in Hxa.
  now rewrite (py_eq_trans _ _ _ Hxa Hxb) in Hab.
Qed.

(** In a list without equal entries, a value that is in the list is
    equal to exactly one entry. *)
Lemma distinct_count (x : value) (l : list value) :
  distinct l = true -> PyNum.py_in x l = true ->
  List.length (filter (PyNum.py_eq x) l) = 1%nat.
Proof.
  induction l as [|a r IH]; simpl; [discriminate|].
  rewrite andb_true_iff, negb_true_iff. intros [Ha Hr] Hin.
  destruct (PyNum.py_eq x a) eqn:Hxa; simpl.
  - now rewrite (filter_py_eq_none x a r Hxa Ha).
  - now apply IH.
Qed.

(** A value equal to the integer [z] is a number equal to [z]. *)
Lemma py_eq_int (v : value) (z : Z) :
  PyNum.py_eq v (VInt z) = true ->
  exists q, PyNum.num_of v = Some q /\ (q == z # 1)%Q.
Proof.
  intros E.
  destruct (py_eq_cases _ _ E)
    as [[x [y [Hx [Hy Exy]]]]|[[s [_ F]]|[[_ F]|[n [_ F]]]]];
    try discriminate.
  simpl in Hy. injection Hy as <-.
  exists x. split; [exact Hx | now apply Qeq_bool_iff].
Qed.

End Values.

(* ================================================================== *)
(** * The safety monitor *)
(* ================================================================== *)

Section SafetyMonitor.

Context `{FloatRepr}.

Lemma add_fault_faults (name : value) (c : EVController) :
  faults (add_fault name c) =
  if PyNum.py_in name (faults c) then faults c else (faults c ++ [name])%list.
Proof. unfold add_fault. now destruct (PyNum.py_in name (faults c)). Qed.

Lemma add_fault_frame (name : value) (c : EVController) :
  telemetry (add_fault name c) = telemetry c
  /\ config (add_fault name c) = config c
  /\ connected (add_fault name c) = connected c
  /\ sent (add_fault name c) = sent c.
Proof. unfold add_fault. now destruct (PyNum.py_in name (faults c)). Qed.

Lemma add_fault_distinct (name : value) (c : EVController) :
  distinct (faults c) = true -> distinct (faults (add_fault name c)) = true.
Proof.
  intros D. rewrite add_fault_faults.
  destruct (PyNum.py_in name (faults c)) eqn:E; [exact D | now apply distinct_snoc].
Qed.

(** [_check_safety_conditions] on numbers: both comparisons are strict. *)
Lemma check_safety_numbers (c : EVController) (t h s l : Q) :
  PyNum.num_of (dict_get_default "TEMP" (VInt 0) (telemetry c)) = Some t ->
  PyNum.num_of (config_get "overheat_threshold" (VInt 80) c) = Some h ->
  PyNum.num_of (dict_get_default "SOC" (VInt 100) (telemetry c)) = Some s ->
  PyNum.num_of (config_get "low_battery_threshold" (VInt 15) c) = Some l ->
  _check_safety_conditions c =
  (let c1 := if negb (Qle_bool t h) then add_fault (VStr "OVERHEAT") c else c in
   if negb (Qle_bool l s) then add_fault (VStr "LOW_BATTERY") c1 else c1,
   Returned).
Proof.
  intros Ht Hh Hs Hl. unfold _check_safety_conditions, PyNum.py_gt, PyNum.py_lt.
  rewrite Ht, Hh, Hs.
  assert (forall b : bool,
            config_get "low_battery_threshold" (VInt 15)
              (if b then add_fault (VStr "OVERHEAT") c else c)
            = config_get "low_battery_threshold" (VInt 15) c) as Hcfg.
  { intros [|]; [|reflexivity]. unfold config_get.
    now rewrite (proj1 (proj2 (add_fault_frame _ c))). }
  rewrite Hcfg, Hl. reflexivity.
Qed.

Lemma check_safety_distinct (c : EVController) :
  distinct (faults c) = true ->
  distinct (faults (fst (_check_safety_conditions c))) = true.
Proof.
  intros D. unfold _check_safety_conditions.
  destruct (PyNum.py_gt _ _) as [hot|]; [|exact D].
  assert (distinct (faults (if hot then add_fault (VStr "OVERHEAT") c else c)) = true)
    as D1 by (destruct hot; [now apply add_fault_distinct | exact D]).
  destruct (PyNum.py_lt _ _) as [[|]|]; simpl;
    [now apply add_fault_distinct | exact D1 | exact D1].
Qed.

Lemma handle_fault_faults (wr : bool) (c : EVController) (msg : Message) :
  let fault := dict_get_default "FAULT" (VStr "UNKNOWN") (msg_data msg) in
  faults (_handle_fault wr c msg) =
  if PyNum.py_in fault (faults c) then faults c else (faults c ++ [fault])%list.
Proof.
  unfold _handle_fault, emergency_stop, send_message.
  destruct (PyNum.py_in _ (faults c)); simpl; [reflexivity|].
  destruct (PyNum.truthy _); [|reflexivity]. now destruct wr.
Qed.

Lemma handle_fault_listed (wr : bool) (c : EVController) (msg : Message) :
  PyNum.py_in (dict_get_default "FAULT" (VStr "UNKNOWN") (msg_data msg)) (faults c) = true ->
  _handle_fault wr c msg = c.
Proof. intros E. unfold _handle_fault. now rewrite E. Qed.

Lemma reset_faults_faults (wr : bool) (fuel : nat) (w : EVProtocol.Wait)
    (c c' : EVController) (ok : bool) :
  reset_faults wr fuel w c = Some (c', ok) ->
  faults c' = if ok then [] else faults c.
Proof.
  unfold reset_faults, send_message.
  destruct wr.
  - destruct (EVProtocol.wait_for_ack fuel w "RESET_FAULT" (1 # 2)) as [[|]|];
      intros [= <- <-]; reflexivity.
  - intros [= <- <-]; reflexivity.
Qed.

Lemma step_distinct (c c' : EVController) :
  fault_step c c' -> distinct (faults c) = true -> distinct (faults c') = true.
Proof.
  intros S D. destruct S as [wr c msg|c|c msg|wr fuel w c c' ok E|wr fuel w c c' z ok E
                            |wr fuel w c c' v ok E].
  - rewrite handle_fault_faults.
    destruct (PyNum.py_in _ (faults c)) eqn:E; [exact D | now apply distinct_snoc].
  - now apply check_safety_distinct.
  - unfold _handle_telemetry. apply check_safety_distinct.
    now destruct (logging_enabled _).
  - rewrite (reset_faults_faults _ _ _ _ _ _ E). now destruct ok.
  - now rewrite (proj2 (set_max_throttle_config _ _ _ _ _ _ _ E)).
  - now rewrite (proj2 (set_current_limit_config _ _ _ _ _ _ _ E)).
Qed.

Lemma reachable_distinct (cfg : dict) (c : EVController) :
  reachable cfg c -> distinct (faults c) = true.
Proof.
  induction 1 as [|c c' R IH S]; [reflexivity | exact (step_distinct c c' S IH)].
Qed.

(** C7.  In every state that the controller reaches from its initial
    state by [_handle_fault], [_check_safety_conditions],
    [_handle_telemetry], [reset_faults] and the two set commands, no two
    entries of the fault list are equal, for Python's [==] and so as
    values; and after the same fault message is handled twice the list
    holds exactly one entry equal to its fault name. *)
Theorem faults_never_duplicate :
  forall (cfg : dict) (c : EVController),
    reachable cfg c ->
    distinct (faults c) = true
    /\ NoDup (faults c)
    /\ (forall (wr1 wr2 : bool) (msg : Message),
          let fault := dict_get_default "FAULT" (VStr "UNKNOWN") (msg_data msg) in
          let c2 := _handle_fault wr2 (_handle_fault wr1 c msg) msg in
          List.length (filter (PyNum.py_eq fault) (faults c2)) = 1%nat).
Proof.
  intros cfg c R. pose proof (reachable_distinct cfg c R) as D.
  split; [exact D|]. split; [now apply distinct_NoDup|].
  intros wr1 wr2 msg fault c2.
  assert (PyNum.py_in fault (faults (_handle_fault wr1 c msg)) = true) as Hin.
  { rewrite handle_fault_faults. fold fault.
    destruct (PyNum.py_in fault (faults c)) eqn:E; [exact E|].
    now rewrite py_in_snoc, py_eq_refl, orb_true_r. }
  unfold c2. rewrite (handle_fault_listed wr2 _ msg Hin).
  apply distinct_count; [|exact Hin].
  exact (step_distinct _ _ (step_handle_fault wr1 c msg) D).
Qed.

(** C4, as the code has it.  With the emergency stop on fault switched
    on, a fault message whose fault name is not yet in the fault list
    appends the name to the list and writes one [<ESTOP>] frame to the
    serial port before [_handle_fault] returns; the frame is on the wire
    when the port takes the write.  The message decoded from
    [<FAULT:FAULT=OVERCURRENT>] names the fault OVERCURRENT. *)
Theorem handle_fault_estop :
  forall (wr : bool) (c : EVController) (msg : Message),
    PyNum.truthy (config_get "emergency_stop_on_fault" VNone c) = true ->
    PyNum.py_in (dict_get_default "FAULT" (VStr "UNKNOWN") (msg_data msg)) (faults c)
      = false ->
    let fault := dict_get_default "FAULT" (VStr "UNKNOWN") (msg_data msg) in
    let c' := _handle_fault wr c msg in
    faults c' = (faults c ++ [fault])%list
    /\ sent c' = (if wr then (sent c ++ ["<ESTOP>"])%list else sent c)
    /\ (forall now0 : Q,
          exists m : Message,
            EVProtocol._parse_message now0 "<FAULT:FAULT=OVERCURRENT>" = Some m
            /\ msg_type m = "FAULT"
            /\ dict_get_default "FAULT" (VStr "UNKNOWN") (msg_data m)
               = VStr "OVERCURRENT").
Proof.
  intros wr c msg Hflag Hnew fault c'. repeat split.
  - unfold c', fault. rewrite handle_fault_faults. cbv zeta. now rewrite Hnew.
  - unfold c', _handle_fault. cbv zeta. rewrite Hnew. simpl negb. cbv iota.
    change (config_get "emergency_stop_on_fault" VNone
              (set_faults (faults c ++ [dict_get_default "FAULT" (VStr "UNKNOWN") (msg_data msg)]) c))
      with (config_get "emergency_stop_on_fault" VNone c).
    rewrite Hflag. unfold emergency_stop, send_message. now destruct wr.
  - intros now0.
    exists (mkMessage "FAULT" [("FAULT", VStr "OVERCURRENT")] now0).
    repeat split.
Qed.

End SafetyMonitor.

(* ================================================================== *)
(** * Telemetry *)
(* ================================================================== *)

Section Telemetry.

Lemma Qle_bool_eq_r (x y y' : Q) : (y == y')%Q -> Qle_bool x y = Qle_bool x y'.
Proof.
  intros E.
  destruct (Qle_bool x y) eqn:A, (Qle_bool x y') eqn:B; try reflexivity.
  - apply Qle_bool_iff in A. rewrite E in A. apply Qle_bool_iff in A. congruence.
  - apply Qle_bool_iff in B. rewrite <- E in B. apply Qle_bool_iff in B. congruence.
Qed.

Lemma Qle_bool_eq_l (x x' y : Q) : (x == x')%Q -> Qle_bool x y = Qle_bool x' y.
Proof.
  intros E.
  destruct (Qle_bool x y) eqn:A, (Qle_bool x' y) eqn:B; try reflexivity.
  - apply Qle_bool_iff in A. rewrite E in A. apply Qle_bool_iff in A. congruence.
  - apply Qle_bool_iff in B. rewrite <- E in B. apply Qle_bool_iff in B. congruence.
Qed.

(** A telemetry message with the two keys TEMP and SOC, both numbers. *)
Lemma handle_telemetry_numbers (c : EVController) (now0 : Q) (tv sv : value)
    (t s h l : Q) :
  PyNum.num_of tv = Some t -> PyNum.num_of sv = Some s ->
  PyNum.num_of (config_get "overheat_threshold" (VInt 80) c) = Some h ->
  PyNum.num_of (config_get "low_battery_threshold" (VInt 15) c) = Some l ->
  let msg := mkMessage "DATA" [("TEMP", tv); ("SOC", sv)] now0 in
  let c' := fst (_handle_telemetry c msg) in
  snd (_handle_telemetry c msg) = Returned
  /\ dict_get "TEMP" (telemetry c') = Some tv
  /\ dict_get "SOC" (telemetry c') = Some sv
  /\ (forall k : string,
        k <> "TEMP" -> k <> "SOC" ->
        dict_get k (telemetry c') = dict_get k (telemetry c))
  /\ connected c' = true
  /\ faults c' = checked t h s l (faults c).
Proof.
  intros Ht Hs Hh Hl msg c'.
  set (tel := dict_set "SOC" sv (dict_set "TEMP" tv (telemetry c))).
  assert (dict_get "TEMP" tel = Some tv) as Gt.
  { unfold tel. rewrite dict_get_set_other by discriminate.
    apply dict_get_set_same. }
  assert (dict_get "SOC" tel = Some sv) as Gs by apply dict_get_set_same.
  assert (exists lg,
            _handle_telemetry c msg =
            _check_safety_conditions
              (mkController tel (faults c) true (config c) (logging_enabled c) lg (sent c)))
    as [lg E].
  { unfold tel, msg. destruct c as [tel0 f0 cn0 cfg0 le0 lg0 st0].
    unfold _handle_telemetry, set_telemetry, set_connected, set_logged, dict_update.
    cbn -[_check_safety_conditions log_data dict_set].
    destruct le0; eexists; reflexivity. }
  unfold c'. rewrite E.
  rewrite (check_safety_numbers _ t h s l);
    try (unfold dict_get_default, config_get; simpl; rewrite ?Gt, ?Gs; assumption).
  cbv zeta. unfold fst, snd.
  split; [reflexivity|].
  assert (forall (b1 b2 : bool) (x : EVController),
            telemetry (if b2 then add_fault (VStr "LOW_BATTERY")
                                    (if b1 then add_fault (VStr "OVERHEAT") x else x)
                       else (if b1 then add_fault (VStr "OVERHEAT") x else x))
              = telemetry x
            /\ connected (if b2 then add_fault (VStr "LOW_BATTERY")
                                       (if b1 then add_fault (VStr "OVERHEAT") x else x)
                          else (if b1 then add_fault (VStr "OVERHEAT") x else x))
               = connected x) as Fr.
  { intros b1 b2 x. destruct b1, b2;
      rewrite ?(proj1 (add_fault_frame _ _)),
        ?(proj1 (proj2 (proj2 (add_fault_frame _ _))));
      repeat rewrite (proj1 (add_fault_frame _ _));
      split; try reflexivity;
      repeat rewrite (proj1 (proj2 (proj2 (add_fault_frame _ _)))); reflexivity. }
  destruct (Fr (negb (Qle_bool t h)) (negb (Qle_bool l s))
              (mkController tel (faults c) true (config c) (logging_enabled c) lg (sent c)))
    as [Ftel Fcon].
  rewrite Ftel, Fcon. simpl telemetry. simpl connected.
  repeat split; try assumption.
  - intros k Hk1 Hk2. unfold tel.
    rewrite !dict_get_set_other by congruence. reflexivity.
  - unfold checked.
    destruct (negb (Qle_bool t h)), (negb (Qle_bool l s));
      rewrite ?add_fault_faults; simpl faults; try reflexivity;
      rewrite ?add_fault_faults; simpl faults; reflexivity.
Qed.

Lemma checked_thresholds (t h s l : Q) (f : list value) :
  (h == 80)%Q -> (l == 15)%Q -> checked t h s l f = checked t 80 s 15 f.
Proof.
  intros Eh El. unfold checked.
  now rewrite (Qle_bool_eq_r t h 80 Eh), (Qle_bool_eq_l l 15 s El).
Qed.

(** C3.  With the overheat threshold at 80 and the low-battery threshold
    at 15, the message decoded from [<DATA:TEMP=85.0;SOC=50>] puts TEMP
    and SOC into the telemetry of any controller state and leaves its
    other keys, sets the connectivity flag, and appends OVERHEAT to the
    fault list unless OVERHEAT is there already; nothing else is appended,
    so LOW_BATTERY is not.  Both comparisons are strict: for numbers [t]
    and [s] under TEMP and SOC, a temperature [t <= 80] with a charge
    [15 <= s] leaves the fault list as it is, while [80 < t] gives a list
    with OVERHEAT and [s < 15] one with LOW_BATTERY. *)
Theorem handle_telemetry_overheat :
  forall (c : EVController) (now0 : Q),
    PyNum.py_eq (config_get "overheat_threshold" (VInt 80) c) (VInt 80) = true ->
    PyNum.py_eq (config_get "low_battery_threshold" (VInt 15) c) (VInt 15) = true ->
    (exists msg : Message,
        EVProtocol._parse_message now0 "<DATA:TEMP=85.0;SOC=50>" = Some msg
        /\ snd (_handle_telemetry c msg) = Returned
        /\ dict_get "TEMP" (telemetry (fst (_handle_telemetry c msg))) = Some (VFloat 85)
        /\ dict_get "SOC" (telemetry (fst (_handle_telemetry c msg))) = Some (VInt 50)
        /\ (forall k : string,
              k <> "TEMP" -> k <> "SOC" ->
              dict_get k (telemetry (fst (_handle_telemetry c msg)))
              = dict_get k (telemetry c))
        /\ connected (fst (_handle_telemetry c msg)) = true
        /\ faults (fst (_handle_telemetry c msg)) =
           (if PyNum.py_in (VStr "OVERHEAT") (faults c) then faults c
            else faults c ++ [VStr "OVERHEAT"])%list)
    /\ (forall (tv sv : value) (t s : Q),
          PyNum.num_of tv = Some t -> PyNum.num_of sv = Some s ->
          let c' :=
            fst (_handle_telemetry c (mkMessage "DATA" [("TEMP", tv); ("SOC", sv)] now0)) in
          ((t <= 80)%Q -> (15 <= s)%Q -> faults c' = faults c)
          /\ ((80 < t)%Q -> PyNum.py_in (VStr "OVERHEAT") (faults c') = true)
          /\ ((s < 15)%Q -> PyNum.py_in (VStr "LOW_BATTERY") (faults c') = true)).
Proof.
  intros c now0 Hh Hl.
  destruct (py_eq_int _ _ Hh) as [h [Nh Eh]].
  destruct (py_eq_int _ _ Hl) as [l [Nl El]].
  split.
  - exists (mkMessage "DATA" [("TEMP", VFloat 85); ("SOC", VInt 50)] now0).
    split; [reflexivity|].
    destruct (handle_telemetry_numbers c now0 (VFloat 85) (VInt 50) 85 (50 # 1) h l
                eq_refl eq_refl Nh Nl) as [R [Gt [Gs [Ko [Cn Fa]]]]].
    repeat split; try assumption.
    rewrite Fa, (checked_thresholds _ _ _ _ _ Eh El). reflexivity.
  - intros tv sv t s Nt Ns c'.
    destruct (handle_telemetry_numbers c now0 tv sv t s h l Nt Ns Nh Nl)
      as [_ [_ [_ [_ [_ Fa]]]]].
    unfold c'. rewrite Fa, (checked_thresholds _ _ _ _ _ Eh El). unfold checked.
    repeat split.
    + intros Ht Hs. apply Qle_bool_iff in Ht, Hs. now rewrite Ht, Hs.
    + intros Ht.
      assert (Qle_bool t 80 = false) as Ft.
      { destruct (Qle_bool t 80) eqn:E; [|reflexivity].
        apply Qle_bool_iff in E. exfalso. exact (Qlt_not_le _ _ Ht E). }
      rewrite Ft. simpl negb. cbv iota.
      assert (PyNum.py_in (VStr "OVERHEAT")
                (if PyNum.py_in (VStr "OVERHEAT") (faults c) then faults c
                 else (faults c ++ [VStr "OVERHEAT"])%list) = true) as Hin.
      { destruct (PyNum.py_in (VStr "OVERHEAT") (faults c)) eqn:E; [exact E|].
        now rewrite py_in_snoc, py_eq_refl, orb_true_r. }
      destruct (negb (Qle_bool 15 s)); [|exact Hin].
      destruct (PyNum.py_in (VStr "LOW_BATTERY") _); [exact Hin|].
      now rewrite py_in_snoc, Hin.
    + intros Hs.
      assert (Qle_bool 15 s = false) as Fs.
      { destruct (Qle_bool 15 s) eqn:E; [|reflexivity].
        apply Qle_bool_iff in E. exfalso. exact (Qlt_not_le _ _ Hs E). }
      rewrite Fs. simpl negb. cbv iota.
      match goal with
      | |- PyNum.py_in ?x (if PyNum.py_in ?x ?f then _ else _) = true =>
          destruct (PyNum.py_in x f) eqn:E; [exact E|];
          now rewrite py_in_snoc, py_eq_refl, orb_true_r
      end.
Qed.

End Telemetry.

(* ================================================================== *)
(** * Stripping, splitting and joining *)
(* ================================================================== *)

Section Codec.

Lemma last_char_snoc (s : string) (a : ascii) :
  PyStr.last_char (s ++ String a "") = Some a.
Proof.
  induction s as [|b s IH]; simpl; [reflexivity|].
  destruct (s ++ String a "") eqn:E; [|exact IH].
  destruct s; discriminate.
Qed.

Lemma rstrip_by_keep (p : ascii -> bool) (s : string) :
  match PyStr.last_char s with Some a => p a | None => false end = false ->
  PyStr.rstrip_by p s = s.
Proof.
  induction s as [|a s IH]; simpl; [reflexivity|].
  destruct s as [|b s].
  - simpl. now intros ->.
  - intros Hl. rewrite (IH Hl). reflexivity.
Qed.

Lemma rstrip_by_snoc_drop (p : ascii -> bool) (s : string) (a : ascii) :
  p a = true -> PyStr.rstrip_by p (s ++ String a "") = PyStr.rstrip_by p s.
Proof.
  intros Ha. induction s as [|b s IH]; simpl.
  - now rewrite Ha.
  - now rewrite IH.
Qed.

Lemma lstrip_by_keep (p : ascii -> bool) (s : string) :
  match PyStr.first_char s with Some a => p a | None => false end = false ->
  PyStr.lstrip_by p s = s.
Proof. destruct s as [|a s]; simpl; [reflexivity | now intros ->]. Qed.

(** The delimiters come off a frame and leave its body, when the body
    neither starts with [<] nor ends with [>]. *)
Lemma strip_frame_body (body : string) :
  PyStr.startswith START_CHAR body = false ->
  PyStr.endswith END_CHAR body = false ->
  strip_frame (String START_CHAR (body ++ String END_CHAR "")) = body.
Proof.
  intros Hs He. unfold strip_frame, PyStr.strip.
  rewrite (lstrip_by_keep PyStr.is_space) by reflexivity.
  rewrite (rstrip_by_keep PyStr.is_space).
  2:{ change (String START_CHAR (body ++ String END_CHAR ""))
        with (String START_CHAR body ++ String END_CHAR "").
      now rewrite last_char_snoc. }
  unfold PyStr.lstrip, PyStr.rstrip. simpl PyStr.lstrip_by.
  rewrite lstrip_by_keep.
  2:{ destruct body as [|b r]; [reflexivity|].
      unfold PyStr.startswith in Hs.
      cbn [PyStr.first_char append] in *.
      now rewrite Ascii.eqb_sym. }
  rewrite rstrip_by_snoc_drop by reflexivity.
  apply rstrip_by_keep.
  unfold PyStr.endswith in He.
  destruct (PyStr.last_char body) as [a|]; [|reflexivity].
  now rewrite Ascii.eqb_sym.
Qed.

Lemma split_first_append (c : ascii) (k r : string) :
  PyStr.contains c k = false ->
  PyStr.split_first c (k ++ String c r) = Some (k, r).
Proof.
  induction k as [|a k IH]; simpl.
  - now rewrite Ascii.eqb_refl.
  - destruct (Ascii.eqb a c); [discriminate|].
    intros Hk. now rewrite (IH Hk).
Qed.

Lemma contains_sep (c : ascii) (k r : string) :
  PyStr.contains c (k ++ String c r) = true.
Proof.
  rewrite contains_append. simpl. rewrite Ascii.eqb_refl. apply orb_true_r.
Qed.

Lemma split_none (c : ascii) (s : string) :
  PyStr.contains c s = false -> PyStr.split c s = [s].
Proof.
  induction s as [|a s IH]; simpl; [reflexivity|].
  destruct (Ascii.eqb a c); [discriminate|].
  intros Hs. now rewrite (IH Hs).
Qed.

Lemma split_append (c : ascii) (s r : string) :
  PyStr.contains c s = false ->
  PyStr.split c (s ++ String c r) = s :: PyStr.split c r.
Proof.
  induction s as [|a s IH]; simpl.
  - now rewrite Ascii.eqb_refl.
  - destruct (Ascii.eqb a c); [discriminate|].
    intros Hs. now rewrite (IH Hs).
Qed.

(** [split] undoes [join] on tokens that hold no separator. *)
Lemma split_join (c : ascii) (tokens : list string) :
  tokens <> [] ->
  forallb (fun t => negb (PyStr.contains c t)) tokens = true ->
  PyStr.split c (PyStr.join (String c "") tokens) = tokens.
Proof.
  induction tokens as [|t ts IH]; [congruence|].
  intros _. simpl forallb. rewrite andb_true_iff, negb_true_iff. intros [Ht Hts].
  destruct ts as [|t' ts].
  - simpl. now apply split_none.
  - change (PyStr.join (String c "") (t :: t' :: ts))
      with (t ++ String c (PyStr.join (String c "") (t' :: ts))).
    rewrite split_append by exact Ht.
    now rewrite IH.
Qed.

Lemma join_nonempty (sep : string) (tokens : list string) :
  match tokens with
  | [] => false
  | [t] => PyStr.nonempty t
  | _ => true
  end = true ->
  PyStr.nonempty (PyStr.join (String PARAM_SEP sep) tokens) = true.
Proof.
  destruct tokens as [|t [|t' ts]]; simpl; try discriminate; [auto|].
  intros _. now destruct t.
Qed.

Lemma last_char_append (s t : string) :
  t <> "" -> PyStr.last_char (s ++ t) = PyStr.last_char t.
Proof.
  intros Ht. induction s as [|a s IH]; simpl; [reflexivity|].
  destruct (s ++ t) eqn:E; [|exact IH].
  destruct s, t; try discriminate. congruence.
Qed.

Lemma endswith_join (c : ascii) (tokens : list string) (d : string) :
  tokens <> [] -> c <> PARAM_SEP ->
  PyStr.endswith c (PyStr.join (String PARAM_SEP "") tokens)
  = PyStr.endswith c (last tokens d).
Proof.
  intros Hne Hc. induction tokens as [|t ts IH]; [congruence|].
  destruct ts as [|t' ts]; [reflexivity|].
  change (PyStr.join (String PARAM_SEP "") (t :: t' :: ts))
    with (t ++ String PARAM_SEP (PyStr.join (String PARAM_SEP "") (t' :: ts))).
  change (last (t :: t' :: ts) d) with (last (t' :: ts) d).
  rewrite <- IH by discriminate.
  unfold PyStr.endswith. rewrite last_char_append by discriminate.
  destruct (PyStr.join (String PARAM_SEP "") (t' :: ts)) as [|a r] eqn:E.
  - cbn [PyStr.last_char].
    destruct (Ascii.eqb PARAM_SEP c) eqn:F; [|reflexivity].
    apply Ascii.eqb_eq in F. congruence.
  - reflexivity.
Qed.

Lemma frame_safe_parts (kind : string) (tokens : list string) :
  frame_safe kind tokens = true ->
  PyStr.contains SEPARATOR kind = false
  /\ PyStr.startswith START_CHAR kind = false
  /\ PyStr.endswith END_CHAR (last tokens kind) = false
  /\ forallb (fun t => negb (PyStr.contains PARAM_SEP t)) tokens = true
  /\ match tokens with [t] => PyStr.nonempty t | _ => true end = true.
Proof.
  unfold frame_safe, closing_text.
  rewrite !andb_true_iff, !negb_true_iff. tauto.
Qed.

(** The decoder on a frame of safe parts: the kind comes back, and the
    payload is what the loop over the tokens builds. *)
Lemma parse_frame (kind : string) (tokens : list string) (now0 : Q) :
  frame_safe kind tokens = true ->
  EVProtocol._parse_message now0 (frame_of kind tokens)
  = Some (mkMessage kind (fold_left EVProtocol.parse_param tokens []) now0).
Proof.
  intros Hsafe.
  destruct (frame_safe_parts _ _ Hsafe) as [Hsep [Hst [Hend [Htok Hone]]]].
  unfold EVProtocol._parse_message.
  destruct tokens as [|t ts].
  - unfold frame_of. rewrite (strip_frame_body kind Hst Hend).
    unfold split_head. now rewrite Hsep.
  - set (J := PyStr.join (String PARAM_SEP "") (t :: ts)).
    change (frame_of kind (t :: ts))
      with (String START_CHAR ((kind ++ String SEPARATOR J) ++ String END_CHAR "")).
    rewrite strip_frame_body.
    + unfold split_head.
      rewrite contains_sep, (split_first_append _ _ _ Hsep).
      unfold J at 1. rewrite join_nonempty.
      * unfold J. now rewrite (split_join PARAM_SEP (t :: ts)) by (discriminate || exact Htok).
      * destruct ts; [exact Hone | reflexivity].
    + destruct kind as [|a k]; [reflexivity | exact Hst].
    + unfold PyStr.endswith. rewrite last_char_append by discriminate.
      pose proof (endswith_join END_CHAR (t :: ts) kind) as E.
      unfold PyStr.endswith in E, Hend. fold J in E.
      destruct J as [|a r]; [reflexivity|].
      change (PyStr.last_char (String SEPARATOR (String a r)))
        with (PyStr.last_char (String a r)).
      rewrite E by discriminate. exact Hend.
Qed.

Lemma parse_param_flag (data : dict) (param : string) :
  PyStr.contains VALUE_SEP param = false ->
  EVProtocol.parse_param data param = dict_set param (VBool true) data.
Proof. intros E. unfold EVProtocol.parse_param. now rewrite E. Qed.

Lemma parse_param_pair (data : dict) (key text : string) :
  PyStr.contains VALUE_SEP key = false ->
  EVProtocol.parse_param data (key ++ String VALUE_SEP text)
  = dict_set key (parse_value text) data.
Proof.
  intros E. unfold EVProtocol.parse_param.
  now rewrite contains_sep, (split_first_append _ _ _ E).
Qed.

End Codec.

(* ================================================================== *)
(** * Integers on the wire *)
(* ================================================================== *)

Section Integers.

Import Decimal.

Lemma digit_not_special (c : ascii) :
  PyNum.is_digit c = true ->
  PyStr.is_space c = false /\ Ascii.eqb c "." = false /\ Ascii.eqb c "_" = false
  /\ Ascii.eqb c "+" = false /\ Ascii.eqb c "-" = false.
Proof.
  destruct c as [[|] [|] [|] [|] [|] [|] [|] [|]]; vm_compute;
    intros E; try discriminate E; repeat split.
Qed.

Lemma digit_run_cons (acc : Z) (prev : bool) (c : ascii) (s : string) :
  PyNum.is_digit c = true ->
  PyNum.digit_run acc prev (String c s)
  = PyNum.digit_run (10 * acc + PyNum.digit_val c) true s.
Proof. intros E. cbn [PyNum.digit_run]. now rewrite E. Qed.

Lemma string_of_uint_digits (d : uint) :
  PyStr.all_chars PyNum.is_digit (NilEmpty.string_of_uint d) = true.
Proof. induction d; cbn [NilEmpty.string_of_uint PyStr.all_chars]; auto. Qed.

Ltac digit_step IH :=
  rewrite digit_run_cons by reflexivity;
  rewrite <- IH;
  match goal with
  | |- PyNum.digit_run ?a true ?s = PyNum.digit_run ?b true ?s =>
      replace a with b;
      [ reflexivity
      | match goal with
        | |- context [PyNum.digit_val ?c] =>
            let v := eval vm_compute in (PyNum.digit_val c) in
            change (PyNum.digit_val c) with v
        end; lia ]
  end.

Lemma digit_run_acc (d : uint) (acc : positive) :
  PyNum.digit_run (Z.pos acc) true (NilEmpty.string_of_uint d)
  = Some (Z.pos (Pos.of_uint_acc d acc)).
Proof.
  revert acc; induction d as [|d IH|d IH|d IH|d IH|d IH|d IH|d IH|d IH|d IH|d IH];
    intros acc; cbn [NilEmpty.string_of_uint Pos.of_uint_acc];
    [reflexivity | digit_step IH ..].
Qed.

Lemma digit_run_uint (d : uint) (prev : bool) :
  (d = Nil -> prev = true) ->
  PyNum.digit_run 0 prev (NilEmpty.string_of_uint d)
  = Some (Z.of_N (Pos.of_uint d)).
Proof.
  revert prev; induction d as [|d IH|d IH|d IH|d IH|d IH|d IH|d IH|d IH|d IH|d IH];
    intros prev Hp; cbn [NilEmpty.string_of_uint Pos.of_uint].
  - now rewrite Hp.
  - rewrite digit_run_cons by reflexivity. apply (IH true). reflexivity.
  - rewrite digit_run_cons by reflexivity. apply (digit_run_acc d 1).
  - rewrite digit_run_cons by reflexivity. apply (digit_run_acc d 2).
  - rewrite digit_run_cons by reflexivity. apply (digit_run_acc d 3).
  - rewrite digit_run_cons by reflexivity. apply (digit_run_acc d 4).
  - rewrite digit_run_cons by reflexivity. apply (digit_run_acc d 5).
  - rewrite digit_run_cons by reflexivity. apply (digit_run_acc d 6).
  - rewrite digit_run_cons by reflexivity. apply (digit_run_acc d 7).
  - rewrite digit_run_cons by reflexivity. apply (digit_run_acc d 8).
  - rewrite digit_run_cons by reflexivity. apply (digit_run_acc d 9).
Qed.

Lemma all_chars_weaken (p q : ascii -> bool) (s : string) :
  (forall c, p c = true -> q c = true) ->
  PyStr.all_chars p s = true -> PyStr.all_chars q s = true.
Proof.
  intros Hpq. induction s as [|a s IH]; simpl; [reflexivity|].
  rewrite !andb_true_iff. intros [Ha Hs]. auto.
Qed.

Lemma all_chars_last (p : ascii -> bool) (s : string) :
  PyStr.all_chars p s = true ->
  match PyStr.last_char s with Some a => p a | None => true end = true.
Proof.
  induction s as [|a s IH]; simpl; [reflexivity|].
  rewrite andb_true_iff. intros [Ha Hs].
  destruct s; [exact Ha | exact (IH Hs)].
Qed.

(** Stripping leaves a text without a character to strip as it is. *)
Lemma strip_by_clean (p : ascii -> bool) (s : string) :
  PyStr.all_chars (fun c => negb (p c)) s = true ->
  PyStr.rstrip_by p (PyStr.lstrip_by p s) = s.
Proof.
  intros Hs.
  rewrite lstrip_by_keep.
  - apply rstrip_by_keep. apply all_chars_last in Hs.
    destruct (PyStr.last_char s); [now apply negb_true_iff | reflexivity].
  - destruct s as [|a s]; [reflexivity|]. simpl in *.
    apply andb_true_iff in Hs. now apply negb_true_iff.
Qed.

Lemma strip_no_space (s : string) :
  PyStr.all_chars (fun c => negb (PyStr.is_space c)) s = true ->
  PyStr.strip s = s.
Proof. apply strip_by_clean. Qed.

Lemma strip_blanks_clean (s : string) :
  PyStr.all_chars (fun c => negb (PyNum.is_blank c)) s = true ->
  PyNum.strip_blanks s = s.
Proof. apply strip_by_clean. Qed.

Lemma digit_not_blank (c : ascii) :
  PyNum.is_digit c = true -> PyNum.is_blank c = false.
Proof.
  destruct c as [[|] [|] [|] [|] [|] [|] [|] [|]]; vm_compute;
    intros E; try discriminate E; reflexivity.
Qed.

Lemma all_chars_contains (c : ascii) (s : string) :
  PyStr.all_chars (fun a => negb (Ascii.eqb a c)) s = true ->
  PyStr.contains c s = false.
Proof.
  induction s as [|a s IH]; simpl; [reflexivity|].
  rewrite andb_true_iff, negb_true_iff. intros [-> Hs]. auto.
Qed.

Lemma uint_text (d : uint) :
  d <> Nil ->
  let s := NilEmpty.string_of_uint d in
  PyNum.strip_blanks s = s /\ PyStr.contains "." s = false
  /\ PyNum.strip_blanks (String "-" s) = String "-" s
  /\ PyNum.digit_run 0 false s = Some (Z.of_N (Pos.of_uint d))
  /\ exists a r, s = String a r /\ PyNum.is_digit a = true.
Proof.
  intros Hd s. pose proof (string_of_uint_digits d) as Hall. fold s in Hall.
  assert (PyStr.all_chars (fun c => negb (PyNum.is_blank c)) s = true) as Hsp.
  { apply (all_chars_weaken PyNum.is_digit); [|exact Hall].
    intros c Hc. apply negb_true_iff. now apply digit_not_blank. }
  repeat split.
  - now apply strip_blanks_clean.
  - apply all_chars_contains. apply (all_chars_weaken PyNum.is_digit); [|exact Hall].
    intros c Hc. apply negb_true_iff. now apply digit_not_special.
  - apply strip_blanks_clean. simpl. exact Hsp.
  - apply digit_run_uint. intros E. contradiction.
  - destruct d; try contradiction; eexists; eexists; split; reflexivity.
Qed.

Lemma split_sign_digit (a : ascii) (r : string) :
  PyNum.is_digit a = true -> PyNum.split_sign (String a r) = (false, String a r).
Proof.
  intros Da. destruct (digit_not_special a Da) as [_ [_ [_ [Hplus Hminus]]]].
  unfold PyNum.split_sign. now rewrite Hplus, Hminus.
Qed.

(** An integer is read back from its text. *)
Lemma parse_value_str_int (z : Z) : parse_value (PyNum.str_int z) = VInt z.
Proof.
  unfold PyNum.str_int. destruct z as [|p|p]; [reflexivity| |].
  - cbn [Z.to_int NilZero.string_of_int].
    pose proof (DecimalPos.Unsigned.to_uint_nonnil p) as Hn.
    assert (NilZero.string_of_uint (Pos.to_uint p)
            = NilEmpty.string_of_uint (Pos.to_uint p)) as ->
      by (destruct (Pos.to_uint p); [contradiction | reflexivity ..]).
    destruct (uint_text _ Hn) as [Hs [Hdot [_ [Hrun [a [r [Ea Da]]]]]]].
    unfold parse_value. rewrite Hdot. unfold PyNum.py_int. rewrite Hs.
    rewrite DecimalPos.Unsigned.of_to in Hrun.
    rewrite Ea in *. rewrite (split_sign_digit a r Da), Hrun. reflexivity.
  - cbn [Z.to_int NilZero.string_of_int].
    pose proof (DecimalPos.Unsigned.to_uint_nonnil p) as Hn.
    assert (NilZero.string_of_uint (Pos.to_uint p)
            = NilEmpty.string_of_uint (Pos.to_uint p)) as ->
      by (destruct (Pos.to_uint p); [contradiction | reflexivity ..]).
    destruct (uint_text _ Hn) as [_ [Hdot [Hs [Hrun _]]]].
    unfold parse_value.
    change (PyStr.contains "." (String "-" (NilEmpty.string_of_uint (Pos.to_uint p))))
      with (PyStr.contains "." (NilEmpty.string_of_uint (Pos.to_uint p))).
    rewrite Hdot. unfold PyNum.py_int. rewrite Hs.
    change (PyNum.split_sign (String "-" (NilEmpty.string_of_uint (Pos.to_uint p))))
      with (true, NilEmpty.string_of_uint (Pos.to_uint p)).
    cbv beta iota. rewrite Hrun, DecimalPos.Unsigned.of_to. reflexivity.
Qed.

End Integers.

(* ================================================================== *)
(** * The typing of a value text *)
(* ================================================================== *)

Section Typing.

Lemma all_chars_append (p : ascii -> bool) (s t : string) :
  PyStr.all_chars p (s ++ t) = PyStr.all_chars p s && PyStr.all_chars p t.
Proof.
  induction s as [|a s IH]; simpl; [reflexivity | now rewrite IH, andb_assoc].
Qed.

Lemma all_chars_contains_false (p : ascii -> bool) (c : ascii) (s : string) :
  PyStr.contains c s = true -> p c = false -> PyStr.all_chars p s = false.
Proof.
  intros Hc Hp. induction s as [|a s IH]; simpl in *; [discriminate|].
  destruct (Ascii.eqb a c) eqn:E.
  - apply Ascii.eqb_eq in E. subst a. now rewrite Hp.
  - rewrite (IH Hc). apply andb_false_r.
Qed.

Lemma contains_none (p : ascii -> bool) (c : ascii) (s : string) :
  PyStr.all_chars p s = true -> p c = false -> PyStr.contains c s = false.
Proof.
  intros Hs Hp. destruct (PyStr.contains c s) eqn:E; [|reflexivity].
  now rewrite (all_chars_contains_false p c s E Hp) in Hs.
Qed.

Lemma digits_value_app (acc : Z) (a b : string) :
  PyNum.digits_value acc (a ++ b)
  = PyNum.digits_value (PyNum.digits_value acc a) b.
Proof. revert acc; induction a as [|c a IH]; intros acc; simpl; auto. Qed.

(** A text of digits is a run of digits, and spells its value. *)
Lemma digit_run_digits (s : string) (acc : Z) (prev : bool) :
  PyStr.all_chars PyNum.is_digit s = true ->
  s <> "" \/ prev = true ->
  PyNum.digit_run acc prev s = Some (PyNum.digits_value acc s).
Proof.
  revert acc prev; induction s as [|c s IH]; intros acc prev Hall Hne.
  - destruct Hne as [Hne| ->]; [congruence | reflexivity].
  - simpl in Hall. apply andb_true_iff in Hall. destruct Hall as [Hc Hs].
    cbn [PyNum.digit_run PyNum.digits_value]. rewrite Hc. apply IH; auto.
Qed.

Lemma span_digits_app (ds rest : string) (acc : Z) (n : nat) :
  PyStr.all_chars PyNum.is_digit ds = true ->
  stops_digits rest ->
  PyNum.span_digits acc n (ds ++ rest)
  = (PyNum.digits_value acc ds, (n + String.length ds)%nat, rest).
Proof.
  revert acc n; induction ds as [|c ds IH]; intros acc n Hall Hr.
  - simpl. rewrite Nat.add_0_r.
    destruct rest as [|c r]; [reflexivity|]. simpl in *. now rewrite Hr.
  - simpl in Hall. apply andb_true_iff in Hall. destruct Hall as [Hc Hs].
    cbn [append PyNum.span_digits PyNum.digits_value String.length].
    rewrite Hc, (IH _ _ Hs Hr).
    now replace (S n + String.length ds)%nat with (n + S (String.length ds))%nat by lia.
Qed.

Lemma span_digits_split (s : string) (acc : Z) (n : nat) (acc' : Z) (n' : nat)
    (r : string) :
  PyNum.span_digits acc n s = (acc', n', r) ->
  exists ds, s = ds ++ r /\ PyStr.all_chars PyNum.is_digit ds = true.
Proof.
  revert acc n; induction s as [|c s IH]; intros acc n; cbn [PyNum.span_digits].
  - intros [= _ _ <-]. now exists "".
  - destruct (PyNum.is_digit c) eqn:Hc.
    + intros E. destruct (IH _ _ E) as [ds [-> Hds]].
      exists (String c ds). split; [reflexivity|]. simpl. now rewrite Hc.
    + intros [= _ _ <-]. now exists "".
Qed.

(** A text without an underscore is taken as it is. *)
Lemma drop_underscores_plain (s : string) (prev : option ascii) :
  PyStr.contains "_" s = false ->
  PyNum.prev_is (Ascii.eqb "_") prev = false ->
  PyNum.drop_underscores prev s = Some s.
Proof.
  revert prev; induction s as [|c s IH]; intros prev Hs Hp;
    cbn [PyNum.drop_underscores].
  - now rewrite Hp.
  - simpl in Hs. destruct (Ascii.eqb c "_") eqn:Ec; [discriminate|].
    rewrite Hp. cbn [andb].
    rewrite IH; [reflexivity | exact Hs |].
    unfold PyNum.prev_is. rewrite Ascii.eqb_sym. exact Ec.
Qed.

Lemma lstrip_by_all (p : ascii -> bool) (s : string) :
  PyStr.all_chars p s = true -> PyStr.lstrip_by p s = "".
Proof.
  induction s as [|a s IH]; simpl; [reflexivity|].
  rewrite andb_true_iff. intros [-> Hs]. auto.
Qed.

Lemma rstrip_by_all (p : ascii -> bool) (s : string) :
  PyStr.all_chars p s = true -> PyStr.rstrip_by p s = "".
Proof.
  induction s as [|a s IH]; simpl; [reflexivity|].
  rewrite andb_true_iff. intros [Ha Hs]. now rewrite (IH Hs), Ha.
Qed.

Lemma lstrip_by_after (p : ascii -> bool) (pre s : string) :
  PyStr.all_chars p pre = true ->
  PyStr.lstrip_by p (pre ++ s) = PyStr.lstrip_by p s.
Proof.
  induction pre as [|a pre IH]; simpl; [reflexivity|].
  rewrite andb_true_iff. intros [-> Hs]. auto.
Qed.

Lemma rstrip_by_before (p : ascii -> bool) (s post : string) :
  PyStr.all_chars p post = true ->
  PyStr.rstrip_by p (s ++ post) = PyStr.rstrip_by p s.
Proof.
  intros Hp. induction s as [|a s IH]; simpl.
  - now apply rstrip_by_all.
  - now rewrite IH.
Qed.

(** Characters to strip around a text do not change what is left of it. *)
Lemma strip_by_around (p : ascii -> bool) (pre s post : string) :
  PyStr.all_chars p pre = true -> PyStr.all_chars p post = true ->
  PyStr.rstrip_by p (PyStr.lstrip_by p (pre ++ s ++ post))
  = PyStr.rstrip_by p (PyStr.lstrip_by p s).
Proof.
  intros Hpre Hpost. rewrite (lstrip_by_after p pre _ Hpre).
  induction s as [|a s IH]; simpl.
  - now rewrite (lstrip_by_all p post Hpost).
  - destruct (p a); [exact IH|].
    change (String a (s ++ post)) with (String a s ++ post).
    now apply rstrip_by_before.
Qed.

Lemma all_chars_lstrip (p q : ascii -> bool) (s : string) :
  (forall c, p c = true -> q c = true) ->
  PyStr.all_chars q (PyStr.lstrip_by p s) = true -> PyStr.all_chars q s = true.
Proof.
  intros Hpq. induction s as [|a s IH]; simpl; [reflexivity|].
  destruct (p a) eqn:Ha; [|exact (fun E => E)].
  intros E. now rewrite (Hpq a Ha), (IH E).
Qed.

Lemma all_chars_rstrip (p q : ascii -> bool) (s : string) :
  (forall c, p c = true -> q c = true) ->
  PyStr.all_chars q (PyStr.rstrip_by p s) = true -> PyStr.all_chars q s = true.
Proof.
  intros Hpq. induction s as [|a s IH]; cbn [PyStr.rstrip_by PyStr.all_chars];
    [reflexivity|].
  destruct (PyStr.rstrip_by p s) as [|b r].
  - destruct (p a) eqn:Ha.
    + intros _. now rewrite (Hpq a Ha), (IH eq_refl).
    + simpl. rewrite andb_true_r. intros ->. now rewrite (IH eq_refl).
  - cbn [PyStr.all_chars]. rewrite andb_true_iff. intros [-> E]. exact (IH E).
Qed.

Lemma digit_run_chars (s : string) (acc : Z) (prev : bool) (z : Z) :
  PyNum.digit_run acc prev s = Some z ->
  PyStr.all_chars (fun c => PyNum.is_digit c || Ascii.eqb c "_") s = true.
Proof.
  revert acc prev; induction s as [|c s IH]; intros acc prev;
    cbn [PyNum.digit_run PyStr.all_chars]; [reflexivity|].
  destruct (PyNum.is_digit c); [intros E; exact (IH _ _ E)|].
  destruct (Ascii.eqb c "_"); [|discriminate].
  destruct prev; [|discriminate]. intros E; exact (IH _ _ E).
Qed.

Lemma drop_underscores_chars (q : ascii -> bool) (s : string)
    (prev : option ascii) (t : string) :
  q "_"%char = true ->
  PyNum.drop_underscores prev s = Some t ->
  PyStr.all_chars q t = true -> PyStr.all_chars q s = true.
Proof.
  intros Hq. revert prev t; induction s as [|c s IH]; intros prev t;
    cbn [PyNum.drop_underscores PyStr.all_chars]; [reflexivity|].
  destruct (Ascii.eqb c "_") eqn:Ec.
  - apply Ascii.eqb_eq in Ec. subst c. rewrite Hq.
    destruct (PyNum.prev_is PyNum.is_digit prev); [|discriminate].
    intros E Ht. exact (IH _ _ E Ht).
  - destruct (PyNum.prev_is (Ascii.eqb "_") prev && negb (PyNum.is_digit c));
      [discriminate|].
    destruct (PyNum.drop_underscores (Some c) s) as [u|] eqn:E; [|discriminate].
    intros [= <-]. cbn [PyStr.all_chars]. rewrite andb_true_iff.
    intros [-> Hu]. exact (IH _ _ E Hu).
Qed.

Lemma split_sign_chars (q : ascii -> bool) (s : string) :
  q "+"%char = true -> q "-"%char = true ->
  PyStr.all_chars q (snd (PyNum.split_sign s)) = true ->
  PyStr.all_chars q s = true.
Proof.
  intros Hplus Hminus. destruct s as [|c r]; [reflexivity|].
  unfold PyNum.split_sign.
  destruct (Ascii.eqb c "-") eqn:E1.
  - apply Ascii.eqb_eq in E1. subst c. simpl. now rewrite Hminus.
  - destruct (Ascii.eqb c "+") eqn:E2; [|exact (fun E => E)].
    apply Ascii.eqb_eq in E2. subst c. simpl. now rewrite Hplus.
Qed.

Lemma digit_is_int_char (c : ascii) :
  PyNum.is_digit c || Ascii.eqb c "_" = true -> PyNum.int_char c = true.
Proof.
  unfold PyNum.int_char. rewrite !orb_true_iff. tauto.
Qed.

Lemma int_char_float_char (c : ascii) :
  PyNum.int_char c = true -> PyNum.float_char c = true.
Proof. unfold PyNum.float_char. now intros ->. Qed.

(** A text that [int] reads holds only digits, blanks, signs and
    underscores. *)
Lemma py_int_chars (s : string) (z : Z) :
  PyNum.py_int s = Some z -> PyStr.all_chars PyNum.int_char s = true.
Proof.
  unfold PyNum.py_int, PyNum.strip_blanks.
  destruct (PyNum.split_sign _) as [neg t] eqn:E.
  destruct (PyNum.digit_run 0 false t) as [v|] eqn:R; [|discriminate].
  intros _.
  assert (forall c, PyNum.is_blank c = true -> PyNum.int_char c = true) as Hb
    by (intros c Hc; unfold PyNum.int_char; rewrite Hc; now rewrite orb_true_r).
  apply (all_chars_lstrip PyNum.is_blank); [exact Hb|].
  apply (all_chars_rstrip PyNum.is_blank); [exact Hb|].
  apply split_sign_chars; [reflexivity | reflexivity |].
  rewrite E. simpl.
  apply digit_run_chars in R.
  revert R. apply all_chars_weaken. exact digit_is_int_char.
Qed.

Lemma exponent_chars (r : string) (e : Z) :
  PyNum.exponent r = Some e -> PyStr.all_chars PyNum.float_char r = true.
Proof.
  destruct r as [|c r]; [reflexivity|]. cbn [PyNum.exponent PyStr.all_chars].
  destruct (Ascii.eqb c "e" || Ascii.eqb c "E") eqn:Ec; [|discriminate].
  destruct (PyNum.split_sign r) as [neg t] eqn:E.
  destruct (PyNum.digit_run 0 false t) as [v|] eqn:R; [|discriminate].
  intros _. apply andb_true_iff. split.
  - unfold PyNum.float_char. apply orb_true_iff in Ec.
    destruct Ec as [-> | ->]; now rewrite ?orb_true_r.
  - apply split_sign_chars; [reflexivity | reflexivity |].
    rewrite E. simpl. apply digit_run_chars in R. revert R.
    apply all_chars_weaken. intros a Ha.
    apply int_char_float_char. now apply digit_is_int_char.
Qed.

Lemma digits_float_chars (ds : string) :
  PyStr.all_chars PyNum.is_digit ds = true ->
  PyStr.all_chars PyNum.float_char ds = true.
Proof.
  apply all_chars_weaken. intros c Hc.
  unfold PyNum.float_char, PyNum.int_char. now rewrite Hc.
Qed.

Lemma unsigned_float_chars (t : string) (q : Q) :
  PyNum.unsigned_float t = Some q -> PyStr.all_chars PyNum.float_char t = true.
Proof.
  unfold PyNum.unsigned_float.
  destruct (PyNum.span_digits 0 0 t) as [[ip ni] r1] eqn:E1.
  destruct (span_digits_split _ _ _ _ _ _ E1) as [d1 [-> H1]].
  rewrite all_chars_append, (digits_float_chars d1 H1). cbn [andb].
  destruct r1 as [|c r].
  - reflexivity.
  - destruct (Ascii.eqb c ".") eqn:Ec.
    + apply Ascii.eqb_eq in Ec. subst c.
      destruct (PyNum.span_digits ip 0 r) as [[mant nf] r2] eqn:E2.
      destruct (span_digits_split _ _ _ _ _ _ E2) as [d2 [-> H2]].
      destruct (ni + nf =? 0)%nat; [discriminate|].
      destruct (PyNum.exponent r2) as [e|] eqn:Ee; [|discriminate].
      intros _. cbn [PyStr.all_chars].
      rewrite all_chars_append, (digits_float_chars d2 H2), (exponent_chars _ _ Ee).
      reflexivity.
    + destruct (ni + 0 =? 0)%nat; [discriminate|].
      destruct (PyNum.exponent (String c r)) as [e|] eqn:Ee; [|discriminate].
      intros _. exact (exponent_chars _ _ Ee).
Qed.

(** A text that [float] reads holds only digits, blanks, signs,
    underscores, points and the letter of the exponent. *)
Lemma py_float_chars (s : string) (r : PyNum.reading) :
  PyNum.py_float s = Some r -> PyStr.all_chars PyNum.float_char s = true.
Proof.
  unfold PyNum.py_float, PyNum.strip_blanks.
  destruct (PyNum.drop_underscores None _) as [t|] eqn:D; [|discriminate].
  destruct (PyNum.split_sign t) as [neg u] eqn:E.
  destruct (PyNum.unsigned_float u) as [q|] eqn:U; [|discriminate].
  intros _.
  assert (forall c, PyNum.is_blank c = true -> PyNum.float_char c = true) as Hb.
  { intros c Hc. apply int_char_float_char. unfold PyNum.int_char.
    rewrite Hc. now rewrite orb_true_r. }
  apply (all_chars_lstrip PyNum.is_blank); [exact Hb|].
  apply (all_chars_rstrip PyNum.is_blank); [exact Hb|].
  apply (drop_underscores_chars _ _ _ _ eq_refl D).
  apply split_sign_chars; [reflexivity | reflexivity |].
  rewrite E. simpl. exact (unsigned_float_chars _ _ U).
Qed.

(** A character that no literal holds leaves the text a string. *)
Lemma parse_value_other_char (text : string) (c : ascii) :
  PyStr.contains c text = true ->
  (if PyStr.contains "." text then PyNum.float_char c else PyNum.int_char c) = false ->
  parse_value text = VStr text.
Proof.
  intros Hc Hp. unfold parse_value.
  destruct (PyStr.contains "." text).
  - destruct (PyNum.py_float text) as [r|] eqn:E; [|reflexivity].
    apply py_float_chars in E.
    now rewrite (all_chars_contains_false _ _ _ Hc Hp) in E.
  - destruct (PyNum.py_int text) as [z|] eqn:E; [|reflexivity].
    apply py_int_chars in E.
    now rewrite (all_chars_contains_false _ _ _ Hc Hp) in E.
Qed.

Lemma blank_not_point (s : string) :
  PyStr.all_chars PyNum.is_blank s = true -> PyStr.contains "." s = false.
Proof. intros Hs. now apply (contains_none PyNum.is_blank). Qed.

(** Blanks around a text do not change the number that is read. *)
Lemma parse_value_blanks (pre text post : string) (v : value) :
  PyStr.all_chars PyNum.is_blank pre = true ->
  PyStr.all_chars PyNum.is_blank post = true ->
  parse_value text = v ->
  (forall s, v <> VStr s) ->
  parse_value (pre ++ text ++ post) = v.
Proof.
  intros Hpre Hpost <- Hv. revert Hv.
  assert (PyNum.py_int (pre ++ text ++ post) = PyNum.py_int text) as Hi.
  { unfold PyNum.py_int, PyNum.strip_blanks.
    now rewrite (strip_by_around PyNum.is_blank pre text post Hpre Hpost). }
  assert (PyNum.py_float (pre ++ text ++ post) = PyNum.py_float text) as Hf.
  { unfold PyNum.py_float, PyNum.strip_blanks.
    now rewrite (strip_by_around PyNum.is_blank pre text post Hpre Hpost). }
  unfold parse_value.
  rewrite !contains_append, (blank_not_point pre Hpre), (blank_not_point post Hpost).
  rewrite orb_false_r, Hi, Hf. cbn [orb].
  destruct (PyStr.contains "." text).
  - destruct (PyNum.py_float text); [reflexivity|].
    intros Hv. now destruct (Hv text).
  - destruct (PyNum.py_int text); [reflexivity|].
    intros Hv. now destruct (Hv text).
Qed.

Lemma sign_cases (sign : string) :
  In sign [""; "+"; "-"] -> sign = "" \/ sign = "+" \/ sign = "-".
Proof. simpl. intuition. Qed.

Lemma digits_clean (p : ascii -> bool) (ds : string) :
  (forall c, PyNum.is_digit c = true -> p c = false) ->
  PyStr.all_chars PyNum.is_digit ds = true ->
  PyStr.all_chars (fun c => negb (p c)) ds = true.
Proof.
  intros Hp. apply all_chars_weaken. intros c Hc. now rewrite (Hp c Hc).
Qed.

Lemma split_sign_text (sign body : string) :
  In sign [""; "+"; "-"] ->
  match body with
  | String c _ => Ascii.eqb c "+" = false /\ Ascii.eqb c "-" = false
  | EmptyString => True
  end ->
  PyNum.split_sign (sign ++ body) = (String.eqb sign "-", body).
Proof.
  intros Hs Hb. destruct (sign_cases _ Hs) as [-> | [-> | ->]]; try reflexivity.
  destruct body as [|c r]; [reflexivity|]. destruct Hb as [Hp Hm].
  simpl. now rewrite Hp, Hm.
Qed.

(** An optional sign and digits are read as the integer they spell. *)
Lemma parse_value_int_literal (sign ds : string) :
  In sign [""; "+"; "-"] -> ds <> "" ->
  PyStr.all_chars PyNum.is_digit ds = true ->
  parse_value (sign ++ ds) = VInt (PyNum.signed sign (PyNum.digits_value 0 ds)).
Proof.
  intros Hs Hne Hds.
  assert (PyStr.all_chars (fun c => negb (PyNum.is_blank c)) (sign ++ ds) = true) as Hb.
  { rewrite all_chars_append, (digits_clean PyNum.is_blank ds digit_not_blank Hds).
    now destruct (sign_cases _ Hs) as [-> | [-> | ->]]. }
  assert (PyStr.contains "." (sign ++ ds) = false) as Hdot.
  { rewrite contains_append.
    rewrite (contains_none PyNum.is_digit "." ds Hds eq_refl).
    now destruct (sign_cases _ Hs) as [-> | [-> | ->]]. }
  unfold parse_value. rewrite Hdot.
  unfold PyNum.py_int. rewrite (strip_blanks_clean _ Hb).
  rewrite split_sign_text; [|exact Hs|].
  - rewrite (digit_run_digits ds 0 false Hds) by (now left). reflexivity.
  - destruct ds as [|c r]; [exact I|]. simpl in Hds.
    apply andb_true_iff in Hds. destruct Hds as [Hc _].
    destruct (digit_not_special c Hc) as [_ [_ [_ [Hp Hm]]]]. now split.
Qed.

Lemma exponent_text_read (ex : string) (e : Z) :
  exponent_text ex e ->
  PyNum.exponent ex = Some e
  /\ PyStr.all_chars (fun c => negb (PyNum.is_blank c)) ex = true
  /\ PyStr.contains "_" ex = false
  /\ stops_digits ex.
Proof.
  intros [|c sign ds Hc Hs Hne Hds].
  - repeat split.
  - assert (PyStr.all_chars (fun c => negb (PyNum.is_blank c)) (sign ++ ds) = true) as Hb.
    { rewrite all_chars_append, (digits_clean PyNum.is_blank ds digit_not_blank Hds).
      now destruct (sign_cases _ Hs) as [-> | [-> | ->]]. }
    assert (PyStr.contains "_" (sign ++ ds) = false) as Hu.
    { rewrite contains_append.
      rewrite (contains_none PyNum.is_digit "_" ds Hds eq_refl).
      now destruct (sign_cases _ Hs) as [-> | [-> | ->]]. }
    assert (PyNum.exponent (String c (sign ++ ds))
            = Some (PyNum.signed sign (PyNum.digits_value 0 ds))) as He.
    { cbn [PyNum.exponent].
      replace (Ascii.eqb c "e" || Ascii.eqb c "E") with true
        by (destruct Hc as [-> | ->]; reflexivity).
      rewrite split_sign_text; [|exact Hs|].
      - rewrite (digit_run_digits ds 0 false Hds) by (now left). reflexivity.
      - destruct ds as [|a r]; [exact I|]. simpl in Hds.
        apply andb_true_iff in Hds. destruct Hds as [Ha _].
        destruct (digit_not_special a Ha) as [_ [_ [_ [Hp Hm]]]]. now split. }
    split; [exact He|].
    destruct Hc as [-> | ->]; cbn [PyStr.all_chars PyStr.contains stops_digits];
      rewrite Hb, Hu; repeat split.
Qed.

(** An optional sign, digits with a point and an optional exponent are
    read as the binary64 number nearest to the number they spell. *)
Lemma parse_value_float_literal (sign a b ex : string) (e : Z) :
  In sign [""; "+"; "-"] ->
  PyStr.all_chars PyNum.is_digit a = true ->
  PyStr.all_chars PyNum.is_digit b = true ->
  a ++ b <> "" ->
  exponent_text ex e ->
  parse_value (sign ++ a ++ String "." (b ++ ex))
  = let q := PyNum.decimal_value (PyNum.digits_value 0 (a ++ b))
               (e - Z.of_nat (String.length b)) in
    float_value (PyNum.binary64 (if String.eqb sign "-" then (- q)%Q else q)).
Proof.
  intros Hs Ha Hb Hne Hex.
  destruct (exponent_text_read _ _ Hex) as [He [Hxb [Hxu Hxd]]].
  set (body := a ++ String "." (b ++ ex)).
  assert (PyStr.all_chars (fun c => negb (PyNum.is_blank c)) (sign ++ body) = true) as Hblank.
  { unfold body. rewrite !all_chars_append. cbn [PyStr.all_chars].
    rewrite all_chars_append.
    rewrite (digits_clean PyNum.is_blank a digit_not_blank Ha).
    rewrite (digits_clean PyNum.is_blank b digit_not_blank Hb), Hxb.
    now destruct (sign_cases _ Hs) as [-> | [-> | ->]]. }
  assert (PyStr.contains "_" (sign ++ body) = false) as Hund.
  { unfold body. rewrite !contains_append. cbn [PyStr.contains].
    rewrite contains_append.
    rewrite (contains_none PyNum.is_digit "_" a Ha eq_refl).
    rewrite (contains_none PyNum.is_digit "_" b Hb eq_refl), Hxu.
    now destruct (sign_cases _ Hs) as [-> | [-> | ->]]. }
  assert (PyStr.contains "." (sign ++ body) = true) as Hdot.
  { unfold body. rewrite !contains_append. cbn [PyStr.contains].
    now rewrite !orb_true_r. }
  unfold parse_value. rewrite Hdot.
  unfold PyNum.py_float. rewrite (strip_blanks_clean _ Hblank).
  rewrite (drop_underscores_plain _ None Hund eq_refl).
  rewrite split_sign_text; [|exact Hs|].
  2:{ unfold body. destruct a as [|c r]; [now split|]. simpl in Ha.
      apply andb_true_iff in Ha. destruct Ha as [Hc _].
      destruct (digit_not_special c Hc) as [_ [_ [_ [Hp Hm]]]]. now split. }
  assert (PyNum.unsigned_float body
          = Some (PyNum.decimal_value (PyNum.digits_value 0 (a ++ b))
                    (e - Z.of_nat (String.length b)))) as ->.
  { unfold PyNum.unsigned_float, body.
    rewrite (span_digits_app a _ 0 0 Ha) by reflexivity.
    cbn [Ascii.eqb Bool.eqb].
    rewrite (span_digits_app b ex _ 0 Hb Hxd).
    replace (0 + String.length a + (0 + String.length b) =? 0)%nat with false.
    - rewrite He, digits_value_app. reflexivity.
    - symmetry. apply Nat.eqb_neq. intros E.
      destruct a, b; simpl in *; try lia. now apply Hne. }
  cbn [option_map]. now destruct (String.eqb sign "-").
Qed.

(** C6, as the code has it.  The decoder gives a frame of safe parts its
    kind and the payload that the tokens build one after the other.  A
    token without [=] becomes its own key with the value true; a token
    [key=text] gives [key] the typed text.  Digits after an optional sign
    are typed as the integer they spell.  Digits with a point, after an
    optional sign and before an optional exponent, are typed as the
    binary64 number nearest to the number they spell, or as an infinity
    beyond the largest one.  Blanks around such a text do not change the
    number.  A text that holds a character of no literal is left as it
    is: with a point, a character that is no digit, blank, sign,
    underscore, point or exponent letter; without a point, one that is no
    digit, blank, sign or underscore.  So [85.0] becomes the float 85,
    [0.1] and [80.000000000000001] the binary64 numbers nearest to them,
    [9007199254740993.0] and [9007199254740995.0], which lie halfway
    between two binary64 numbers, the one with the even significand, and
    [1.0e400] the infinity; [1.5.2] and a 5 after the separator 28 stay
    texts. *)
Theorem token_typing :
  forall (kind : string) (tokens : list string) (now0 : Q),
    frame_safe kind tokens = true ->
    EVProtocol._parse_message now0 (frame_of kind tokens)
    = Some (mkMessage kind (fold_left EVProtocol.parse_param tokens []) now0)
    /\ (forall (data : dict) (param : string),
          PyStr.contains VALUE_SEP param = false ->
          EVProtocol.parse_param data param = dict_set param (VBool true) data)
    /\ (forall (data : dict) (key text : string),
          PyStr.contains VALUE_SEP key = false ->
          EVProtocol.parse_param data (key ++ String VALUE_SEP text)
          = dict_set key (parse_value text) data)
    /\ (forall sign ds : string,
          In sign [""; "+"; "-"] -> ds <> "" ->
          PyStr.all_chars PyNum.is_digit ds = true ->
          parse_value (sign ++ ds)
          = VInt (PyNum.signed sign (PyNum.digits_value 0 ds)))
    /\ (forall (sign a b ex : string) (e : Z),
          In sign [""; "+"; "-"] ->
          PyStr.all_chars PyNum.is_digit a = true ->
          PyStr.all_chars PyNum.is_digit b = true ->
          a ++ b <> "" ->
          exponent_text ex e ->
          parse_value (sign ++ a ++ String "." (b ++ ex))
          = let q := PyNum.decimal_value (PyNum.digits_value 0 (a ++ b))
                       (e - Z.of_nat (String.length b)) in
            float_value
              (PyNum.binary64 (if String.eqb sign "-" then (- q)%Q else q)))
    /\ (forall (pre text post : string) (v : value),
          PyStr.all_chars PyNum.is_blank pre = true ->
          PyStr.all_chars PyNum.is_blank post = true ->
          parse_value text = v -> (forall s, v <> VStr s) ->
          parse_value (pre ++ text ++ post) = v)
    /\ (forall (text : string) (c : ascii),
          PyStr.contains c text = true ->
          (if PyStr.contains "." text then PyNum.float_char c
           else PyNum.int_char c) = false ->
          parse_value text = VStr text)
    /\ parse_value "85.0" = VFloat 85
    /\ parse_value "0.1" = VFloat (3602879701896397 # 36028797018963968)
    /\ parse_value "80.000000000000001" = VFloat 80
    /\ parse_value "9007199254740993.0" = VFloat 9007199254740992
    /\ parse_value "9007199254740995.0" = VFloat 9007199254740996
    /\ parse_value "1.0e400" = VInf false
    /\ parse_value "1.5.2" = VStr "1.5.2"
    /\ parse_value (String (ascii_of_nat 28) "5") = VStr (String (ascii_of_nat 28) "5").
Proof.
  intros kind tokens now0 Hsafe.
  split; [now apply parse_frame|].
  split; [exact parse_param_flag|].
  split; [exact parse_param_pair|].
  split; [exact parse_value_int_literal|].
  split; [exact parse_value_float_literal|].
  split; [exact parse_value_blanks|].
  split; [exact parse_value_other_char|].
  repeat split; vm_compute; reflexivity.
Qed.

Lemma round_half_even_one (x : Z) : PyNum.round_half_even x 1 = x.
Proof.
  unfold PyNum.round_half_even. now rewrite Z.mod_1_r, Z.div_1_r.
Qed.

Lemma Qred_whole (z : Z) : Qred (z # 1) = z # 1.
Proof.
  unfold Qred.
  pose proof (Z.ggcd_gcd z 1) as G.
  pose proof (Z.ggcd_correct_divisors z 1) as D.
  destruct (Z.ggcd z 1) as [g [aa bb]]. cbn [fst snd] in *.
  rewrite Z.gcd_1_r in G. subst g. destruct D as [Da Db].
  rewrite !Z.mul_1_l in *. subst aa. now rewrite <- Db.
Qed.

Lemma Qred_int (z : Z) (j : Z) :
  0 <= j -> Qred ((z * 2 ^ j) # Z.to_pos (2 ^ j)) = z # 1.
Proof.
  intros Hj.
  assert (0 < 2 ^ j) as Hp by (apply Z.pow_pos_nonneg; lia).
  rewrite <- (Qred_whole z).
  apply Qred_complete. unfold Qeq. cbn [Qnum Qden].
  rewrite Z2Pos.id by exact Hp. lia.
Qed.

(** An integer below [2 ^ 53] is a binary64 number. *)
Lemma nearest_int (m : positive) :
  Z.pos m < 2 ^ 53 -> PyNum.nearest (Z.pos m) 1 = Some (Z.pos m # 1).
Proof.
  intros Hm. unfold PyNum.nearest.
  change (Z.log2 (Z.pos 1)) with 0. rewrite Z.sub_0_r.
  set (e0 := Z.log2 (Z.pos m)).
  assert (0 <= e0) as H0 by apply Z.log2_nonneg.
  assert (2 ^ e0 <= Z.pos m) as Hlow by (apply Z.log2_spec; lia).
  assert (e0 < 53) as Hup by (apply Z.log2_lt_pow2; lia).
  replace (0 <=? e0) with true by (symmetry; apply Z.leb_le; lia).
  replace (Z.pos 1 * 2 ^ e0 <=? Z.pos m) with true
    by (symmetry; apply Z.leb_le; lia).
  replace (Z.max (e0 - 52) (-1074)) with (e0 - 52) by lia.
  destruct (0 <=? e0 - 52) eqn:K.
  - apply Z.leb_le in K. replace (e0 - 52) with 0 by lia.
    change (Z.pos 1 * 2 ^ 0) with 1. rewrite round_half_even_one.
    assert (2 ^ 53 < 2 ^ 1024) as Hbig by (apply Z.pow_lt_mono_r; lia).
    replace (2 ^ 1024 <=? Z.pos m * 2 ^ 0) with false
      by (symmetry; apply Z.leb_gt; lia).
    f_equal. exact (Qred_int (Z.pos m) 0 (Z.le_refl 0)).
  - apply Z.leb_gt in K. rewrite round_half_even_one.
    f_equal. apply Qred_int. lia.
Qed.

Lemma binary64_int (sign : string) (v : Z) :
  0 <= v < 2 ^ 53 ->
  PyNum.binary64 (if String.eqb sign "-" then (- (v # 1))%Q else v # 1)
  = PyNum.Finite (PyNum.signed sign v # 1).
Proof.
  intros Hv. unfold PyNum.signed. destruct v as [|m|m]; [| |lia].
  - now destruct (String.eqb sign "-").
  - destruct (String.eqb sign "-"); unfold PyNum.binary64; cbn [Qnum Qden Qopp Z.opp];
      now rewrite (nearest_int m (proj2 Hv)).
Qed.

Lemma digits_value_nonneg (s : string) (acc : Z) :
  0 <= acc -> 0 <= PyNum.digits_value acc s.
Proof.
  revert acc; induction s as [|c s IH]; intros acc Hacc; [exact Hacc|].
  cbn [PyNum.digits_value]. apply IH. unfold PyNum.digit_val. lia.
Qed.

Lemma decimal_tenth (v : Z) : PyNum.decimal_value (10 * v + 0) (-1) = v # 1.
Proof.
  unfold PyNum.decimal_value. change (0 <=? -1) with false.
  change (Z.to_pos (10 ^ (- -1))) with 10%positive.
  rewrite <- (Qred_whole v).
  apply Qred_complete. unfold Qeq. cbn [Qnum Qden]. lia.
Qed.

(** X28.  Digits followed by [.0], after an optional sign, are typed as
    the float that is the integer they spell, when this integer is below
    [2 ^ 53]: the reading of such a text involves no rounding. *)
Theorem point_zero_exact :
  forall sign a : string,
    In sign [""; "+"; "-"] -> a <> "" ->
    PyStr.all_chars PyNum.is_digit a = true ->
    PyNum.digits_value 0 a < 2 ^ 53 ->
    parse_value (sign ++ a ++ ".0")
    = VFloat (PyNum.signed sign (PyNum.digits_value 0 a) # 1).
Proof.
  intros sign a Hs Hne Ha Hv.
  pose proof (parse_value_float_literal sign a "0" "" 0 Hs Ha eq_refl) as E.
  cbn [String.length Z.of_nat] in E.
  change (a ++ String "." ("0" ++ "")) with (a ++ ".0") in E.
  rewrite E.
  - cbv zeta. rewrite digits_value_app. cbn [PyNum.digits_value].
    change (PyNum.digit_val "0") with 0. change (0 - Z.pos 1) with (-1).
    rewrite decimal_tenth, binary64_int; [reflexivity|].
    split; [|exact Hv]. now apply digits_value_nonneg.
  - destruct a; [contradiction | discriminate].
  - constructor.
Qed.

End Typing.


(* ================================================================== *)
(** * Encoding, then decoding *)
(* ================================================================== *)

Section RoundTrip.

Context `{FloatRepr}.

Lemma dict_get_snoc_none (k k' : string) (v : value) (d : dict) :
  dict_get k d = None -> k' <> k -> dict_get k (d ++ [(k', v)])%list = None.
Proof.
  intros Hd Hk. induction d as [|[k0 v0] d IH]; simpl in *.
  - destruct (String.eqb k' k) eqn:E; [|reflexivity].
    apply String.eqb_eq in E. contradiction.
  - destruct (String.eqb k0 k); [discriminate | now apply IH].
Qed.

Lemma dict_set_fresh (k : string) (v : value) (d : dict) :
  dict_get k d = None -> dict_set k v d = (d ++ [(k, v)])%list.
Proof.
  induction d as [|[k0 v0] d IH]; simpl; [reflexivity|].
  destruct (String.eqb k0 k); [discriminate|].
  intros Hd. now rewrite (IH Hd).
Qed.

(** Setting distinct fresh keys one after the other appends them. *)
Lemma dict_update_fresh (l acc : dict) :
  NoDup (map fst l) ->
  (forall kv, In kv l -> dict_get (fst kv) acc = None) ->
  dict_update acc l = (acc ++ l)%list.
Proof.
  unfold dict_update. revert acc; induction l as [|[k v] l IH]; intros acc Hnd Hfresh.
  - simpl. now rewrite app_nil_r.
  - simpl. inversion Hnd as [|? ? Hk Hl]; subst.
    rewrite (dict_set_fresh k v acc) by (apply (Hfresh (k, v)); now left).
    rewrite IH; [now rewrite <- app_assoc | exact Hl |].
    intros kv Hin. apply dict_get_snoc_none.
    + apply Hfresh. now right.
    + intros ->. apply Hk. now apply in_map.
Qed.

Lemma fold_parse_param_built (params acc : dict) :
  keys_safe params = true ->
  fold_left EVProtocol.parse_param (map param_str params) acc
  = dict_update acc (coerced params).
Proof.
  unfold dict_update. revert acc; induction params as [|[k v] ps IH]; intros acc Hk.
  - reflexivity.
  - simpl in Hk. apply andb_true_iff in Hk. destruct Hk as [Hk Hks].
    apply negb_true_iff in Hk.
    cbn [map fold_left coerced fst snd].
    change (param_str (k, v)) with (k ++ String VALUE_SEP (py_str v)).
    rewrite (parse_param_pair acc k (py_str v) Hk).
    exact (IH _ Hks).
Qed.

Lemma build_message_frame (kind : string) (params : dict) :
  EVProtocol._build_message kind (Some params) = frame_of kind (map param_str params).
Proof. destruct params as [|kv ps]; reflexivity. Qed.

(** C5, as the code has it.  A kind and a payload are given back by the
    decoder from the frame that the encoder builds of them, each value as
    its text is read again, when the kind holds no [:], does not start
    with [<], and the separators [;], [=] and the closing [>] do not
    occur where they would cut a key or a value: no [=] in a key, no [;]
    in a parameter, no [>] at the end of the body; the keys of the payload
    are distinct, as those of a dictionary are.  An integer value is read
    again as the same integer: [{"X": 5}] comes back with the integer 5. *)
Theorem encode_decode_roundtrip :
  forall (kind : string) (params : dict) (now0 : Q),
    frame_safe kind (map param_str params) = true ->
    keys_safe params = true ->
    NoDup (map fst params) ->
    EVProtocol._parse_message now0 (EVProtocol._build_message kind (Some params))
    = Some (mkMessage kind (coerced params) now0)
    /\ (params = [] ->
        EVProtocol._parse_message now0 (EVProtocol._build_message kind None)
        = Some (mkMessage kind [] now0))
    /\ (forall z : Z, parse_value (py_str (VInt z)) = VInt z)
    /\ EVProtocol._parse_message now0
         (EVProtocol._build_message "T" (Some [("X", VInt 5)]))
       = Some (mkMessage "T" [("X", VInt 5)] now0).
Proof.
  intros kind params now0 Hsafe Hkeys Hnd.
  assert (EVProtocol._parse_message now0 (EVProtocol._build_message kind (Some params))
          = Some (mkMessage kind (coerced params) now0)) as Hmain.
  { rewrite build_message_frame, (parse_frame _ _ _ Hsafe).
    rewrite (fold_parse_param_built params [] Hkeys).
    rewrite dict_update_fresh; [reflexivity | | intros kv _; reflexivity].
    unfold coerced. rewrite map_map. exact Hnd. }
  split; [exact Hmain|]. split; [|split].
  - intros ->. exact Hmain.
  - intros z. apply parse_value_str_int.
  - reflexivity.
Qed.

End RoundTrip.

(* ================================================================== *)
(** * The three decoders *)
(* ================================================================== *)

Section Decoders.

(** The decoder of [standalone_test.py] is the decoder of the main
    application. *)
Lemma standalone_agrees (now0 : Q) (message : string) :
  exists (m : Message) (m' : StandaloneTest.Message),
    EVProtocol._parse_message now0 message = Some m
    /\ StandaloneTest._parse_message message = Some m'
    /\ StandaloneTest.msg_type m' = msg_type m
    /\ StandaloneTest.msg_data m' = msg_data m.
Proof.
  unfold EVProtocol._parse_message, StandaloneTest._parse_message.
  destruct (split_head (strip_frame message)) as [k d].
  eexists; eexists; repeat split.
Qed.

Lemma simulator_params_agree (tokens : list string) (acc : dict) :
  forallb (PyStr.contains VALUE_SEP) tokens = true ->
  fold_left STM32Simulator.parse_param tokens acc
  = fold_left EVProtocol.parse_param tokens acc.
Proof.
  revert acc; induction tokens as [|t ts IH]; intros acc Ht; [reflexivity|].
  simpl in Ht. apply andb_true_iff in Ht. destruct Ht as [Ht Hts].
  simpl. rewrite (IH _ Hts). f_equal.
  unfold STM32Simulator.parse_param, EVProtocol.parse_param. now rewrite Ht.
Qed.

(** C9, where the code departs from it.  On the frame [<GET_TELEM:FAST>]
    the decoders of the main application and of [standalone_test.py] give
    the kind GET_TELEM with the payload [{FAST: True}], and the decoder of
    [stm32_simulator.py] gives the kind GET_TELEM with an empty payload:
    its loop has no branch for a token without [=]. *)
Theorem decoders_on_flag :
  forall now0 : Q,
    EVProtocol._parse_message now0 "<GET_TELEM:FAST>"
    = Some (mkMessage "GET_TELEM" [("FAST", VBool true)] now0)
    /\ StandaloneTest._parse_message "<GET_TELEM:FAST>"
       = Some (StandaloneTest.mkMessage "GET_TELEM" [("FAST", VBool true)]
                 "GET_TELEM:FAST")
    /\ STM32Simulator._parse_message "<GET_TELEM:FAST>"
       = Some (STM32Simulator.mkMessage "GET_TELEM" []).
Proof. intros now0. repeat split. Qed.

End Decoders.

(* ================================================================== *)
(** * Where the specification departs from the code *)
(* ================================================================== *)

(** C4 as stated fails: with the emergency stop on fault switched on, a
    fault message whose fault is already in the fault list sends
    nothing, and neither does a new fault when the port refuses the
    write. *)
Lemma handle_fault_listed_sends_nothing :
  PyNum.truthy
    (config_get "emergency_stop_on_fault" VNone
       (set_faults [VStr "OVERCURRENT"] (init default_config))) = true
  /\ EVProtocol._parse_message 0 "<FAULT:FAULT=OVERCURRENT>"
     = Some (mkMessage "FAULT" [("FAULT", VStr "OVERCURRENT")] 0)
  /\ sent (@_handle_fault no_float_repr true
             (set_faults [VStr "OVERCURRENT"] (init default_config))
             (mkMessage "FAULT" [("FAULT", VStr "OVERCURRENT")] 0))
     = []
  /\ sent (@_handle_fault no_float_repr false (init default_config)
             (mkMessage "FAULT" [("FAULT", VStr "OVERCURRENT")] 0))
     = [].
Proof. repeat split. Qed.

(** C5 as stated fails: a kind with a [:] in it is cut at the [:]. *)
Lemma roundtrip_cuts_kind :
  EVProtocol._parse_message 0 (@EVProtocol._build_message no_float_repr "A:B" None)
  = Some (mkMessage "A" [("B", VBool true)] 0).
Proof. reflexivity. Qed.

(** C6 as stated fails: a text with a point that spells no float stays
    a string. *)
Lemma dotted_text_stays_string :
  PyStr.contains "." "a.b" = true
  /\ EVProtocol._parse_message 0 "<X:V=a.b>"
     = Some (mkMessage "X" [("V", VStr "a.b")] 0).
Proof. split; reflexivity. Qed.


(** C8 as stated fails: the call starts its wait at the time 10 and
    polls, at its first turn, the acknowledgement of an earlier
    SET_CURRENT_LIMIT that was decoded at the time 3.  No message that
    comes in after the frame is sent is polled, and yet the call returns
    true and sets [current_limit] to 40. *)
Lemma stale_ack_confirms :
  (forall (i : nat) (msg : Message),
      EVProtocol.got (EVProtocol.turns stale_wait i) = Some msg ->
      (msg_timestamp msg < EVProtocol.started stale_wait)%Q)
  /\ EVProtocol.in_time stale_wait (1 # 2) 3 = false
  /\ dict_get "current_limit" (config (init default_config)) = Some (VFloat 50)
  /\ exists c' : EVController,
       @set_current_limit no_float_repr true 4 stale_wait (init default_config)
         (VInt 40) = Some (c', true)
       /\ sent c' = ["<SET_CURRENT_LIMIT:LIMIT=40>"]
       /\ dict_get "current_limit" (config c') = Some (VInt 40).
Proof.
  split; [|split; [|split]].
  - intros [|i] msg; simpl; intros E; [|discriminate E].
    injection E as <-. reflexivity.
  - reflexivity.
  - reflexivity.
  - eexists. repeat split.
Qed.

(* ================================================================== *)
(** * The theorems at concrete inputs *)
(* ================================================================== *)

Ltac first_turns j :=
  destruct j as [|[|[|j]]]; [reflexivity | reflexivity | reflexivity | lia].

(** C2 at a wait of 0.5 s that polls [<ACK:ACK=SET_MAX_CURRENT>] at its
    second turn. *)
Lemma wait_for_ack_spec_witness :
  EVProtocol.in_time
    (example_wait (Some (mkMessage "ACK" [("ACK", VStr "SET_MAX_CURRENT")] (1 # 5))))
    (1 # 2) 3 = false
  /\ exists b : bool,
       forall fuel : nat, (3 < fuel)%nat ->
         EVProtocol.wait_for_ack fuel
           (example_wait (Some (mkMessage "ACK" [("ACK", VStr "SET_MAX_CURRENT")] (1 # 5))))
           "SET_MAX_CURRENT" (1 # 2) = Some b.
Proof.
  split; [reflexivity|].
  destruct (wait_for_ack_spec
              (example_wait (Some (mkMessage "ACK" [("ACK", VStr "SET_MAX_CURRENT")] (1 # 5))))
              "SET_MAX_CURRENT" (1 # 2) 3 eq_refl) as [b [Hb _]].
  - intros j Hj. first_turns j.
  - exists b. exact Hb.
Defined.

(** C3 at the initial state with the default configuration. *)
Lemma handle_telemetry_overheat_witness :
  PyNum.py_eq (config_get "overheat_threshold" (VInt 80) (init default_config))
    (VInt 80) = true
  /\ PyNum.py_eq (config_get "low_battery_threshold" (VInt 15) (init default_config))
       (VInt 15) = true
  /\ exists msg : Message,
       EVProtocol._parse_message 0 "<DATA:TEMP=85.0;SOC=50>" = Some msg
       /\ faults (fst (_handle_telemetry (init default_config) msg))
          = [VStr "OVERHEAT"].
Proof.
  split; [reflexivity|]. split; [reflexivity|].
  destruct (handle_telemetry_overheat (init default_config) 0 eq_refl eq_refl)
    as [[msg [Hp [_ [_ [_ [_ [_ Hf]]]]]]] _].
  exists msg. split; [exact Hp | exact Hf].
Defined.

(** C4 at the initial state with the default configuration and the
    message of [<FAULT:FAULT=OVERCURRENT>]. *)
Lemma handle_fault_estop_witness :
  PyNum.truthy (config_get "emergency_stop_on_fault" VNone (init default_config)) = true
  /\ sent (@_handle_fault no_float_repr true (init default_config)
             (mkMessage "FAULT" [("FAULT", VStr "OVERCURRENT")] 0))
     = ["<ESTOP>"].
Proof.
  split; [reflexivity|].
  exact (proj1 (proj2
           (@handle_fault_estop no_float_repr true (init default_config)
              (mkMessage "FAULT" [("FAULT", VStr "OVERCURRENT")] 0)
              eq_refl eq_refl))).
Defined.

(** C5 at the kind [T] and the payload [{"X": 5, "NAME": "left"}]. *)
Lemma encode_decode_roundtrip_witness :
  @frame_safe "T"
    (map (@param_str no_float_repr) [("X", VInt 5); ("NAME", VStr "left")]) = true
  /\ EVProtocol._parse_message 0
       (@EVProtocol._build_message no_float_repr "T"
          (Some [("X", VInt 5); ("NAME", VStr "left")]))
     = Some (mkMessage "T"
               (@coerced no_float_repr [("X", VInt 5); ("NAME", VStr "left")]) 0).
Proof.
  split; [reflexivity|].
  refine (proj1 (@encode_decode_roundtrip no_float_repr "T"
                   [("X", VInt 5); ("NAME", VStr "left")] 0 eq_refl eq_refl _)).
  repeat constructor; simpl; intuition discriminate.
Defined.

(** C6 at the frame [<X:V=a.b;FLAG;N=7;T=85.0;S= -3 >]. *)
Lemma token_typing_witness :
  frame_safe "X" ["V=a.b"; "FLAG"; "N=7"; "T=85.0"; "S= -3 "] = true
  /\ EVProtocol._parse_message 0 "<X:V=a.b;FLAG;N=7;T=85.0;S= -3 >"
     = Some (mkMessage "X"
               [("V", VStr "a.b"); ("FLAG", VBool true); ("N", VInt 7);
                ("T", VFloat 85); ("S", VInt (-3))] 0).
Proof.
  split; [reflexivity|].
  exact (proj1 (token_typing "X" ["V=a.b"; "FLAG"; "N=7"; "T=85.0"; "S= -3 "] 0 eq_refl)).
Defined.

(** C7 at the state reached by one fault message. *)
Lemma faults_never_duplicate_witness :
  @reachable no_float_repr default_config
    (@_handle_fault no_float_repr true (init default_config)
       (mkMessage "FAULT" [("FAULT", VStr "OVERCURRENT")] 0))
  /\ NoDup
       (faults
          (@_handle_fault no_float_repr true (init default_config)
             (mkMessage "FAULT" [("FAULT", VStr "OVERCURRENT")] 0))).
Proof.
  assert (@reachable no_float_repr default_config
            (@_handle_fault no_float_repr true (init default_config)
               (mkMessage "FAULT" [("FAULT", VStr "OVERCURRENT")] 0))) as R.
  { eapply reach_step; [apply reach_init | apply step_handle_fault]. }
  split; [exact R|].
  exact (proj1 (proj2 (@faults_never_duplicate no_float_repr default_config _ R))).
Defined.

(** C8 at a wait of 0.5 s that polls a NACK and nothing else. *)
Lemma set_current_limit_unconfirmed_witness :
  EVProtocol.in_time
    (example_wait (Some (mkMessage "NACK" [("CMD", VStr "SET_CURRENT_LIMIT")] (1 # 5))))
    (1 # 2) 3 = false
  /\ exists c' : EVController,
       @set_current_limit no_float_repr true 4
         (example_wait (Some (mkMessage "NACK" [("CMD", VStr "SET_CURRENT_LIMIT")] (1 # 5))))
         (init default_config) (VInt 40) = Some (c', false)
       /\ config c' = default_config
       /\ sent c' = ["<SET_CURRENT_LIMIT:LIMIT=40>"].
Proof.
  split; [reflexivity|].
  refine (proj1 (@set_current_limit_unconfirmed no_float_repr true
                   (example_wait
                      (Some (mkMessage "NACK" [("CMD", VStr "SET_CURRENT_LIMIT")] (1 # 5))))
                   (init default_config) (VInt 40) 3 eq_refl _) _ 4%nat _).
  - intros j Hj. first_turns j.
  - intros i msg Hi. destruct i as [|[|[|i]]]; simpl; intros E;
      try discriminate E.
    injection E as <-. reflexivity.
  - lia.
Defined.


(* ================================================================== *)
(** * More on the delimiter scan *)
(* ================================================================== *)

Section ScanShape.

Lemma index_of_split (c : ascii) (s : string) (i : nat) :
  PyStr.index_of c s = Some i ->
  s = PyStr.take i s ++ String c (PyStr.drop (S i) s)
  /\ PyStr.contains c (PyStr.take i s) = false
  /\ PyStr.take (S i) s = PyStr.take i s ++ String c "".
Proof.
  revert i; induction s as [|a s IH]; intros i Hi; [discriminate|].
  cbn [PyStr.index_of] in Hi.
  destruct (Ascii.eqb a c) eqn:E.
  - injection Hi as <-. apply Ascii.eqb_eq in E. subst a.
    repeat split.
  - destruct (PyStr.index_of c s) as [j|]; [|discriminate].
    injection Hi as <-. destruct (IH j eq_refl) as [H1 [H2 H3]].
    cbn [PyStr.take PyStr.drop append PyStr.contains]. rewrite E.
    repeat split.
    + f_equal. exact H1.
    + exact H2.
    + f_equal. exact H3.
Qed.

Lemma index_of_fresh (c : ascii) (g r : string) :
  PyStr.contains c g = false ->
  PyStr.index_of c (g ++ String c r) = Some (String.length g).
Proof.
  induction g as [|a g IH]; simpl.
  - now rewrite Ascii.eqb_refl.
  - destruct (Ascii.eqb a c); [discriminate|].
    intros Hg. now rewrite (IH Hg).
Qed.

Lemma index_of_absent (c : ascii) (s : string) :
  PyStr.contains c s = false -> PyStr.index_of c s = None.
Proof.
  intros H. pose proof (index_of_contains c s) as E. rewrite H in E.
  now destruct (PyStr.index_of c s).
Qed.

Lemma drop_all (g r : string) : PyStr.drop (String.length g) (g ++ r) = r.
Proof. induction g as [|a g IH]; simpl; [now destruct r | exact IH]. Qed.

Lemma take_all (g r : string) : PyStr.take (String.length g) (g ++ r) = g.
Proof.
  induction g as [|a g IH]; simpl; [now destruct r | now rewrite IH].
Qed.

Lemma take_through (c : ascii) (body rest : string) :
  PyStr.take (S (String.length body)) (body ++ String c rest) = body ++ String c "".
Proof.
  induction body as [|a body IH]; [reflexivity|].
  cbn [String.length append].
  change (PyStr.take (S (S (String.length body))) (String a (body ++ String c rest)))
    with (String a (PyStr.take (S (String.length body)) (body ++ String c rest))).
  now rewrite IH.
Qed.

Lemma drop_through (c : ascii) (body rest : string) :
  PyStr.drop (S (String.length body)) (body ++ String c rest) = rest.
Proof. induction body as [|a body IH]; [reflexivity | exact IH]. Qed.

Lemma drop_add (g r : string) (k : nat) :
  PyStr.drop (String.length g + k) (g ++ r) = PyStr.drop k r.
Proof. induction g as [|a g IH]; [reflexivity | exact IH]. Qed.

(** The turn of the scan on a buffer that starts with text free of
    [<], then a [<], a body free of [>], and a [>]: the frame is cut
    out, the text before it is dropped, the text after it is kept. *)
Lemma scan_once_first (g body rest : string) :
  PyStr.contains START_CHAR g = false ->
  PyStr.contains END_CHAR body = false ->
  scan_once (g ++ String START_CHAR (body ++ String END_CHAR rest))
  = Some (String START_CHAR (body ++ String END_CHAR ""), rest).
Proof.
  intros Hg Hb. rewrite scan_once_spec, (index_of_fresh _ _ _ Hg), drop_all.
  change (PyStr.index_of END_CHAR (String START_CHAR (body ++ String END_CHAR rest)))
    with (match PyStr.index_of END_CHAR (body ++ String END_CHAR rest) with
          | Some i => Some (S i) | None => None end).
  rewrite (index_of_fresh _ _ _ Hb), drop_add.
  change (PyStr.take (S (S (String.length body)))
            (String START_CHAR (body ++ String END_CHAR rest)))
    with (String START_CHAR
            (PyStr.take (S (String.length body)) (body ++ String END_CHAR rest))).
  change (PyStr.drop (S (S (String.length body)))
            (String START_CHAR (body ++ String END_CHAR rest)))
    with (PyStr.drop (S (String.length body)) (body ++ String END_CHAR rest)).
  now rewrite take_through, drop_through.
Qed.

(** What a turn of the scan cuts out, read backwards: the buffer was
    text free of [<], the frame, and what is left. *)
Lemma scan_once_inv (b m b' : string) :
  scan_once b = Some (m, b') ->
  exists g body : string,
    b = g ++ String START_CHAR (body ++ String END_CHAR b')
    /\ PyStr.contains START_CHAR g = false
    /\ PyStr.contains END_CHAR body = false
    /\ m = String START_CHAR (body ++ String END_CHAR "").
Proof.
  rewrite scan_once_spec.
  destruct (PyStr.index_of START_CHAR b) as [i|] eqn:Hi; [|discriminate].
  destruct (PyStr.index_of END_CHAR (PyStr.drop i b)) as [j|] eqn:Hj; [|discriminate].
  intros E. injection E as <- <-.
  destruct (index_of_split _ _ _ Hi) as [Hb [Hg _]].
  destruct (index_of_drop_head _ _ _ Hi) as [r Hr].
  destruct (index_of_split _ _ _ Hj) as [Hd [Hbody Htake]].
  assert (exists j', j = S j') as [j' ->].
  { rewrite Hr in Hj. simpl in Hj.
    destruct (PyStr.index_of END_CHAR r); [|discriminate].
    injection Hj as <-. now eexists. }
  exists (PyStr.take i b), (PyStr.take j' r).
  assert (PyStr.drop (S (S j')) (PyStr.drop i b) = PyStr.drop (i + S (S j')) b) as Hdd.
  { clear. revert b. induction i as [|i IH]; intros b; [reflexivity|].
    destruct b as [|a b]; [reflexivity|]. simpl. apply IH. }
  rewrite Hr in Hd, Hbody, Htake. cbn [PyStr.take PyStr.contains] in Hd, Hbody, Htake.
  change (Ascii.eqb START_CHAR END_CHAR) with false in Hbody. cbv iota in Hbody.
  repeat split.
  - rewrite Hb at 1. f_equal.
    replace (PyStr.drop (S i) b) with r.
    + cbn [append] in Hd. injection Hd as Hd. rewrite Hd at 1.
      f_equal. f_equal. rewrite <- Hdd, Hr. reflexivity.
    + clear - Hr. revert b Hr. induction i as [|i IH]; intros b Hr.
      * destruct b; simpl in *; [discriminate | now injection Hr].
      * destruct b as [|a b]; simpl in *; [discriminate | now apply IH].
  - exact Hg.
  - exact Hbody.
  - rewrite Hr. cbn [PyStr.take] in *. exact Htake.
Qed.

(** X1.  Every frame that the scan extracts is a [<], a body without
    [>], and a [>]: it opens with the start delimiter and its only end
    delimiter closes it. *)
Theorem extract_frames_shape :
  forall buffer : string,
    Forall (fun m => exists body : string,
                m = String START_CHAR (body ++ String END_CHAR "")
                /\ PyStr.contains END_CHAR body = false)
           (fst (extract_frames buffer)).
Proof.
  intros buffer. remember (String.length buffer) as n eqn:Hn.
  revert buffer Hn. induction n as [n IH] using lt_wf_ind; intros b Hn.
  rewrite extract_frames_eq.
  destruct (scan_once b) as [[m b']|] eqn:E; [|constructor].
  pose proof (scan_once_shrinks _ _ _ E) as L.
  specialize (IH (String.length b') ltac:(lia) b' eq_refl).
  destruct (extract_frames b') as [ms r]. simpl in *.
  constructor; [|exact IH].
  destruct (scan_once_inv _ _ _ E) as [g [body [_ [_ [Hb ->]]]]].
  now exists body.
Qed.

(** X2.  What the scan leaves in the buffer is the end of the text it
    was given, and it holds no complete frame: a second scan extracts
    nothing and leaves it as it is. *)
Theorem extract_frames_leftover :
  forall buffer : string,
    (exists consumed : string,
        buffer = consumed ++ snd (extract_frames buffer))
    /\ extract_frames (snd (extract_frames buffer))
       = ([], snd (extract_frames buffer)).
Proof.
  intros buffer. split.
  - remember (String.length buffer) as n eqn:Hn.
    revert buffer Hn. induction n as [n IH] using lt_wf_ind; intros b Hn.
    rewrite extract_frames_eq.
    destruct (scan_once b) as [[m b']|] eqn:E; [|now exists ""].
    pose proof (scan_once_shrinks _ _ _ E) as L.
    destruct (IH (String.length b') ltac:(lia) b' eq_refl) as [p Hp].
    destruct (extract_frames b') as [ms r]. simpl in *.
    destruct (scan_once_inv _ _ _ E) as [g [body [Hb _]]].
    exists (g ++ String START_CHAR (body ++ String END_CHAR p)).
    rewrite Hb, Hp at 1. rewrite append_assoc. simpl. rewrite append_assoc.
    reflexivity.
  - destruct (extract_frames buffer) as [ms r] eqn:E. simpl.
    rewrite extract_frames_eq. now rewrite (extract_frames_rest _ _ _ E).
Qed.

(** X3.  A buffer with an opening delimiter and no closing delimiter
    after it yields no frame and is kept whole, the text before the
    opening delimiter included; so is a buffer without any opening
    delimiter. *)
Theorem extract_frames_unclosed :
  forall g r : string,
    PyStr.contains START_CHAR g = false ->
    PyStr.contains END_CHAR r = false ->
    extract_frames (g ++ String START_CHAR r) = ([], g ++ String START_CHAR r)
    /\ extract_frames g = ([], g).
Proof.
  intros g r Hg Hr. split; rewrite extract_frames_eq, scan_once_spec.
  - rewrite (index_of_fresh _ _ _ Hg), drop_all.
    change (PyStr.index_of END_CHAR (String START_CHAR r))
      with (match PyStr.index_of END_CHAR r with
            | Some i => Some (S i) | None => None end).
    now rewrite (index_of_absent _ _ Hr).
  - now rewrite (index_of_absent _ _ Hg).
Qed.

(** The scan on a stream of frames with text between them. *)
Lemma extract_frames_items (items : list (string * string)) (tail : string) :
  forallb (fun gb => negb (PyStr.contains START_CHAR (fst gb))
                     && negb (PyStr.contains END_CHAR (snd gb))) items = true ->
  extract_frames
    (fold_right (fun gb acc => fst gb ++ String START_CHAR (snd gb ++ String END_CHAR acc))
       tail items)
  = ((map (fun gb => String START_CHAR (snd gb ++ String END_CHAR "")) items
      ++ fst (extract_frames tail))%list,
     snd (extract_frames tail)).
Proof.
  induction items as [|[g body] items IH]; intros H.
  - simpl. now destruct (extract_frames tail).
  - simpl in H. apply andb_true_iff in H. destruct H as [H Hs].
    apply andb_true_iff in H. destruct H as [Hg Hb].
    apply negb_true_iff in Hg, Hb.
    cbn [fold_right map fst snd].
    rewrite extract_frames_eq, (scan_once_first _ _ _ Hg Hb), (IH Hs).
    reflexivity.
Qed.

(** X4.  A stream of frames, each after some text free of [<] and with a
    body free of [>], is cut into exactly these frames, in order; the
    text between the frames is dropped, and the scan goes on in the tail
    behind the last frame.  A [<] inside a body stays in its frame. *)
Theorem extract_frames_stream :
  forall (items : list (string * string)) (tail : string),
    forallb (fun gb => negb (PyStr.contains START_CHAR (fst gb))
                       && negb (PyStr.contains END_CHAR (snd gb))) items = true ->
    extract_frames
      (fold_right (fun gb acc => fst gb ++ String START_CHAR (snd gb ++ String END_CHAR acc))
         tail items)
    = ((map (fun gb => String START_CHAR (snd gb ++ String END_CHAR "")) items
        ++ fst (extract_frames tail))%list,
       snd (extract_frames tail)).
Proof. intros items tail H. now apply extract_frames_items. Qed.

End ScanShape.

(* ================================================================== *)
(** * The receive loop on the bytes read *)
(* ================================================================== *)

Section ByteStream.










End ByteStream.



(* ================================================================== *)
(** * More on the decoders *)
(* ================================================================== *)

Section DecoderFacts.

Lemma split_first_inv (c : ascii) (s k r : string) :
  PyStr.split_first c s = Some (k, r) ->
  s = k ++ String c r /\ PyStr.contains c k = false.
Proof.
  revert k; induction s as [|a s IH]; simpl; intros k H; [discriminate|].
  destruct (Ascii.eqb a c) eqn:E.
  - injection H as <- <-. apply Ascii.eqb_eq in E. now subst a.
  - destruct (PyStr.split_first c s) as [[x y]|]; [|discriminate].
    injection H as <- <-. destruct (IH x eq_refl) as [-> Hx].
    simpl. now rewrite E.
Qed.

Lemma split_first_none (c : ascii) (s : string) :
  PyStr.split_first c s = None -> PyStr.contains c s = false.
Proof.
  induction s as [|a s IH]; simpl; [reflexivity|].
  destruct (Ascii.eqb a c); [discriminate|].
  destruct (PyStr.split_first c s) as [[x y]|]; [discriminate | exact IH].
Qed.

Lemma lstrip_by_first (p : ascii -> bool) (s : string) :
  match PyStr.first_char (PyStr.lstrip_by p s) with
  | Some a => p a
  | None => false
  end = false.
Proof.
  induction s as [|a s IH]; simpl; [reflexivity|].
  destruct (p a) eqn:E; [exact IH | simpl; exact E].
Qed.

Lemma rstrip_by_first (p : ascii -> bool) (s : string) (a : ascii) :
  PyStr.first_char (PyStr.rstrip_by p s) = Some a -> PyStr.first_char s = Some a.
Proof.
  destruct s as [|b s]; simpl; [discriminate|].
  destruct (PyStr.rstrip_by p s); [destruct (p b); [discriminate|] |]; simpl; auto.
Qed.

Lemma strip_frame_start (raw : string) :
  PyStr.startswith START_CHAR (strip_frame raw) = false.
Proof.
  unfold strip_frame, PyStr.rstrip, PyStr.lstrip, PyStr.startswith.
  destruct (PyStr.first_char (PyStr.rstrip_by _ _)) as [a|] eqn:E; [|reflexivity].
  apply rstrip_by_first in E.
  pose proof (lstrip_by_first (Ascii.eqb START_CHAR) (PyStr.strip raw)) as F.
  rewrite E in F. now rewrite Ascii.eqb_sym.
Qed.

(** The kind and the payload text of a decoded frame: the kind holds no
    [:] and does not start with [<]. *)
Lemma split_head_kind (raw : string) :
  PyStr.contains SEPARATOR (fst (split_head (strip_frame raw))) = false
  /\ PyStr.startswith START_CHAR (fst (split_head (strip_frame raw))) = false.
Proof.
  pose proof (strip_frame_start raw) as Hs.
  unfold split_head.
  destruct (PyStr.contains SEPARATOR (strip_frame raw)) eqn:C; [|now split].
  destruct (PyStr.split_first SEPARATOR (strip_frame raw)) as [[k r]|] eqn:E.
  - destruct (split_first_inv _ _ _ _ E) as [Hm Hk]. split; [exact Hk|].
    simpl. rewrite Hm in Hs. now destruct k.
  - apply split_first_none in E. congruence.
Qed.

(** X5.  Whatever text the decoder is given, it returns a message, and
    the kind of this message holds no [:] and does not start with [<]. *)
Theorem parse_message_kind :
  forall (now0 : Q) (raw : string),
    exists m : Message,
      EVProtocol._parse_message now0 raw = Some m
      /\ PyStr.contains SEPARATOR (msg_type m) = false
      /\ PyStr.startswith START_CHAR (msg_type m) = false.
Proof.
  intros now0 raw. unfold EVProtocol._parse_message.
  pose proof (split_head_kind raw) as [H1 H2].
  destruct (split_head (strip_frame raw)) as [k d].
  eexists. split; [reflexivity|]. split; [exact H1 | exact H2].
Qed.

Lemma dict_set_keys (k : string) (v : value) (d : dict) :
  map fst (dict_set k v d)
  = if dict_mem k d then map fst d else (map fst d ++ [k])%list.
Proof.
  unfold dict_mem. induction d as [|[k0 v0] d IH]; simpl; [reflexivity|].
  destruct (String.eqb k0 k); simpl; [reflexivity|].
  rewrite IH. now destruct (dict_get k d).
Qed.

Lemma dict_get_in (k : string) (d : dict) :
  dict_get k d = None -> ~ In k (map fst d).
Proof.
  induction d as [|[k0 v0] d IH]; simpl; [tauto|].
  destruct (String.eqb k0 k) eqn:E; [discriminate|].
  intros H [F|F]; [|exact (IH H F)].
  subst k0. now rewrite String.eqb_refl in E.
Qed.

Lemma dict_set_nodup (k : string) (v : value) (d : dict) :
  NoDup (map fst d) -> NoDup (map fst (dict_set k v d)).
Proof.
  intros H. rewrite dict_set_keys. unfold dict_mem.
  destruct (dict_get k d) eqn:E; [exact H|].
  apply NoDup_app; [exact H | repeat constructor; simpl; tauto |].
  intros x Hx [<-|[]]. exact (dict_get_in _ _ E Hx).
Qed.

Lemma parse_param_nodup (data : dict) (param : string) :
  NoDup (map fst data) -> NoDup (map fst (EVProtocol.parse_param data param)).
Proof.
  intros H. unfold EVProtocol.parse_param.
  destruct (PyStr.contains VALUE_SEP param); [|now apply dict_set_nodup].
  destruct (PyStr.split_first VALUE_SEP param) as [[k t]|];
    [now apply dict_set_nodup | exact H].
Qed.

Lemma fold_parse_param_nodup (tokens : list string) (data : dict) :
  NoDup (map fst data) ->
  NoDup (map fst (fold_left EVProtocol.parse_param tokens data)).
Proof.
  revert data; induction tokens as [|t ts IH]; intros data H; [exact H|].
  simpl. apply IH. now apply parse_param_nodup.
Qed.

(** X6.  The payload of a decoded message never holds a key twice,
    whatever text was decoded. *)
Theorem parse_message_keys_distinct :
  forall (now0 : Q) (raw : string),
    exists m : Message,
      EVProtocol._parse_message now0 raw = Some m
      /\ NoDup (map fst (msg_data m)).
Proof.
  intros now0 raw. unfold EVProtocol._parse_message.
  destruct (split_head (strip_frame raw)) as [k d].
  eexists. split; [reflexivity|]. simpl.
  destruct (PyStr.nonempty d); [|constructor].
  apply fold_parse_param_nodup. constructor.
Qed.

(** X7.  In a frame of safe parts the last token decides: when it is
    [key=text], the decoded payload gives [key] the typed text, whatever
    the tokens before it gave to that key. *)
Theorem parse_message_last_wins :
  forall (kind : string) (tokens : list string) (key text : string) (now0 : Q),
    frame_safe kind (tokens ++ [key ++ String VALUE_SEP text]) = true ->
    PyStr.contains VALUE_SEP key = false ->
    exists m : Message,
      EVProtocol._parse_message now0
        (frame_of kind (tokens ++ [key ++ String VALUE_SEP text])) = Some m
      /\ msg_type m = kind
      /\ dict_get key (msg_data m) = Some (parse_value text).
Proof.
  intros kind tokens key text now0 Hsafe Hkey.
  rewrite (parse_frame _ _ _ Hsafe). eexists. split; [reflexivity|].
  split; [reflexivity|]. simpl.
  rewrite fold_left_app. simpl.
  rewrite (parse_param_pair _ _ _ Hkey). apply dict_get_set_same.
Qed.

(** X8.  A frame with a kind and nothing behind its [:] decodes as the
    frame without the [:] does: to the kind with an empty payload, not to
    a flag with the empty key. *)
Theorem parse_message_empty_payload :
  forall (kind : string) (now0 : Q),
    PyStr.contains SEPARATOR kind = false ->
    PyStr.startswith START_CHAR kind = false ->
    PyStr.endswith END_CHAR kind = false ->
    EVProtocol._parse_message now0
      (String START_CHAR (kind ++ String SEPARATOR (String END_CHAR "")))
    = Some (mkMessage kind [] now0)
    /\ EVProtocol._parse_message now0 (String START_CHAR (kind ++ String END_CHAR ""))
       = Some (mkMessage kind [] now0).
Proof.
  intros kind now0 Hsep Hst Hend. split.
  - unfold EVProtocol._parse_message.
    replace (kind ++ String SEPARATOR (String END_CHAR ""))
      with ((kind ++ String SEPARATOR "") ++ String END_CHAR "")
      by (now rewrite append_assoc).
    rewrite strip_frame_body.
    + unfold split_head. now rewrite contains_sep, (split_first_append _ _ _ Hsep).
    + destruct kind; [reflexivity | exact Hst].
    + unfold PyStr.endswith. now rewrite last_char_snoc.
  - exact (parse_frame kind [] now0
             ltac:(unfold frame_safe, closing_text; simpl; now rewrite Hsep, Hst, Hend)).
Qed.

(** X9.  On every text the three decoders return a message of the same
    kind, and the decoder of [standalone_test.py] returns the payload of
    the main decoder.  The decoder of the simulator returns this payload
    too when the payload text is empty, as in [<ESTOP>], or every token
    of it holds a [=]. *)
Theorem decoders_agree_on_pairs :
  forall (now0 : Q) (raw : string),
    exists (m : Message) (m1 : StandaloneTest.Message) (m2 : STM32Simulator.Message),
      EVProtocol._parse_message now0 raw = Some m
      /\ StandaloneTest._parse_message raw = Some m1
      /\ STM32Simulator._parse_message raw = Some m2
      /\ StandaloneTest.msg_type m1 = msg_type m
      /\ STM32Simulator.msg_type m2 = msg_type m
      /\ StandaloneTest.msg_data m1 = msg_data m
      /\ (PyStr.nonempty (snd (split_head (strip_frame raw))) = false
          \/ forallb (PyStr.contains VALUE_SEP)
               (PyStr.split PARAM_SEP (snd (split_head (strip_frame raw)))) = true ->
          STM32Simulator.msg_data m2 = msg_data m).
Proof.
  intros now0 raw.
  unfold EVProtocol._parse_message, StandaloneTest._parse_message,
    STM32Simulator._parse_message.
  destruct (split_head (strip_frame raw)) as [k d]. cbn [snd].
  eexists; eexists; eexists.
  split; [reflexivity|]. split; [reflexivity|]. split; [reflexivity|].
  split; [reflexivity|]. split; [reflexivity|]. split; [reflexivity|].
  cbn [STM32Simulator.msg_data msg_data].
  intros [-> | H]; [reflexivity|].
  destruct (PyStr.nonempty d); [|reflexivity].
  now apply simulator_params_agree.
Qed.

End DecoderFacts.

(* ================================================================== *)
(** * More on waiting *)
(* ================================================================== *)

Section WaitFacts.

Import EVProtocol.

Lemma Qltb_longer (x t t' : Q) :
  Qltb x t = true -> (t <= t')%Q -> Qltb x t' = true.
Proof.
  unfold Qltb. rewrite !negb_true_iff. intros H Ht.
  destruct (Qle_bool t' x) eqn:E; [|reflexivity].
  apply Qle_bool_iff in E.
  assert (t <= x)%Q as F by (eapply Qle_trans; eassumption).
  apply Qle_bool_iff in F. congruence.
Qed.

Lemma wait_turns_longer (fuel : nat) (w : Wait) (i : nat) (command : string)
    (t t' : Q) :
  (t <= t')%Q ->
  wait_turns fuel w i command t = Some true ->
  wait_turns fuel w i command t' = Some true.
Proof.
  intros Ht. revert i; induction fuel as [|fuel IH]; intros i; simpl; [discriminate|].
  destruct (Qltb (now (turns w i) - started w) t) eqn:E; [|discriminate].
  rewrite (Qltb_longer _ _ _ E Ht).
  destruct (got (turns w i)) as [msg|]; [|apply IH].
  destruct (String.eqb (msg_type msg) "ACK" && ack_references command (msg_data msg));
    [reflexivity | apply IH].
Qed.

(** X10.  A longer timeout never loses a confirmation: a wait that
    returns true returns true for every longer timeout, on the same
    clock and the same polled messages. *)
Theorem wait_for_ack_longer_timeout :
  forall (fuel : nat) (w : Wait) (command : string) (t t' : Q),
    (t <= t')%Q ->
    wait_for_ack fuel w command t = Some true ->
    wait_for_ack fuel w command t' = Some true.
Proof. intros fuel w command t t' Ht. apply wait_turns_longer. exact Ht. Qed.

(** X11.  With a timeout that is not positive, on a clock that does not
    run backwards, [wait_for_ack] returns false at once: it polls
    nothing, not even an acknowledgement that is waiting in the inbox. *)
Theorem wait_for_ack_no_time :
  forall (fuel : nat) (w : Wait) (command : string) (timeout : Q),
    (timeout <= 0)%Q ->
    (started w <= now (turns w 0))%Q ->
    wait_for_ack (S fuel) w command timeout = Some false.
Proof.
  intros fuel w command timeout Ht Hc. unfold wait_for_ack. simpl.
  assert (Qle_bool timeout (now (turns w 0) - started w) = true) as E.
  { apply Qle_bool_iff. apply Qle_trans with 0%Q; [exact Ht|].
    unfold Qminus. rewrite <- (Qplus_opp_r (started w)).
    apply Qplus_le_l. exact Hc. }
  unfold Qltb. now rewrite E.
Qed.

End WaitFacts.

(* ================================================================== *)
(** * More on the controller *)
(* ================================================================== *)

Section ControllerFacts.

Context `{FloatRepr}.

Lemma dict_get_absent (k : string) (d : dict) :
  ~ In k (map fst d) -> dict_get k d = None.
Proof.
  induction d as [|[k0 v0] d IH]; simpl; [reflexivity|].
  intros Hn. destruct (String.eqb k0 k) eqn:E.
  - apply String.eqb_eq in E. tauto.
  - apply IH. tauto.
Qed.

(** Looking a key up after [d.update(e)]. *)
Lemma dict_update_get (k : string) (e d : dict) :
  NoDup (map fst e) ->
  dict_get k (dict_update d e)
  = match dict_get k e with Some v => Some v | None => dict_get k d end.
Proof.
  unfold dict_update. revert d; induction e as [|[k0 v0] e IH]; intros d Hnd;
    [reflexivity|].
  inversion Hnd as [|? ? Hk He]; subst. simpl. rewrite (IH _ He).
  destruct (String.eqb k0 k) eqn:E.
  - apply String.eqb_eq in E. subst k0.
    rewrite (dict_get_absent _ _ Hk). apply dict_get_set_same.
  - destruct (dict_get k e); [reflexivity|].
    apply dict_get_set_other. intros ->. now rewrite String.eqb_refl in E.
Qed.

Lemma check_safety_frame (c : EVController) :
  telemetry (fst (_check_safety_conditions c)) = telemetry c
  /\ config (fst (_check_safety_conditions c)) = config c
  /\ connected (fst (_check_safety_conditions c)) = connected c
  /\ sent (fst (_check_safety_conditions c)) = sent c.
Proof.
  unfold _check_safety_conditions.
  destruct (PyNum.py_gt _ _) as [hot|]; [|now repeat split].
  assert (telemetry (if hot then add_fault (VStr "OVERHEAT") c else c) = telemetry c
          /\ config (if hot then add_fault (VStr "OVERHEAT") c else c) = config c
          /\ connected (if hot then add_fault (VStr "OVERHEAT") c else c) = connected c
          /\ sent (if hot then add_fault (VStr "OVERHEAT") c else c) = sent c) as F
    by (destruct hot; [apply add_fault_frame | now repeat split]).
  destruct F as [F1 [F2 [F3 F4]]].
  destruct (PyNum.py_lt _ _) as [[|]|]; simpl;
    try (destruct (add_fault_frame (VStr "LOW_BATTERY")
                     (if hot then add_fault (VStr "OVERHEAT") c else c))
           as [G1 [G2 [G3 G4]]];
         rewrite G1, G2, G3, G4);
    now repeat split.
Qed.

Lemma handle_telemetry_unfold (c : EVController) (msg : Message) :
  exists lg : list (list value),
    _handle_telemetry c msg =
    _check_safety_conditions
      (mkController (dict_update (telemetry c) (msg_data msg)) (faults c) true
         (config c) (logging_enabled c) lg (sent c)).
Proof.
  destruct c as [tel0 f0 cn0 cfg0 le0 lg0 st0].
  unfold _handle_telemetry, set_telemetry, set_connected, set_logged.
  cbn -[_check_safety_conditions log_data dict_update].
  destruct le0; eexists; reflexivity.
Qed.

(** X12.  Handling a telemetry message whose payload has distinct keys
    makes every key of the payload read its new value in the telemetry
    and leaves every other key as it was, and it sets the connectivity
    flag; this holds also when the safety check that follows raises. *)
Theorem handle_telemetry_merge :
  forall (c : EVController) (msg : Message),
    NoDup (map fst (msg_data msg)) ->
    (forall k : string,
        dict_get k (telemetry (fst (_handle_telemetry c msg)))
        = match dict_get k (msg_data msg) with
          | Some v => Some v
          | None => dict_get k (telemetry c)
          end)
    /\ connected (fst (_handle_telemetry c msg)) = true.
Proof.
  intros c msg Hnd. destruct (handle_telemetry_unfold c msg) as [lg ->].
  destruct (check_safety_frame
              (mkController (dict_update (telemetry c) (msg_data msg)) (faults c) true
                 (config c) (logging_enabled c) lg (sent c))) as [F1 [_ [F3 _]]].
  rewrite F1, F3. simpl. split; [|reflexivity].
  intros k. now apply dict_update_get.
Qed.

(** X13.  Handling a telemetry message writes nothing to the serial port
    and leaves the configuration as it is: a fault that the thresholds
    raise sends no emergency stop, whatever the configuration says. *)
Theorem handle_telemetry_silent :
  forall (c : EVController) (msg : Message),
    sent (fst (_handle_telemetry c msg)) = sent c
    /\ config (fst (_handle_telemetry c msg)) = config c.
Proof.
  intros c msg. destruct (handle_telemetry_unfold c msg) as [lg ->].
  destruct (check_safety_frame
              (mkController (dict_update (telemetry c) (msg_data msg)) (faults c) true
                 (config c) (logging_enabled c) lg (sent c))) as [_ [F2 [_ F4]]].
  rewrite F2, F4. now split.
Qed.

(** X14.  A telemetry message whose TEMP is a text that is no number,
    against a numeric overheat threshold, makes the safety check raise at
    its first comparison: the call ends by the exception and the fault
    list is as before, so the state of charge of the same message is not
    checked. *)
Theorem handle_telemetry_text_temp :
  forall (c : EVController) (msg : Message) (s : string) (h : Q),
    NoDup (map fst (msg_data msg)) ->
    dict_get "TEMP" (msg_data msg) = Some (VStr s) ->
    PyNum.num_of (config_get "overheat_threshold" (VInt 80) c) = Some h ->
    snd (_handle_telemetry c msg) = Raised
    /\ faults (fst (_handle_telemetry c msg)) = faults c.
Proof.
  intros c msg s h Hnd Ht Hh. destruct (handle_telemetry_unfold c msg) as [lg ->].
  set (c1 := mkController _ _ _ _ _ _ _).
  assert (_check_safety_conditions c1 = (c1, Raised)) as E.
  { unfold _check_safety_conditions.
    replace (dict_get_default "TEMP" (VInt 0) (telemetry c1)) with (VStr s)
      by (unfold dict_get_default, c1; cbn [telemetry];
          now rewrite (dict_update_get _ _ _ Hnd), Ht).
    change (config_get "overheat_threshold" (VInt 80) c1)
      with (config_get "overheat_threshold" (VInt 80) c).
    destruct (config_get "overheat_threshold" (VInt 80) c) as [|b|z|q|t|n];
      try discriminate Hh; reflexivity. }
  rewrite E. now split.
Qed.

(** X15.  The two handlers never take a fault off the list: a telemetry
    message leaves the list with at most OVERHEAT and LOW_BATTERY added at
    its end, a fault message with at most one name added at its end. *)
Theorem handlers_keep_faults :
  forall (wr : bool) (c : EVController) (msg : Message),
    (exists l : list value,
        faults (fst (_handle_telemetry c msg)) = (faults c ++ l)%list
        /\ incl l [VStr "OVERHEAT"; VStr "LOW_BATTERY"])
    /\ (exists l : list value,
           faults (_handle_fault wr c msg) = (faults c ++ l)%list
           /\ (List.length l <= 1)%nat).
Proof.
  intros wr c msg. split.
  - destruct (handle_telemetry_unfold c msg) as [lg ->].
    set (c1 := mkController _ _ _ _ _ _ _).
    change (faults c) with (faults c1).
    unfold _check_safety_conditions.
    destruct (PyNum.py_gt _ _) as [hot|];
      [|exists []; split; [now rewrite app_nil_r | intros x []]].
    assert (exists l1, faults (if hot then add_fault (VStr "OVERHEAT") c1 else c1)
                       = (faults c1 ++ l1)%list
                       /\ incl l1 [VStr "OVERHEAT"]) as [l1 [E1 I1]].
    { destruct hot; [|exists []; split; [now rewrite app_nil_r | intros x []]].
      rewrite add_fault_faults. destruct (PyNum.py_in _ _).
      - exists []. split; [now rewrite app_nil_r | intros x []].
      - exists [VStr "OVERHEAT"]. split; [reflexivity | apply incl_refl]. }
    destruct (PyNum.py_lt _ _) as [[|]|]; simpl.
    + rewrite add_fault_faults, E1. destruct (PyNum.py_in _ _).
      * exists l1. split; [reflexivity|].
        intros x Hx. destruct (I1 x Hx) as [<-|[]]. now left.
      * exists (l1 ++ [VStr "LOW_BATTERY"])%list. split; [now rewrite app_assoc|].
        intros x Hx. apply in_app_or in Hx. destruct Hx as [Hx|[<-|[]]].
        -- destruct (I1 x Hx) as [<-|[]]. now left.
        -- right. now left.
    + exists l1. split; [exact E1|].
      intros x Hx. destruct (I1 x Hx) as [<-|[]]. now left.
    + exists l1. split; [exact E1|].
      intros x Hx. destruct (I1 x Hx) as [<-|[]]. now left.
  - rewrite handle_fault_faults. cbv zeta. destruct (PyNum.py_in _ _).
    + exists []. split; [now rewrite app_nil_r | simpl; lia].
    + eexists. split; [reflexivity | simpl; lia].
Qed.

(** X16.  When the clock passes the 0.5 s deadline at turn [n] of the
    wait, [reset_faults] returns; it returns true exactly when the port
    took the frame [<RESET_FAULT>] and an acknowledgement of RESET_FAULT
    was polled before the deadline, and it empties the fault list exactly
    then; telemetry and configuration are as before. *)
Theorem reset_faults_spec :
  forall (wr : bool) (w : EVProtocol.Wait) (c : EVController) (n : nat),
    EVProtocol.in_time w (1 # 2) n = false ->
    (forall j : nat, (j < n)%nat -> EVProtocol.in_time w (1 # 2) j = true) ->
    forall fuel : nat, (n < fuel)%nat ->
    exists (c' : EVController) (ok : bool),
      reset_faults wr fuel w c = Some (c', ok)
      /\ ok = wr && EVProtocol.acked w "RESET_FAULT" 0 n
      /\ faults c' = (if ok then [] else faults c)
      /\ sent c' = (if wr then (sent c ++ ["<RESET_FAULT>"])%list else sent c)
      /\ telemetry c' = telemetry c
      /\ config c' = config c.
Proof.
  intros wr w c n late early fuel Hf.
  unfold reset_faults, send_message. destruct wr.
  - rewrite (wait_for_ack_returns w _ _ n late early fuel Hf).
    destruct (EVProtocol.acked w "RESET_FAULT" 0 n);
      eexists; eexists; repeat split.
  - eexists; eexists; repeat split.
Qed.

(** X17.  Reading the configuration after [ConfigManager.set]: the key
    that was set reads the new value, every other key reads what it read
    before. *)
Theorem config_set_get :
  forall (k k' : string) (v default : value) (c : EVController),
    config_get k' default (config_set k v c)
    = if String.eqb k k' then v else config_get k' default c.
Proof.
  intros k k' v default c. unfold config_get, config_set, dict_get_default. simpl.
  destruct (String.eqb k k') eqn:E.
  - apply String.eqb_eq in E. subst k'. now rewrite dict_get_set_same.
  - rewrite dict_get_set_other; [reflexivity|].
    intros ->. now rewrite String.eqb_refl in E.
Qed.

(** X18.  The configuration that [load_config] returns for a file with
    distinct keys reads, for every key, the value of the file when the
    file has the key and the default otherwise; so each of the seven
    default keys is in it. *)
Theorem load_config_defaults :
  forall (loaded : dict) (k : string),
    NoDup (map fst loaded) ->
    dict_get k (load_config (Some loaded))
    = match dict_get k loaded with
      | Some v => Some v
      | None => dict_get k default_config
      end
    /\ (In k (map fst default_config) ->
        dict_mem k (load_config (Some loaded)) = true).
Proof.
  intros loaded k Hnd. unfold load_config.
  rewrite (dict_update_get k loaded default_config Hnd). split; [reflexivity|].
  intros Hin. unfold dict_mem. rewrite (dict_update_get k loaded default_config Hnd).
  destruct (dict_get k loaded); [reflexivity|].
  simpl in Hin.
  repeat (destruct Hin as [<-|Hin]; [reflexivity|]). contradiction.
Qed.

End ControllerFacts.

(* ================================================================== *)
(** * The receive loop with its dispatch *)
(* ================================================================== *)

Section Receive.

Context `{FloatRepr}.

Variable clk : nat -> Q.
Variable port : nat -> bool.

Lemma receive_as_scan (chunks : list string) (buf : string) (fs : list string)
    (d0 : Dispatch) :
  fold_left (receive_chunk clk port) chunks (buf, fold_left (deliver clk port) fs d0)
  = (rx_buffer (fold_left rx_chunk chunks (mkRx buf fs)),
     fold_left (deliver clk port)
       (rx_frames (fold_left rx_chunk chunks (mkRx buf fs))) d0).
Proof.
  revert buf fs; induction chunks as [|c cs IH]; intros buf fs; [reflexivity|].
  cbn [fold_left]. unfold receive_chunk at 2, rx_chunk at 2 4. cbn [fst snd rx_buffer rx_frames].
  destruct (extract_frames (buf ++ c)) as [ms rest].
  rewrite <- fold_left_app. apply IH.
Qed.

Lemma rx_chunk_start (text : string) :
  rx_chunk (mkRx "" []) text
  = mkRx (snd (extract_frames text)) (fst (extract_frames text)).
Proof.
  unfold rx_chunk. cbn [rx_buffer rx_frames].
  change ("" ++ text) with text.
  now destruct (extract_frames text).
Qed.

Lemma receive_from_start (chunks : list string) (d0 : Dispatch) :
  fold_left (receive_chunk clk port) chunks ("", d0)
  = (rx_buffer (fold_left rx_chunk chunks (mkRx "" [])),
     fold_left (deliver clk port)
       (rx_frames (fold_left rx_chunk chunks (mkRx "" []))) d0).
Proof. exact (receive_as_scan chunks "" [] d0). Qed.

(** X19.  The whole receive loop does not depend on how the text
    arrives: for every cutting into chunks, the buffer, the inbox and the
    controller state at the end are those of the same text received as
    one chunk. *)
Theorem receive_chunking :
  forall (c : EVController) (chunks : list string),
    receive clk port c chunks
    = receive clk port c [fold_right append "" chunks].
Proof.
  intros c chunks. unfold receive.
  rewrite (receive_from_start chunks (mkDispatch [] c O)).
  rewrite (receive_from_start [fold_right append "" chunks] (mkDispatch [] c O)).
  rewrite (receive_loop_from chunks (mkRx "" [])) by reflexivity.
  reflexivity.
Qed.

Lemma deliver_queue (d : Dispatch) (frame : string) :
  exists m : Message,
    EVProtocol._parse_message (clk (decoded d)) frame = Some m
    /\ rx_queue (deliver clk port d frame) = (rx_queue d ++ [m])%list
    /\ controller (deliver clk port d frame)
       = _trigger_callback (port (decoded d)) (controller d) m
    /\ decoded (deliver clk port d frame) = S (decoded d).
Proof.
  unfold deliver, EVProtocol._parse_message.
  destruct (split_head (strip_frame frame)) as [k t].
  eexists. repeat split.
Qed.

Lemma deliver_all_queue (ms : list string) (d : Dispatch) :
  exists l : list Message,
    rx_queue (fold_left (deliver clk port) ms d) = (rx_queue d ++ l)%list
    /\ Forall2 (fun m f => exists t, EVProtocol._parse_message t f = Some m) l ms.
Proof.
  revert d; induction ms as [|f ms IH]; intros d.
  - exists []. split; [now rewrite app_nil_r | constructor].
  - simpl. destruct (deliver_queue d f) as [m [Hp [Hq _]]].
    destruct (IH (deliver clk port d f)) as [l [El Fl]].
    exists (m :: l). split.
    + rewrite El, Hq, <- app_assoc. reflexivity.
    + constructor; [eexists; exact Hp | exact Fl].
Qed.

(** X20.  Every frame that the scan cuts out of the received text
    reaches the inbox: at the end the inbox holds, in order, one decoded
    message for each frame of the text, whatever the kinds of the frames
    and whatever the callbacks did. *)
Theorem receive_inbox :
  forall (c : EVController) (chunks : list string),
    Forall2 (fun m f => exists t, EVProtocol._parse_message t f = Some m)
      (rx_queue (snd (receive clk port c chunks)))
      (fst (extract_frames (fold_right append "" chunks))).
Proof.
  intros c chunks. unfold receive.
  rewrite (receive_from_start chunks (mkDispatch [] c O)).
  rewrite (receive_loop_from chunks (mkRx "" [])) by reflexivity.
  rewrite rx_chunk_start. cbn [rx_buffer rx_frames snd].
  destruct (deliver_all_queue (fst (extract_frames (fold_right append "" chunks)))
              (mkDispatch [] c O)) as [l [El Fl]].
  rewrite El. exact Fl.
Qed.

Lemma trigger_callback_distinct (wr : bool) (c : EVController) (m : Message) :
  distinct (faults c) = true ->
  distinct (faults (_trigger_callback wr c m)) = true.
Proof.
  intros D. unfold _trigger_callback.
  destruct (String.eqb (msg_type m) "DATA").
  - exact (step_distinct _ _ (step_handle_telemetry c m) D).
  - destruct (String.eqb (msg_type m) "FAULT"); [|exact D].
    exact (step_distinct _ _ (step_handle_fault wr c m) D).
Qed.

Lemma deliver_all_distinct (ms : list string) (d : Dispatch) :
  distinct (faults (controller d)) = true ->
  distinct (faults (controller (fold_left (deliver clk port) ms d))) = true.
Proof.
  revert d; induction ms as [|f ms IH]; intros d D; [exact D|].
  simpl. apply IH. destruct (deliver_queue d f) as [m [_ [_ [-> _]]]].
  now apply trigger_callback_distinct.
Qed.

(** X21.  Receiving text keeps the fault list free of repetitions:
    from a controller whose fault list has no two equal entries, whatever
    text arrives in whatever chunks, the fault list at the end has no two
    equal entries. *)
Theorem receive_faults_distinct :
  forall (c : EVController) (chunks : list string),
    distinct (faults c) = true ->
    distinct (faults (controller (snd (receive clk port c chunks)))) = true.
Proof.
  intros c chunks D. unfold receive.
  rewrite (receive_from_start chunks (mkDispatch [] c O)).
  cbn [snd]. now apply deliver_all_distinct.
Qed.

End Receive.

(* ================================================================== *)
(** * The simulator as the peer of the controller *)
(* ================================================================== *)

Section Peer.

Context `{FloatRepr} `{FloatRound}.

(** The decoder of the simulator on a frame of safe parts. *)
Lemma sim_parse_frame (kind : string) (tokens : list string) :
  frame_safe kind tokens = true ->
  STM32Simulator._parse_message (frame_of kind tokens)
  = Some (STM32Simulator.mkMessage kind
            (fold_left STM32Simulator.parse_param tokens [])).
Proof.
  intros Hsafe.
  destruct (frame_safe_parts _ _ Hsafe) as [Hsep [Hst [Hend [Htok Hone]]]].
  unfold STM32Simulator._parse_message.
  destruct tokens as [|t ts].
  - unfold frame_of. rewrite (strip_frame_body kind Hst Hend).
    unfold split_head. now rewrite Hsep.
  - set (J := PyStr.join (String PARAM_SEP "") (t :: ts)).
    change (frame_of kind (t :: ts))
      with (String START_CHAR ((kind ++ String SEPARATOR J) ++ String END_CHAR "")).
    rewrite strip_frame_body.
    + unfold split_head.
      rewrite contains_sep, (split_first_append _ _ _ Hsep).
      unfold J at 1. rewrite join_nonempty.
      * unfold J. now rewrite (split_join PARAM_SEP (t :: ts)) by (discriminate || exact Htok).
      * destruct ts; [exact Hone | reflexivity].
    + destruct kind as [|a k]; [reflexivity | exact Hst].
    + unfold PyStr.endswith. rewrite last_char_append by discriminate.
      pose proof (endswith_join END_CHAR (t :: ts) kind) as E.
      unfold PyStr.endswith in E, Hend. fold J in E.
      destruct J as [|a r]; [reflexivity|].
      change (PyStr.last_char (String SEPARATOR (String a r)))
        with (PyStr.last_char (String a r)).
      rewrite E by discriminate. exact Hend.
Qed.

Lemma str_int_chars (z : Z) :
  PyStr.all_chars (fun c => PyNum.is_digit c || Ascii.eqb c "-") (PyNum.str_int z) = true.
Proof.
  assert (forall d, PyStr.all_chars (fun c => PyNum.is_digit c || Ascii.eqb c "-")
                      (NilZero.string_of_uint d) = true) as Hu.
  { intros d.
    assert (PyStr.all_chars (fun c => PyNum.is_digit c || Ascii.eqb c "-")
              (NilEmpty.string_of_uint d) = true) as Hd.
    { apply (all_chars_weaken PyNum.is_digit); [|apply string_of_uint_digits].
      intros c ->. reflexivity. }
    destruct d; [reflexivity | exact Hd ..]. }
  unfold PyNum.str_int. destruct z as [|p|p]; cbn [Z.to_int NilZero.string_of_int].
  - reflexivity.
  - apply Hu.
  - cbn [PyStr.all_chars]. rewrite Hu. reflexivity.
Qed.

Lemma str_int_safe (z : Z) :
  PyStr.contains PARAM_SEP (PyNum.str_int z) = false
  /\ PyStr.endswith END_CHAR (PyNum.str_int z) = false.
Proof.
  pose proof (str_int_chars z) as Hc. split.
  - apply all_chars_contains. revert Hc. apply all_chars_weaken.
    intros c. destruct c as [[|] [|] [|] [|] [|] [|] [|] [|]]; vm_compute;
      intros E; try discriminate E; reflexivity.
  - unfold PyStr.endswith. apply all_chars_last in Hc.
    destruct (PyStr.last_char (PyNum.str_int z)) as [a|]; [|reflexivity].
    revert Hc. destruct a as [[|] [|] [|] [|] [|] [|] [|] [|]]; vm_compute;
      intros E; try discriminate E; reflexivity.
Qed.

(** A frame with the one parameter [key=z] for an integer [z] is of
    safe parts. *)
Lemma int_frame_safe (kind key : string) (z : Z) :
  PyStr.contains SEPARATOR kind = false ->
  PyStr.startswith START_CHAR kind = false ->
  PyStr.contains PARAM_SEP key = false ->
  frame_safe kind [key ++ String VALUE_SEP (PyNum.str_int z)] = true.
Proof.
  intros Hsep Hst Hkey. destruct (str_int_safe z) as [Hs He].
  unfold frame_safe, closing_text. cbn [last forallb].
  rewrite Hsep, Hst, contains_append, Hkey.
  cbn [PyStr.contains]. change (Ascii.eqb VALUE_SEP PARAM_SEP) with false. cbv iota.
  rewrite Hs.
  assert (PyStr.endswith END_CHAR (key ++ String VALUE_SEP (PyNum.str_int z)) = false) as ->.
  { unfold PyStr.endswith in *. rewrite last_char_append by discriminate.
    destruct (PyNum.str_int z) as [|a r]; [reflexivity | exact He]. }
  simpl. now destruct key.
Qed.

Lemma rstrip_by_app (p : ascii -> bool) (a b : string) (c : ascii) :
  p c = false ->
  PyStr.rstrip_by p (a ++ String c b) = a ++ String c (PyStr.rstrip_by p b).
Proof.
  intros Hc. induction a as [|x a IH].
  - simpl. rewrite Hc. now destruct (PyStr.rstrip_by p b).
  - cbn [append PyStr.rstrip_by]. rewrite IH. now destruct a.
Qed.

(** The kind that the simulator reads from a frame with a payload
    text, whatever this text is. *)
Lemma sim_parse_kind (kind text : string) :
  PyStr.contains SEPARATOR kind = false ->
  PyStr.startswith START_CHAR kind = false ->
  exists data : dict,
    STM32Simulator._parse_message
      (String START_CHAR ((kind ++ String SEPARATOR text) ++ String END_CHAR ""))
    = Some (STM32Simulator.mkMessage kind data).
Proof.
  intros Hsep Hst. unfold STM32Simulator._parse_message, strip_frame, PyStr.strip.
  rewrite (lstrip_by_keep PyStr.is_space) by reflexivity.
  rewrite (rstrip_by_keep PyStr.is_space).
  2:{ change (String START_CHAR ((kind ++ String SEPARATOR text) ++ String END_CHAR ""))
        with (String START_CHAR (kind ++ String SEPARATOR text) ++ String END_CHAR "").
      now rewrite last_char_snoc. }
  unfold PyStr.lstrip, PyStr.rstrip. simpl PyStr.lstrip_by.
  rewrite lstrip_by_keep.
  2:{ destruct kind as [|b r]; [reflexivity|].
      unfold PyStr.startswith in Hst. cbn [PyStr.first_char append] in *.
      now rewrite Ascii.eqb_sym. }
  rewrite rstrip_by_snoc_drop by reflexivity.
  rewrite rstrip_by_app by reflexivity.
  unfold split_head. rewrite contains_sep, (split_first_append _ _ _ Hsep).
  eexists. reflexivity.
Qed.

Ltac reply_sent :=
  unfold STM32.set_branch, STM32._send_ack, STM32._send_nack, STM32._send_telemetry,
    STM32._send_message;
  repeat match goal with
         | |- context [dict_get ?k ?d] => destruct (dict_get k d)
         | |- context [STM32.py_round ?v ?n] => destruct (STM32.py_round v n)
         end;
  solve [exists ""; reflexivity | eexists; reflexivity].

(** X22.  The simulator answers every command that it handles to its
    end with exactly one frame, of whatever kind the command is, known or
    not; a command whose handling raises (the port refuses the write, or
    a state value cannot be rounded) is answered with none. *)
Theorem handle_command_one_reply :
  forall (wr : bool) (sim : STM32.Simulator) (msg : STM32Simulator.Message),
    exists frame : string,
      STM32.written (fst (STM32._handle_command wr sim (Some msg)))
      = match snd (STM32._handle_command wr sim (Some msg)) with
        | Returned => (STM32.written sim ++ [frame])%list
        | Raised => STM32.written sim
        end.
Proof.
  intros wr sim msg. unfold STM32._handle_command. cbv zeta.
  destruct wr;
  repeat match goal with
         | |- context [String.eqb (STM32Simulator.msg_type msg) ?k] =>
             destruct (String.eqb (STM32Simulator.msg_type msg) k)
         end;
    reply_sent.
Qed.

(** X23.  The simulator confirms neither of the two set commands of the
    main application.  To the frame of [set_max_throttle], whatever the
    argument, it replies [<NACK:CMD=SET_MAX_CURRENT;REASON=MISSING_PARAM>],
    as the frame carries MAX_THROTTLE and not CURRENT; to the frame of
    [set_current_limit], whatever the limit, it replies
    [<NACK:CMD=UNKNOWN;REASON=INVALID_COMMAND>], as it knows no such
    kind.  Its state is unchanged, and the decoded replies acknowledge no
    command. *)
Theorem simulator_refuses_set_commands :
  forall (sim : STM32.Simulator) (max_throttle : Z) (current : value),
    STM32.serve true sim
      (EVProtocol._build_message "SET_MAX_CURRENT"
         (Some [("MAX_THROTTLE", VInt (Z.max 0 (Z.min 100 max_throttle)))]))
    = (STM32.mkSimulator (STM32.state sim)
         (STM32.written sim ++ ["<NACK:CMD=SET_MAX_CURRENT;REASON=MISSING_PARAM>"]),
       Returned)
    /\ STM32.serve true sim
         (EVProtocol._build_message "SET_CURRENT_LIMIT" (Some [("LIMIT", current)]))
       = (STM32.mkSimulator (STM32.state sim)
            (STM32.written sim ++ ["<NACK:CMD=UNKNOWN;REASON=INVALID_COMMAND>"]),
          Returned)
    /\ (forall (now0 : Q) (command : string),
          exists m m' : Message,
            EVProtocol._parse_message now0
              "<NACK:CMD=SET_MAX_CURRENT;REASON=MISSING_PARAM>" = Some m
            /\ EVProtocol.acknowledges command m = false
            /\ EVProtocol._parse_message now0
                 "<NACK:CMD=UNKNOWN;REASON=INVALID_COMMAND>" = Some m'
            /\ EVProtocol.acknowledges command m' = false).
Proof.
  intros sim max_throttle current. split; [|split].
  - unfold STM32.serve.
    change (EVProtocol._build_message "SET_MAX_CURRENT"
              (Some [("MAX_THROTTLE", VInt (Z.max 0 (Z.min 100 max_throttle)))]))
      with (frame_of "SET_MAX_CURRENT"
              ["MAX_THROTTLE" ++ String VALUE_SEP
                 (PyNum.str_int (Z.max 0 (Z.min 100 max_throttle)))]).
    rewrite sim_parse_frame
      by (apply int_frame_safe; reflexivity).
    reflexivity.
  - unfold STM32.serve.
    destruct (sim_parse_kind "SET_CURRENT_LIMIT"
                ("LIMIT" ++ String VALUE_SEP (py_str current)) eq_refl eq_refl)
      as [data E].
    change (EVProtocol._build_message "SET_CURRENT_LIMIT" (Some [("LIMIT", current)]))
      with (String START_CHAR
              (("SET_CURRENT_LIMIT" ++ String SEPARATOR
                  ("LIMIT" ++ String VALUE_SEP (py_str current)))
                 ++ String END_CHAR "")).
    rewrite E. reflexivity.
  - intros now0 command. eexists; eexists. repeat split.
Qed.

(** X24.  The simulator serves the emergency stop and the fault reset of
    the main application, from every state: to [<ESTOP>] it sets speed,
    torque, rpm and current to 0 and replies [<ACK:ACK=ESTOP>]; to
    [<RESET_FAULT>] it empties its fault list and replies
    [<ACK:ACK=RESET_FAULT>], which the main application decodes to an
    acknowledgement of RESET_FAULT. *)
Theorem simulator_serves_stop_and_reset :
  forall sim : STM32.Simulator,
    STM32.serve true sim (EVProtocol._build_message "ESTOP" None)
    = (STM32.mkSimulator (STM32.stopped (STM32.state sim))
         (STM32.written sim ++ ["<ACK:ACK=ESTOP>"]), Returned)
    /\ STM32.serve true sim (EVProtocol._build_message "RESET_FAULT" None)
       = (STM32.mkSimulator (STM32.clear_faults (STM32.state sim))
            (STM32.written sim ++ ["<ACK:ACK=RESET_FAULT>"]), Returned)
    /\ (forall now0 : Q,
          exists m : Message,
            EVProtocol._parse_message now0 "<ACK:ACK=RESET_FAULT>" = Some m
            /\ EVProtocol.acknowledges "RESET_FAULT" m = true).
Proof.
  intros sim. split; [reflexivity|]. split; [reflexivity|].
  intros now0. eexists. split; reflexivity.
Qed.

(** X25.  The simulator takes every integer as a speed: the frame
    [<SET_SPEED:SPEED=z>] stores the integer [z] as it is, with no check
    of its range, and is acknowledged; the speed is stored before the
    reply is written, so it stays stored when the port refuses the
    write.  A SET_SPEED frame without the parameter changes nothing and
    is refused with MISSING_PARAM. *)
Theorem simulator_set_speed :
  forall (sim : STM32.Simulator) (z : Z),
    STM32.serve true sim
      (frame_of "SET_SPEED" ["SPEED" ++ String VALUE_SEP (PyNum.str_int z)])
    = (STM32.mkSimulator (STM32.set_speed (VInt z) (STM32.state sim))
         (STM32.written sim ++ ["<ACK:ACK=SET_SPEED>"]), Returned)
    /\ STM32.serve false sim
         (frame_of "SET_SPEED" ["SPEED" ++ String VALUE_SEP (PyNum.str_int z)])
       = (STM32.mkSimulator (STM32.set_speed (VInt z) (STM32.state sim))
            (STM32.written sim), Raised)
    /\ STM32.serve true sim "<SET_SPEED>"
       = (STM32.mkSimulator (STM32.state sim)
            (STM32.written sim ++ ["<NACK:CMD=SET_SPEED;REASON=MISSING_PARAM>"]),
          Returned).
Proof.
  intros sim z.
  assert (STM32Simulator._parse_message
            (frame_of "SET_SPEED" ["SPEED" ++ String VALUE_SEP (PyNum.str_int z)])
          = Some (STM32Simulator.mkMessage "SET_SPEED" [("SPEED", VInt z)])) as E.
  { rewrite sim_parse_frame by (apply int_frame_safe; reflexivity).
    cbn [fold_left]. unfold STM32Simulator.parse_param.
    rewrite contains_sep, split_first_append by reflexivity.
    cbn [dict_set]. now rewrite parse_value_str_int. }
  unfold STM32.serve. rewrite E. repeat split.
Qed.

End Peer.

(* ================================================================== *)
(** * From the encoder to the inbox *)
(* ================================================================== *)

Section EndToEnd.

Context `{FloatRepr}.

Variable clk : nat -> Q.
Variable port : nat -> bool.

Lemma frame_of_body (kind : string) (tokens : list string) :
  frame_of kind tokens
  = String START_CHAR (frame_body kind tokens ++ String END_CHAR "").
Proof. now destruct tokens. Qed.

(** The decoder on the frame that the encoder builds. *)
Lemma decode_built (kind : string) (params : dict) (now0 : Q) :
  frame_safe kind (map param_str params) = true ->
  keys_safe params = true ->
  NoDup (map fst params) ->
  EVProtocol._parse_message now0 (EVProtocol._build_message kind (Some params))
  = Some (mkMessage kind (coerced params) now0).
Proof.
  intros Hsafe Hkeys Hnd.
  rewrite build_message_frame, (parse_frame _ _ _ Hsafe).
  rewrite (fold_parse_param_built params [] Hkeys).
  rewrite dict_update_fresh; [reflexivity | | intros kv _; reflexivity].
  unfold coerced. rewrite map_map. exact Hnd.
Qed.

Lemma stream_frames (msgs : list (string * dict)) :
  forallb sendable msgs = true ->
  extract_frames
    (fold_right append ""
       (map (fun kp => EVProtocol._build_message (fst kp) (Some (snd kp))) msgs))
  = (map (fun kp => EVProtocol._build_message (fst kp) (Some (snd kp))) msgs, "").
Proof.
  intros Hs.
  pose proof (extract_frames_items
                (map (fun kp => ("", frame_body (fst kp) (map param_str (snd kp)))) msgs)
                "") as E.
  assert (fold_right
            (fun gb acc => fst gb ++ String START_CHAR (snd gb ++ String END_CHAR acc))
            "" (map (fun kp => ("", frame_body (fst kp) (map param_str (snd kp)))) msgs)
          = fold_right append ""
              (map (fun kp => EVProtocol._build_message (fst kp) (Some (snd kp))) msgs))
    as Hstream.
  { clear. induction msgs as [|[k p] msgs IH]; [reflexivity|].
    cbn [map fold_right fst snd]. rewrite IH, build_message_frame, frame_of_body.
    cbn [append]. now rewrite append_assoc. }
  rewrite Hstream in E. rewrite E.
  - rewrite map_map. cbn [fst snd].
    change (extract_frames "") with (@nil string, "").
    cbn [fst snd]. rewrite app_nil_r. f_equal.
    apply map_ext. intros [k p]. cbn [fst snd].
    now rewrite build_message_frame, frame_of_body.
  - rewrite forallb_forall in *. intros gb Hin.
    apply in_map_iff in Hin. destruct Hin as [kp [<- Hin]].
    specialize (Hs kp Hin). unfold sendable in Hs.
    rewrite !andb_true_iff in Hs. destruct Hs as [_ Hb]. exact Hb.
Qed.

(** X26.  What is encoded is what the inbox holds.  For messages that
    can go over the wire, with distinct keys each, the stream of their
    frames, received in whatever chunks, leaves the buffer empty and puts
    into the inbox one message for each of them, in order, with its kind
    and with its payload as the texts of its values read again. *)
Theorem stream_roundtrip :
  forall (c : EVController) (msgs : list (string * dict)) (chunks : list string),
    forallb sendable msgs = true ->
    Forall (fun kp => NoDup (map fst (snd kp))) msgs ->
    fold_right append "" chunks
    = fold_right append ""
        (map (fun kp => EVProtocol._build_message (fst kp) (Some (snd kp))) msgs) ->
    fst (receive clk port c chunks) = ""
    /\ Forall2 (fun m kp => msg_type m = fst kp /\ msg_data m = coerced (snd kp))
         (rx_queue (snd (receive clk port c chunks))) msgs.
Proof.
  intros c msgs chunks Hs Hnd Hstream. unfold receive.
  rewrite (receive_from_start clk port chunks (mkDispatch [] c O)).
  rewrite (receive_loop_from chunks (mkRx "" [])) by reflexivity.
  rewrite rx_chunk_start, Hstream, (stream_frames msgs Hs).
  cbn [fst snd rx_buffer rx_frames]. split; [reflexivity|].
  destruct (deliver_all_queue clk port
              (map (fun kp => EVProtocol._build_message (fst kp) (Some (snd kp))) msgs)
              (mkDispatch [] c O)) as [l [El Fl]].
  rewrite El. cbn [rx_queue app]. clear El Hstream.
  revert l Fl Hs Hnd. induction msgs as [|[k p] msgs IH]; intros l Fl Hs Hnd.
  - inversion Fl. constructor.
  - cbn [map] in Fl. inversion Fl as [|m f l' fs [t Hp] Fl' E1 E2]; subst.
    cbn [forallb] in Hs. apply andb_true_iff in Hs. destruct Hs as [Hk Hs].
    inversion Hnd as [|? ? Hn Hnd']; subst.
    unfold sendable in Hk. rewrite !andb_true_iff in Hk.
    destruct Hk as [[Hsafe Hkeys] _]. cbn [fst snd] in *.
    rewrite (decode_built k p t Hsafe Hkeys Hn) in Hp. injection Hp as <-.
    constructor; [now split | exact (IH l' Fl' Hs Hnd')].
Qed.

End EndToEnd.

(* ================================================================== *)
(** * Types on the wire *)
(* ================================================================== *)

Section WireTypes.

Context `{FloatRepr}.

Lemma pair_frame_safe (kind key text : string) :
  PyStr.contains SEPARATOR kind = false ->
  PyStr.startswith START_CHAR kind = false ->
  PyStr.contains PARAM_SEP key = false ->
  PyStr.contains PARAM_SEP text = false ->
  PyStr.endswith END_CHAR text = false ->
  frame_safe kind [key ++ String VALUE_SEP text] = true.
Proof.
  intros Hsep Hst Hkey Hs He.
  unfold frame_safe, closing_text. cbn [last forallb].
  rewrite Hsep, Hst, contains_append, Hkey.
  cbn [PyStr.contains]. change (Ascii.eqb VALUE_SEP PARAM_SEP) with false. cbv iota.
  rewrite Hs.
  assert (PyStr.endswith END_CHAR (key ++ String VALUE_SEP text) = false) as ->.
  { unfold PyStr.endswith in *. rewrite last_char_append by discriminate.
    destruct text as [|a r]; [reflexivity | exact He]. }
  simpl. now destruct key.
Qed.

(** X27.  The wire carries no types.  For a kind and a key that can go
    over the wire, a string value that spells an integer comes back from
    encoding and decoding as that integer, a boolean comes back as the
    string [True] or [False], and [None] as the string [None]. *)
Theorem roundtrip_changes_types :
  forall (kind key : string) (z : Z) (b : bool) (now0 : Q),
    PyStr.contains SEPARATOR kind = false ->
    PyStr.startswith START_CHAR kind = false ->
    PyStr.contains PARAM_SEP key = false ->
    PyStr.contains VALUE_SEP key = false ->
    EVProtocol._parse_message now0
      (EVProtocol._build_message kind (Some [(key, VStr (PyNum.str_int z))]))
    = Some (mkMessage kind [(key, VInt z)] now0)
    /\ EVProtocol._parse_message now0
         (EVProtocol._build_message kind (Some [(key, VBool b)]))
       = Some (mkMessage kind [(key, VStr (if b then "True" else "False"))] now0)
    /\ EVProtocol._parse_message now0
         (EVProtocol._build_message kind (Some [(key, VNone)]))
       = Some (mkMessage kind [(key, VStr "None")] now0).
Proof.
  intros kind key z b now0 Hsep Hst Hkey Hval.
  assert (keys_safe_one : forall v, keys_safe [(key, v)] = true)
    by (intros v; unfold keys_safe; simpl; now rewrite Hval).
  assert (nodup_one : forall v : value, NoDup (map fst [(key, v)]))
    by (intros v; repeat constructor; simpl; tauto).
  destruct (str_int_safe z) as [Hs He].
  split; [|split].
  - rewrite decode_built; [|now apply pair_frame_safe|apply keys_safe_one|apply nodup_one].
    unfold coerced. cbn [map fst snd py_str]. now rewrite parse_value_str_int.
  - rewrite decode_built;
      [|apply pair_frame_safe; try assumption; now destruct b
       |apply keys_safe_one|apply nodup_one].
    now destruct b.
  - rewrite decode_built;
      [reflexivity|now apply pair_frame_safe|apply keys_safe_one|apply nodup_one].
Qed.

End WireTypes.

(* ================================================================== *)
(** * The further theorems at concrete inputs *)
(* ================================================================== *)

(** X3 at the buffer [ab<GET]. *)
Lemma extract_frames_unclosed_witness :
  PyStr.contains START_CHAR "ab" = false
  /\ extract_frames ("ab" ++ String START_CHAR "GET") = ([], "ab<GET").
Proof.
  split; [reflexivity|].
  exact (proj1 (extract_frames_unclosed "ab" "GET" eq_refl eq_refl)).
Defined.

(** X4 at the stream [x<A>y<B<C:1>z]. *)
Lemma extract_frames_stream_witness :
  extract_frames "x<A>y<B<C:1>z" = (["<A>"; "<B<C:1>"], "z").
Proof.
  exact (extract_frames_stream [("x", "A"); ("y", "B<C:1")] "z" eq_refl).
Defined.

(** X7 at the frame [<S:A=1;B;A=2.5>]. *)
Lemma parse_message_last_wins_witness :
  frame_safe "S" (["A=1"; "B"] ++ ["A" ++ String VALUE_SEP "2.5"]) = true
  /\ exists m : Message,
       EVProtocol._parse_message 0 "<S:A=1;B;A=2.5>" = Some m
       /\ msg_type m = "S"
       /\ dict_get "A" (msg_data m) = Some (VFloat (5 # 2)).
Proof.
  split; [reflexivity|].
  exact (parse_message_last_wins "S" ["A=1"; "B"] "A" "2.5" 0 eq_refl eq_refl).
Defined.

(** X8 at the kind [GET_TELEM]. *)
Lemma parse_message_empty_payload_witness :
  EVProtocol._parse_message 0 "<GET_TELEM:>" = Some (mkMessage "GET_TELEM" [] 0).
Proof.
  exact (proj1 (parse_message_empty_payload "GET_TELEM" 0 eq_refl eq_refl eq_refl)).
Defined.

(** X9 at the frames [<SET_SPEED:SPEED=30>] and [<ESTOP>]. *)
Lemma decoders_agree_on_pairs_witness :
  (exists (m : Message) (m2 : STM32Simulator.Message),
      EVProtocol._parse_message 0 "<SET_SPEED:SPEED=30>" = Some m
      /\ STM32Simulator._parse_message "<SET_SPEED:SPEED=30>" = Some m2
      /\ STM32Simulator.msg_type m2 = msg_type m
      /\ STM32Simulator.msg_data m2 = msg_data m)
  /\ (exists (m : Message) (m2 : STM32Simulator.Message),
        EVProtocol._parse_message 0 "<ESTOP>" = Some m
        /\ STM32Simulator._parse_message "<ESTOP>" = Some m2
        /\ STM32Simulator.msg_type m2 = msg_type m
        /\ STM32Simulator.msg_data m2 = msg_data m).
Proof.
  split.
  - destruct (decoders_agree_on_pairs 0 "<SET_SPEED:SPEED=30>")
      as [m [m1 [m2 [E [_ [E2 [_ [T [_ D]]]]]]]]].
    exists m, m2. repeat split; try assumption. apply D. now right.
  - destruct (decoders_agree_on_pairs 0 "<ESTOP>")
      as [m [m1 [m2 [E [_ [E2 [_ [T [_ D]]]]]]]]].
    exists m, m2. repeat split; try assumption. apply D. now left.
Defined.

(** X10 at the wait of the examples, from 0.5 s to 1 s. *)
Lemma wait_for_ack_longer_timeout_witness :
  EVProtocol.wait_for_ack 4
    (example_wait (Some (mkMessage "ACK" [("ACK", VStr "RESET_FAULT")] (1 # 5))))
    "RESET_FAULT" (1 # 2) = Some true
  /\ EVProtocol.wait_for_ack 4
       (example_wait (Some (mkMessage "ACK" [("ACK", VStr "RESET_FAULT")] (1 # 5))))
       "RESET_FAULT" 1 = Some true.
Proof.
  split; [reflexivity|].
  apply (wait_for_ack_longer_timeout 4
           (example_wait (Some (mkMessage "ACK" [("ACK", VStr "RESET_FAULT")] (1 # 5))))
           "RESET_FAULT" (1 # 2) 1).
  - discriminate.
  - reflexivity.
Defined.

(** X11 at the wait of the examples with the timeout 0. *)
Lemma wait_for_ack_no_time_witness :
  EVProtocol.wait_for_ack 1
    (example_wait (Some (mkMessage "ACK" [("ACK", VStr "RESET_FAULT")] (1 # 5))))
    "RESET_FAULT" 0 = Some false.
Proof.
  apply (wait_for_ack_no_time 0
           (example_wait (Some (mkMessage "ACK" [("ACK", VStr "RESET_FAULT")] (1 # 5))))
           "RESET_FAULT" 0); discriminate.
Defined.

(** X12 at the initial state and the message of [<DATA:RPM=1200;SOC=50>]. *)
Lemma handle_telemetry_merge_witness :
  NoDup (map fst [("RPM", VInt 1200); ("SOC", VInt 50)])
  /\ dict_get "RPM"
       (telemetry
          (fst (_handle_telemetry (init default_config)
                  (mkMessage "DATA" [("RPM", VInt 1200); ("SOC", VInt 50)] 0))))
     = Some (VInt 1200).
Proof.
  assert (NoDup (map fst [("RPM", VInt 1200); ("SOC", VInt 50)])) as N
    by (repeat constructor; simpl; intuition discriminate).
  split; [exact N|].
  exact (proj1 (handle_telemetry_merge (init default_config)
                  (mkMessage "DATA" [("RPM", VInt 1200); ("SOC", VInt 50)] 0) N) "RPM").
Defined.

(** X14 at the initial state and the message of [<DATA:TEMP=hot;SOC=5>]. *)
Lemma handle_telemetry_text_temp_witness :
  snd (_handle_telemetry (init default_config)
         (mkMessage "DATA" [("TEMP", VStr "hot"); ("SOC", VInt 5)] 0)) = Raised
  /\ faults (fst (_handle_telemetry (init default_config)
                    (mkMessage "DATA" [("TEMP", VStr "hot"); ("SOC", VInt 5)] 0)))
     = [].
Proof.
  apply (handle_telemetry_text_temp (init default_config)
           (mkMessage "DATA" [("TEMP", VStr "hot"); ("SOC", VInt 5)] 0) "hot" 80).
  - repeat constructor; simpl; intuition discriminate.
  - reflexivity.
  - reflexivity.
Defined.

(** X16 at a wait that polls the acknowledgement of the reset. *)
Lemma reset_faults_spec_witness :
  exists (c' : EVController) (ok : bool),
    @reset_faults no_float_repr true 4
      (example_wait (Some (mkMessage "ACK" [("ACK", VStr "RESET_FAULT")] (1 # 5))))
      (set_faults [VStr "OVERHEAT"] (init default_config)) = Some (c', ok)
    /\ ok = true
    /\ faults c' = (if ok then [] else [VStr "OVERHEAT"]).
Proof.
  destruct (@reset_faults_spec no_float_repr true
              (example_wait (Some (mkMessage "ACK" [("ACK", VStr "RESET_FAULT")] (1 # 5))))
              (set_faults [VStr "OVERHEAT"] (init default_config)) 3 eq_refl)
    with (fuel := 4%nat) as [c' [ok [E [O [F _]]]]].
  - intros j Hj. first_turns j.
  - lia.
  - exists c', ok. repeat split; assumption.
Defined.

(** X18 at a file that sets the overheat threshold only. *)
Lemma load_config_defaults_witness :
  NoDup (map fst [("overheat_threshold", VInt 70)])
  /\ dict_get "overheat_threshold"
       (load_config (Some [("overheat_threshold", VInt 70)])) = Some (VInt 70)
  /\ dict_get "max_throttle"
       (load_config (Some [("overheat_threshold", VInt 70)])) = Some (VInt 100).
Proof.
  assert (NoDup (map fst [("overheat_threshold", VInt 70)])) as N
    by (repeat constructor; simpl; tauto).
  split; [exact N|]. split.
  - exact (proj1 (load_config_defaults [("overheat_threshold", VInt 70)]
                    "overheat_threshold" N)).
  - exact (proj1 (load_config_defaults [("overheat_threshold", VInt 70)]
                    "max_throttle" N)).
Defined.

(** X21 at the initial state and a text with the same fault twice. *)
Lemma receive_faults_distinct_witness :
  distinct
    (faults
       (controller
          (snd (@receive no_float_repr (fun _ => 0%Q) (fun _ => true)
                  (init default_config)
                  ["<FAULT:FAULT=OVERCURRENT><FAU"; "LT:FAULT=OVERCURRENT>"]))))
  = true.
Proof.
  exact (@receive_faults_distinct no_float_repr (fun _ => 0%Q) (fun _ => true)
           (init default_config)
           ["<FAULT:FAULT=OVERCURRENT><FAU"; "LT:FAULT=OVERCURRENT>"] eq_refl).
Defined.

(** X26 at two messages received in three chunks. *)
Lemma stream_roundtrip_witness :
  fst (@receive no_float_repr (fun _ => 0%Q) (fun _ => true) (init default_config)
         ["<SET_SPEED:SP"; "EED=30><GET"; "_TELEM>"]) = ""
  /\ Forall2 (fun m kp => msg_type m = fst kp
                          /\ msg_data m = @coerced no_float_repr (snd kp))
       (rx_queue
          (snd (@receive no_float_repr (fun _ => 0%Q) (fun _ => true)
                  (init default_config)
                  ["<SET_SPEED:SP"; "EED=30><GET"; "_TELEM>"])))
       [("SET_SPEED", [("SPEED", VInt 30)]); ("GET_TELEM", [])].
Proof.
  apply (@stream_roundtrip no_float_repr (fun _ => 0%Q) (fun _ => true)
           (init default_config)
           [("SET_SPEED", [("SPEED", VInt 30)]); ("GET_TELEM", [])]
           ["<SET_SPEED:SP"; "EED=30><GET"; "_TELEM>"]).
  - reflexivity.
  - repeat constructor; simpl; tauto.
  - reflexivity.
Defined.

(** X27 at the kind [T] and the key [X]. *)
Lemma roundtrip_changes_types_witness :
  EVProtocol._parse_message 0
    (@EVProtocol._build_message no_float_repr "T" (Some [("X", VStr "5")]))
  = Some (mkMessage "T" [("X", VInt 5)] 0).
Proof.
  exact (proj1 (@roundtrip_changes_types no_float_repr "T" "X" 5 true 0
                  eq_refl eq_refl eq_refl eq_refl)).
Defined.

(** X28 at the text [-85.0]. *)
Lemma point_zero_exact_witness :
  PyStr.all_chars PyNum.is_digit "85" = true
  /\ parse_value "-85.0" = VFloat (-85 # 1).
Proof.
  split; [reflexivity|].
  apply (point_zero_exact "-" "85");
    [right; right; left; reflexivity | discriminate | reflexivity | reflexivity].
Defined.
